(** * go_gpt3_cli: the completion request/response cycle of [generateText]

    A shallow embedding of [src/main.go] (and of the two smaller variants of
    the same file) together with the parts of the Go standard library the
    function calls: [unicode/utf8], [strconv], [encoding/json], [net/http],
    [os], [errors] and [fmt]; and of [main], which reads the prompt and
    prints the result, with the parts of [unicode], [strings] and [bufio]
    it calls.

    Go strings are byte sequences: they are modelled by [string], whose
    characters are the 256 values of [ascii].  Go integers are modelled by
    [Z] with their range checks written out, Go floats by [spec_float] at
    the precision of their type. *)

From Stdlib Require Import ZArith List String Ascii Bool Lia.
From Stdlib Require Import Floats.SpecFloat.
Import ListNotations.

Set Warnings "-register-all".

Open Scope string_scope.
Open Scope Z_scope.

(** ** Bytes *)

(** The numeric value of a byte, and Go's conversion [byte(z)]. *)
Definition code (c : ascii) : Z := Z.of_N (N_of_ascii c).

Definition chr (z : Z) : ascii := ascii_of_N (Z.to_N (z mod 256)).

(** The double quote, which a string literal of this file cannot hold. *)
Definition dquote : ascii := "034"%char.

(** [q s] is [s] with every single quote turned into a double quote; it
    is only used to write JSON texts legibly. *)
Fixpoint q (s : string) : string :=
  match s with
  | EmptyString => EmptyString
  | String c t => String (if Ascii.eqb c "'"%char then dquote else c) (q t)
  end.

Definition snoc (s : string) (c : ascii) : string := s ++ String c EmptyString.

Fixpoint drop (n : nat) (s : string) : string :=
  match n, s with
  | O, _ => s
  | S n', String _ t => drop n' t
  | S _, EmptyString => EmptyString
  end.

(** The byte [s[i]], read within the bounds only. *)
Definition at_ (s : string) (i : nat) : ascii :=
  match String.get i s with
  | Some c => c
  | None => zero
  end.

(** ** unicode/utf8 *)

Module utf8.

Definition RuneError : Z := 0xFFFD.
Definition RuneSelf : Z := 0x80.
Definition MaxRune : Z := 0x10FFFF.
Definition surrogateMin : Z := 0xD800.
Definition surrogateMax : Z := 0xDFFF.

Definition maskx : Z := 0x3F.
Definition mask2 : Z := 0x1F.
Definition mask3 : Z := 0x0F.
Definition mask4 : Z := 0x07.
Definition locb : Z := 0x80.
Definition hicb : Z := 0xBF.

Definition rune1Max : Z := 0x7F.
Definition rune2Max : Z := 0x7FF.
Definition rune3Max : Z := 0xFFFF.

(** An entry of the table [first]: an ASCII byte, an invalid leading byte,
    or a leading byte with the size of its sequence and the range accepted
    for the second byte. *)
Inductive firstEntry : Type :=
| as_ : firstEntry
| xx : firstEntry
| lead (size : nat) (lo hi : Z) : firstEntry.

Definition first (b : Z) : firstEntry :=
  if b <? 0x80 then as_
  else if b <? 0xC2 then xx
  else if b <? 0xE0 then lead 2 locb hicb
  else if b =? 0xE0 then lead 3 0xA0 hicb
  else if b <? 0xED then lead 3 locb hicb
  else if b =? 0xED then lead 3 locb 0x9F
  else if b <? 0xF0 then lead 3 locb hicb
  else if b =? 0xF0 then lead 4 0x90 hicb
  else if b <? 0xF4 then lead 4 locb hicb
  else if b =? 0xF4 then lead 4 locb 0x8F
  else xx.

(** [DecodeRuneInString s]: the first rune of [s] and its width in bytes;
    [(RuneError, 0)] on the empty string and [(RuneError, 1)] on an
    encoding that is invalid. *)
Definition DecodeRuneInString (s : string) : Z * nat :=
  match s with
  | EmptyString => (RuneError, 0%nat)
  | String c0 t0 =>
    let s0 := code c0 in
    match first s0 with
    | as_ => (s0, 1%nat)
    | xx => (RuneError, 1%nat)
    | lead sz lo hi =>
      match t0 with
      | EmptyString => (RuneError, 1%nat)
      | String c1 t1 =>
        let s1 := code c1 in
        if (s1 <? lo) || (hi <? s1) then (RuneError, 1%nat)
        else if (sz <=? 2)%nat then
          (Z.lor (Z.shiftl (Z.land s0 mask2) 6) (Z.land s1 maskx), 2%nat)
        else
          match t1 with
          | EmptyString => (RuneError, 1%nat)
          | String c2 t2 =>
            let s2 := code c2 in
            if (s2 <? locb) || (hicb <? s2) then (RuneError, 1%nat)
            else if (sz <=? 3)%nat then
              (Z.lor (Z.lor (Z.shiftl (Z.land s0 mask3) 12)
                            (Z.shiftl (Z.land s1 maskx) 6))
                     (Z.land s2 maskx), 3%nat)
            else
              match t2 with
              | EmptyString => (RuneError, 1%nat)
              | String c3 t3 =>
                let s3 := code c3 in
                if (s3 <? locb) || (hicb <? s3) then (RuneError, 1%nat)
                else
                  (Z.lor (Z.lor (Z.lor (Z.shiftl (Z.land s0 mask4) 18)
                                       (Z.shiftl (Z.land s1 maskx) 12))
                                (Z.shiftl (Z.land s2 maskx) 6))
                         (Z.land s3 maskx), 4%nat)
              end
          end
      end
    end
  end.

Definition encode3 (r : Z) : string :=
  String (chr (Z.lor 0xE0 (Z.shiftr r 12)))
    (String (chr (Z.lor 0x80 (Z.land (Z.shiftr r 6) maskx)))
      (String (chr (Z.lor 0x80 (Z.land r maskx))) EmptyString)).

(** [AppendRune] on an empty buffer: the UTF-8 encoding of [r], that of
    [RuneError] when [r] is a surrogate or out of range. *)
Definition EncodeRune (r : Z) : string :=
  if (0 <=? r) && (r <=? rune1Max) then String (chr r) EmptyString
  else if (0 <=? r) && (r <=? rune2Max) then
    String (chr (Z.lor 0xC0 (Z.shiftr r 6)))
      (String (chr (Z.lor 0x80 (Z.land r maskx))) EmptyString)
  else if (r <? 0) || (MaxRune <? r)
          || ((surrogateMin <=? r) && (r <=? surrogateMax)) then
    encode3 RuneError
  else if r <=? rune3Max then encode3 r
  else
    String (chr (Z.lor 0xF0 (Z.shiftr r 18)))
      (String (chr (Z.lor 0x80 (Z.land (Z.shiftr r 12) maskx)))
        (String (chr (Z.lor 0x80 (Z.land (Z.shiftr r 6) maskx)))
          (String (chr (Z.lor 0x80 (Z.land r maskx))) EmptyString))).

(** [ValidString s]: [s] is a sequence of valid encodings. *)
Fixpoint valid_fuel (fuel : nat) (s : string) : bool :=
  match fuel with
  | O => true
  | S fuel' =>
    match s with
    | EmptyString => true
    | String _ _ =>
      match DecodeRuneInString s with
      | (r, 1%nat) => if r =? RuneError then false else valid_fuel fuel' (drop 1 s)
      | (_, size) => valid_fuel fuel' (drop size s)
      end
    end
  end.

Definition ValidString (s : string) : bool := valid_fuel (String.length s) s.

(** The longest encoding of a rune, in bytes. *)
Definition UTFMax : nat := 4.

(** [RuneStart b]: [b] is not a continuation byte. *)
Definition RuneStart (b : ascii) : bool := negb (Z.land (code b) 0xC0 =? 0x80).

(** The loop of [DecodeLastRuneInString] that steps back to the start of
    the last rune, no further than [lim]; [start] is an [int] and may
    reach [-1]. *)
Fixpoint runeStartFrom (fuel : nat) (s : string) (start lim : Z) : Z :=
  match fuel with
  | O => start
  | Datatypes.S fuel' =>
    if lim <=? start then
      if RuneStart (at_ s (Z.to_nat start)) then start
      else runeStartFrom fuel' s (start - 1) lim
    else start
  end.

(** [DecodeLastRuneInString s]: the last rune of [s] and its width. *)
Definition DecodeLastRuneInString (s : string) : Z * nat :=
  let end_ := Z.of_nat (String.length s) in
  if end_ =? 0 then (RuneError, 0%nat)
  else
    let start := end_ - 1 in
    let r := code (at_ s (Z.to_nat start)) in
    if r <? RuneSelf then (r, 1%nat)
    else
      let lim := end_ - Z.of_nat UTFMax in
      let lim := if lim <? 0 then 0 else lim in
      let start := runeStartFrom UTFMax s (start - 1) lim in
      let start := if start <? 0 then 0 else start in
      let (r, size) := DecodeRuneInString (drop (Z.to_nat start) s) in
      if negb (start + Z.of_nat size =? end_) then (RuneError, 1%nat)
      else (r, size).

End utf8.

(** ** strconv *)

Module strconv.

Definition isDigit (c : ascii) : bool := (48 <=? code c) && (code c <=? 57).

Fixpoint allDigits (s : string) : bool :=
  match s with
  | EmptyString => true
  | String c t => isDigit c && allDigits t
  end.

(** The value of a run of decimal digits, most significant first. *)
Fixpoint atoi_acc (acc : Z) (s : string) : Z :=
  match s with
  | EmptyString => acc
  | String c t => atoi_acc (10 * acc + (code c - 48)) t
  end.

Definition atoi (s : string) : Z := atoi_acc 0 s.

(** The longest prefix of digits, and what follows it. *)
Fixpoint spanDigits (s : string) : string * string :=
  match s with
  | EmptyString => (EmptyString, EmptyString)
  | String c t =>
    if isDigit c then let (d, r) := spanDigits t in (String c d, r)
    else (EmptyString, s)
  end.

Fixpoint utoa (fuel : nat) (n : Z) (acc : string) : string :=
  match fuel with
  | O => acc
  | S fuel' =>
    let acc' := String (chr (48 + n mod 10)) acc in
    if n <? 10 then acc' else utoa fuel' (n / 10) acc'
  end.

(** [FormatInt(i, 10)], which is also what the verb [%d] prints. *)
Definition Itoa (i : Z) : string :=
  if i <? 0 then String "-"%char (utoa (S (Z.to_nat (Z.log2 (- i)))) (- i) EmptyString)
  else utoa (S (Z.to_nat (Z.log2 i))) i EmptyString.

(** [ParseInt(s, 10, bitSize)]: [None] stands for both [ErrSyntax] and
    [ErrRange]. *)
Definition ParseInt (s : string) (bitSize : Z) : option Z :=
  let '(neg, body) :=
    match s with
    | String "-"%char t => (true, t)
    | String "+"%char t => (false, t)
    | _ => (false, s)
    end in
  match body with
  | EmptyString => None
  | _ =>
    if allDigits body then
      let v := if neg then - atoi body else atoi body in
      if (- 2 ^ (bitSize - 1) <=? v) && (v <? 2 ^ (bitSize - 1)) then Some v
      else None
    else None
  end.

(** A decimal literal read as [(-1)^neg * mant * 10^exp]; [d_digits] is
    the number of digits of [mant], which has no leading zero. *)
Record decimal : Type := mkDecimal { d_neg : bool; d_mant : Z; d_digits : nat; d_exp : Z }.

(** The digits that are left once the leading zeros are skipped. *)
Fixpoint skipZeros (s : string) : string :=
  match s with
  | String "0"%char t => skipZeros t
  | _ => s
  end.

(** The loop that reads the digits of the exponent: a digit is taken in
    only while the value read so far is below 10000. *)
Fixpoint readExponentDigits (e : Z) (ds : string) : Z :=
  match ds with
  | EmptyString => e
  | String c t => readExponentDigits (if e <? 10000 then e * 10 + (code c - 48) else e) t
  end.

Definition readExponent (s : string) : option Z :=
  match s with
  | EmptyString => Some 0
  | String c t =>
    if Ascii.eqb c "e"%char || Ascii.eqb c "E"%char then
      let '(eneg, ds) :=
        match t with
        | String "-"%char u => (true, u)
        | String "+"%char u => (false, u)
        | _ => (false, t)
        end in
      match ds with
      | EmptyString => None
      | _ =>
        if allDigits ds
        then Some (if eneg then - readExponentDigits 0 ds else readExponentDigits 0 ds)
        else None
      end
    else None
  end.

(** The decimal syntax of [readFloat]: sign, digits, an optional fraction,
    an optional exponent.  The zeros before the first digit that is not
    zero are skipped, before the point and after it: they are no digits
    of the mantissa and only move the decimal point [dp], which stands
    before the digits ([0.d1d2... * 10^dp]). *)
Definition readFloat (s : string) : option decimal :=
  let '(neg, body) :=
    match s with
    | String "-"%char t => (true, t)
    | String "+"%char t => (false, t)
    | _ => (false, s)
    end in
  let (ip, r1) := spanDigits body in
  let '(fp, r2) :=
    match r1 with
    | String "."%char t => spanDigits t
    | _ => (EmptyString, r1)
    end in
  match (ip ++ fp)%string with
  | EmptyString => None
  | _ =>
    let '(ds, dp) :=
      match skipZeros ip with
      | EmptyString =>
        (skipZeros fp, Z.of_nat (String.length (skipZeros fp)) - Z.of_nat (String.length fp))
      | ip' => ((ip' ++ fp)%string, Z.of_nat (String.length ip'))
      end in
    match readExponent r2 with
    | Some e => Some (mkDecimal neg (atoi ds) (String.length ds) (dp + e - Z.of_nat (String.length ds)))
    | None => None
    end
  end.

(** [num / den] rounded to nearest, ties to even, in the format of
    precision [prec] and maximal exponent [emax]: the quotient is taken to
    two bits more than the format keeps and the rest is folded into a
    sticky bit. *)
Definition ofRatio (prec emax : Z) (neg : bool) (num den : Z) : spec_float :=
  if num =? 0 then S754_zero neg
  else
    let k := Z.max 0 (prec + 3 + Z.log2 den - Z.log2 num) in
    let n := num * 2 ^ k in
    let m := 2 * (n / den) + (if n mod den =? 0 then 0 else 1) in
    binary_normalize prec emax (if neg then - m else m) (- (k + 1)) neg.

Definition precOf (bitSize : Z) : Z := if bitSize =? 32 then 24 else 53.
Definition emaxOf (bitSize : Z) : Z := if bitSize =? 32 then 128 else 1024.

(** [ParseFloat(s, bitSize)] on decimal literals; [None] stands for
    [ErrSyntax] and for [ErrRange], which is an overflow to infinity (an
    underflow to zero is no error).  The value is rounded exactly; as in
    [decimal.floatBits], a decimal point past 310 is an overflow and one
    before -330 gives zero, without any arithmetic. *)
Definition ParseFloat (s : string) (bitSize : Z) : option spec_float :=
  match readFloat s with
  | None => None
  | Some d =>
    let dp := Z.of_nat (d_digits d) + d_exp d in
    if d_mant d =? 0 then Some (S754_zero (d_neg d))
    else if 310 <? dp then None
    else if dp <? - 330 then Some (S754_zero (d_neg d))
    else
      let f :=
        if 0 <=? d_exp d then
          ofRatio (precOf bitSize) (emaxOf bitSize) (d_neg d) (d_mant d * 10 ^ d_exp d) 1
        else
          ofRatio (precOf bitSize) (emaxOf bitSize) (d_neg d) (d_mant d) (10 ^ (- d_exp d)) in
      match f with
      | S754_infinity _ => None
      | _ => Some f
      end
  end.

(** *** Shortest formatting of floats

    [FormatFloat(f, fmt, -1, bitSize)] prints the shortest decimal that
    reads back as [f], and the closest to [f] among the shortest.  A
    finite [f] is [m * 2^e]; the decimals that read back as [f] are those
    between the midpoints to its two neighbours, included when [m] is
    even.  All comparisons are between [c * 10^k] and [x * 2^s], exactly. *)

Definition cmpScaled (c k x s : Z) : comparison :=
  Z.compare (c * 10 ^ Z.max k 0 * 2 ^ Z.max (- s) 0)
            (x * 2 ^ Z.max s 0 * 10 ^ Z.max (- k) 0).

(** [floor (x * 2^s / 10^k)]. *)
Definition floorScaled (k x s : Z) : Z :=
  (x * 2 ^ Z.max s 0 * 10 ^ Z.max (- k) 0) / (10 ^ Z.max k 0 * 2 ^ Z.max (- s) 0).

(** [floor (log10 (x * 2^s))], from the binary logarithm and a correction
    of at most two steps either way. *)
Definition floorLog10 (x s : Z) : Z :=
  let est := ((Z.log2 x + s) * 30103) / 100000 in
  let up k := match cmpScaled 1 (k + 1) x s with Gt => k | _ => k + 1 end in
  let down k := match cmpScaled 1 k x s with Gt => k - 1 | _ => k end in
  up (up (down (down est))).

Fixpoint stripZeros (fuel : nat) (c k : Z) : Z * Z :=
  match fuel with
  | O => (c, k)
  | S fuel' => if (c mod 10 =? 0) && negb (c =? 0) then stripZeros fuel' (c / 10) (k + 1) else (c, k)
  end.

(** The digits [c] and the exponent [k] of the shortest decimal
    [c * 10^k] within the bounds [lo * 2^s] and [hi * 2^s] of
    [v * 2^s], trying [n], [n + 1], ... digits. *)
Fixpoint shortestFrom (fuel : nat) (n : Z) (k0 v lo hi s : Z) (incl : bool) : Z * Z :=
  let k := k0 - n + 1 in
  let c := floorScaled k v s in
  let inside (d : Z) (bound : Z) (want : comparison) :=
    match cmpScaled d k bound s with
    | Eq => incl
    | r => match r, want with Gt, Gt => true | Lt, Lt => true | _, _ => false end
    end in
  let okdown := inside c lo Gt in
  let okup := inside (c + 1) hi Lt in
  let nearest :=
    match cmpScaled (2 * c + 1) k (2 * v) s with
    | Gt => c
    | Lt => c + 1
    | Eq => if Z.even c then c else c + 1
    end in
  match fuel with
  | O => (c, k)
  | S fuel' =>
    if okdown && okup then (nearest, k)
    else if okdown then (c, k)
    else if okup then (c + 1, k)
    else shortestFrom fuel' (n + 1) k0 v lo hi s incl
  end.

(** The digits of [m * 2^e] and the position of the decimal point: the
    value is [0.digits * 10^dp]. *)
Definition shortest (prec emax : Z) (m e : Z) : string * Z :=
  let boundary := (m =? 2 ^ (prec - 1)) && (3 - emax - prec <? e) in
  let s := e - 2 in
  let v := 4 * m in
  let lo := if boundary then 4 * m - 1 else 4 * m - 2 in
  let hi := 4 * m + 2 in
  let (c, k) := shortestFrom 17 1 (floorLog10 v s) v lo hi s (Z.even m) in
  let (c', k') := stripZeros 20 c k in
  let ds := utoa (S (Z.to_nat (Z.log2 c'))) c' EmptyString in
  (ds, Z.of_nat (String.length ds) + k').

Fixpoint zeros (n : nat) : string :=
  match n with
  | O => EmptyString
  | S n' => String "0"%char (zeros n')
  end.

Fixpoint take (n : nat) (s : string) : string :=
  match n, s with
  | S n', String c t => String c (take n' t)
  | _, _ => EmptyString
  end.

(** [%f] with the shortest precision. *)
Definition fmtF (neg : bool) (ds : string) (dp : Z) : string :=
  let nd := Z.of_nat (String.length ds) in
  let int :=
    if 0 <? dp then (take (Z.to_nat dp) ds ++ zeros (Z.to_nat (dp - nd)))%string
    else "0" in
  let frac :=
    if dp <? nd then
      (String "."%char (zeros (Z.to_nat (- dp)) ++ drop (Z.to_nat dp) ds))%string
    else EmptyString in
  ((if neg then "-" else "") ++ int ++ frac)%string.

(** [%e] with the shortest precision. *)
Definition fmtE (neg : bool) (ds : string) (dp : Z) : string :=
  let d0 := match ds with String c _ => c | EmptyString => "0"%char end in
  let more :=
    match ds with
    | String _ (String c t) => String "."%char (String c t)
    | _ => EmptyString
    end in
  let exp := match ds with EmptyString => 0 | _ => dp - 1 end in
  let a := Z.abs exp in
  let digits := if a <? 10 then String "0"%char (Itoa a) else Itoa a in
  let sign := if exp <? 0 then "-"%char else "+"%char in
  ((if neg then "-" else "") ++ String d0 more
     ++ String "e"%char (String sign digits))%string.

(** [FormatFloat(f, fmt, -1, bitSize)] for [fmt] one of ['f'] and ['e']. *)
Definition FormatFloat (f : spec_float) (fmt : ascii) (bitSize : Z) : string :=
  match f with
  | S754_nan => "NaN"
  | S754_infinity neg => if neg then "-Inf" else "+Inf"
  | S754_zero neg =>
    if Ascii.eqb fmt "e"%char then fmtE neg EmptyString 0 else fmtF neg EmptyString 0
  | S754_finite neg m e =>
    let (ds, dp) := shortest (precOf bitSize) (emaxOf bitSize) (Zpos m) e in
    if Ascii.eqb fmt "e"%char then fmtE neg ds dp else fmtF neg ds dp
  end.

End strconv.

(** ** reflect: Go types and values

    [encoding/json] works by reflection, so the model has the types of the
    program as data: the kinds the three variants of the file use, with
    the name and the [json] tag of every struct field. *)

Module reflect.

Inductive rtype : Type :=
| TString : rtype
| TBool : rtype
| TInt (bits : Z) : rtype
| TFloat (bits : Z) : rtype
| TSlice (elem : rtype) : rtype
| TStruct (name : string) (fields : list (string * string * rtype)) : rtype.

(** A slice is its backing array and its length; the elements of the
    array past the length are those a later [SetLen] brings back.  [VNil]
    is the nil slice. *)
Inductive Value : Type :=
| VString (s : string) : Value
| VBool (b : bool) : Value
| VInt (i : Z) : Value
| VFloat (f : spec_float) : Value
| VNil : Value
| VSlice (array : list Value) (len : nat) : Value
| VStruct (fields : list (string * Value)) : Value.

(** [reflect.Zero]. *)
Fixpoint Zero (t : rtype) : Value :=
  match t with
  | TString => VString EmptyString
  | TBool => VBool false
  | TInt _ => VInt 0
  | TFloat _ => VFloat (S754_zero false)
  | TSlice _ => VNil
  | TStruct _ fields => VStruct (map (fun f => (fst (fst f), Zero (snd f))) fields)
  end.

(** [v.FieldByName(name)] of a struct value. *)
Fixpoint lookup (name : string) (fields : list (string * Value)) : option Value :=
  match fields with
  | [] => None
  | (n, x) :: rest => if String.eqb n name then Some x else lookup name rest
  end.

Definition Field (v : Value) (name : string) : option Value :=
  match v with
  | VStruct fields => lookup name fields
  | _ => None
  end.

Fixpoint store (name : string) (x : Value) (fields : list (string * Value)) : list (string * Value) :=
  match fields with
  | [] => []
  | (n, y) :: rest => if String.eqb n name then (n, x) :: rest else (n, y) :: store name x rest
  end.

(** A composite literal [T{name: x, ...}]: the zero value of [T] with
    the fields given. *)
Definition Composite (t : rtype) (given : list (string * Value)) : Value :=
  match Zero t with
  | VStruct fields => VStruct (fold_left (fun fs nx => store (fst nx) (snd nx) fs) given fields)
  | z => z
  end.

(** [len(v)] of a slice. *)
Definition Len (v : Value) : nat :=
  match v with
  | VSlice _ len => len
  | _ => O
  end.

(** The backing array of a slice, element by element: an element past
    the allocated ones is zero when the array is grown to hold it. *)
Definition arrayOf (v : Value) : list Value :=
  match v with
  | VSlice array _ => array
  | _ => []
  end.

Fixpoint setNth (i : nat) (x : Value) (array : list Value) : list Value :=
  match i, array with
  | O, [] => [x]
  | O, _ :: rest => x :: rest
  | S i', [] => [x]
  | S i', y :: rest => y :: setNth i' x rest
  end.

End reflect.

(** ** Errors

    The values of Go's interface [error] that the program can see: those
    it builds itself with [errors.New] and [fmt.Errorf], those of
    [encoding/json] and [io], the wrapper [*url.Error] of [http.Client.Do],
    and the errors of the network, which the model does not look into. *)

Inductive error : Type :=
| errorString (s : string)
| url_Error (Op URL : string) (Err : error)
| json_SyntaxError (c : ascii) (context : string)
| json_UnmarshalTypeError (Value : string) (Type_ : reflect.rtype)
| json_UnsupportedValueError (Str : string)
| json_phasePanic
| io_EOF
| io_ErrUnexpectedEOF
| net_Error (msg : string).

(** ** unicode/utf16 *)

Module utf16.

Definition surr1 : Z := 0xd800.
Definition surr2 : Z := 0xdc00.
Definition surr3 : Z := 0xe000.
Definition surrSelf : Z := 0x10000.
Definition replacementChar : Z := 0xFFFD.

Definition IsSurrogate (r : Z) : bool := (surr1 <=? r) && (r <? surr3).

Definition DecodeRune (r1 r2 : Z) : Z :=
  if (surr1 <=? r1) && (r1 <? surr2) && (surr2 <=? r2) && (r2 <? surr3) then
    Z.lor (Z.shiftl (r1 - surr1) 10) (r2 - surr2) + surrSelf
  else replacementChar.

End utf16.

(** ** encoding/json: the scanner and the decoder *)

Module json.

(** A JSON value as the decoder reads it: a number keeps its literal, a
    string is unquoted, an object keeps its members in the order of the
    text, duplicates included. *)
Inductive Value : Type :=
| Null : Value
| Bool (b : bool) : Value
| Number (lit : string) : Value
| Str (s : string) : Value
| Array (elems : list Value) : Value
| Object (members : list (string * Value)) : Value.

(** *** decode.go: unquoting a string literal *)

Definition hexDigit (c : ascii) : Z :=
  let n := code c in
  if (48 <=? n) && (n <=? 57) then n - 48
  else if (97 <=? n) && (n <=? 102) then n - 97 + 10
  else if (65 <=? n) && (n <=? 70) then n - 65 + 10
  else -1.

(** [getu4 s]: the rune of the escape [\uXXXX] at the start of [s], or
    [-1]. *)
Definition getu4 (s : string) : Z :=
  match s with
  | String "\"%char (String "u"%char (String a (String b (String c (String d _))))) =>
    if (hexDigit a <? 0) || (hexDigit b <? 0) || (hexDigit c <? 0) || (hexDigit d <? 0)
    then -1
    else ((hexDigit a * 16 + hexDigit b) * 16 + hexDigit c) * 16 + hexDigit d
  | _ => -1
  end.

Definition prepend (p : string) (r : option string) : option string :=
  match r with
  | Some s => Some (p ++ s)%string
  | None => None
  end.

(** The loop of [unquoteBytes] over the text between the quotes: escapes
    are decoded, an invalid UTF-8 byte becomes U+FFFD, and so does a
    surrogate half that has no partner. *)
Fixpoint unquoteLoop (fuel : nat) (s : string) : option string :=
  match s with
  | EmptyString => Some EmptyString
  | String c t =>
    match fuel with
    | O => None
    | S fuel' =>
      if Ascii.eqb c "\"%char then
        match t with
        | EmptyString => None
        | String e t' =>
          if Ascii.eqb e dquote || Ascii.eqb e "\"%char || Ascii.eqb e "/"%char
             || Ascii.eqb e "'"%char
          then prepend (String e EmptyString) (unquoteLoop fuel' t')
          else if Ascii.eqb e "b"%char then prepend (String (chr 8) EmptyString) (unquoteLoop fuel' t')
          else if Ascii.eqb e "f"%char then prepend (String (chr 12) EmptyString) (unquoteLoop fuel' t')
          else if Ascii.eqb e "n"%char then prepend (String (chr 10) EmptyString) (unquoteLoop fuel' t')
          else if Ascii.eqb e "r"%char then prepend (String (chr 13) EmptyString) (unquoteLoop fuel' t')
          else if Ascii.eqb e "t"%char then prepend (String (chr 9) EmptyString) (unquoteLoop fuel' t')
          else if Ascii.eqb e "u"%char then
            let rr := getu4 s in
            if rr <? 0 then None
            else
              let r := drop 6 s in
              if utf16.IsSurrogate rr then
                let dec := utf16.DecodeRune rr (getu4 r) in
                if negb (dec =? utf16.replacementChar) then
                  prepend (utf8.EncodeRune dec) (unquoteLoop fuel' (drop 6 r))
                else prepend (utf8.EncodeRune utf16.replacementChar) (unquoteLoop fuel' r)
              else prepend (utf8.EncodeRune rr) (unquoteLoop fuel' r)
          else None
        end
      else if Ascii.eqb c dquote || (code c <? 32) then None
      else if code c <? utf8.RuneSelf then prepend (String c EmptyString) (unquoteLoop fuel' t)
      else
        let (rr, size) := utf8.DecodeRuneInString s in
        prepend (utf8.EncodeRune rr) (unquoteLoop fuel' (drop size s))
    end
  end.

(** [unquote body]: [unquoteBytes] on the literal whose text between the
    quotes is [body]. *)
Definition unquote (body : string) : option string :=
  unquoteLoop (String.length body) body.

(** *** scanner.go: the state machine over the bytes of the text

    The scanner of the library only validates; the decoder then walks the
    validated text again.  Here the two are fused: the stack of parse
    states carries the members and elements read so far, [item] the bytes
    of the literal being read, and [last] the value that was just
    completed, which [stateEndValue] stores where it belongs. *)

Inductive stepFn : Type :=
| BeginValue | BeginValueOrEmpty | BeginStringOrEmpty | BeginString | EndValue
| InString | InStringEsc | InStringEscU | InStringEscU1 | InStringEscU12 | InStringEscU123
| Neg | St1 | St0 | Dot | Dot0 | StE | ESign | E0
| StT | Tr | Tru | StF | Fa | Fal | Fals | StN | Nu | Nul.

Inductive parseFrame : Type :=
| parseObjectKey (members : list (string * Value))
| parseObjectValue (members : list (string * Value)) (key : string)
| parseArrayValue (elems : list Value).

Record scanner : Type := mkScanner {
  step : stepFn;
  parseState : list parseFrame;
  item : string;
  last : option Value
}.

Inductive scan : Type :=
| scanContinue (s : scanner)
| scanEnd (v : Value)
| scanError (e : error).

Definition maxNestingDepth : Z := 10000.

Definition isSpace (c : ascii) : bool :=
  Ascii.eqb c " "%char || Ascii.eqb c (chr 9) || Ascii.eqb c (chr 13) || Ascii.eqb c (chr 10).

Definition isHex (c : ascii) : bool := 0 <=? hexDigit c.

Definition fail (c : ascii) (context : string) : scan :=
  scanError (json_SyntaxError c context).

Definition goto (s : scanner) (f : stepFn) : scan :=
  scanContinue (mkScanner f (parseState s) (item s) (last s)).

(** Stay in the literal and keep its byte. *)
Definition more (s : scanner) (f : stepFn) (c : ascii) : scan :=
  scanContinue (mkScanner f (parseState s) (snoc (item s) c) (last s)).

(** A value is complete: [stateEndValue] reads the next byte. *)
Definition done (s : scanner) (v : Value) : scanner :=
  mkScanner EndValue (parseState s) EmptyString (Some v).

Definition pushParseState (s : scanner) (c : ascii) (f : parseFrame) (successState : stepFn) : scan :=
  let st := f :: parseState s in
  if Z.of_nat (List.length st) <=? maxNestingDepth
  then scanContinue (mkScanner successState st EmptyString None)
  else fail c "exceeded max depth".

(** A container is closed: at the top level the value ends here, inside
    another container it is that container's last value. *)
Definition popParseState (rest : list parseFrame) (v : Value) : scan :=
  match rest with
  | [] => scanEnd v
  | _ => scanContinue (mkScanner EndValue rest EmptyString (Some v))
  end.

Definition stateEndValue (s : scanner) (c : ascii) : scan :=
  match parseState s, last s with
  | [], Some v => scanEnd v
  | _, None => scanError json_phasePanic
  | f :: rest, Some v =>
    if isSpace c then goto s EndValue
    else
      match f with
      | parseObjectKey members =>
        match v with
        | Str key =>
          if Ascii.eqb c ":"%char
          then scanContinue (mkScanner BeginValue (parseObjectValue members key :: rest) EmptyString None)
          else fail c "after object key"
        | _ => scanError json_phasePanic
        end
      | parseObjectValue members key =>
        if Ascii.eqb c ","%char
        then scanContinue (mkScanner BeginString (parseObjectKey (members ++ [(key, v)]) :: rest) EmptyString None)
        else if Ascii.eqb c "}"%char then popParseState rest (Object (members ++ [(key, v)]))
        else fail c "after object key:value pair"
      | parseArrayValue elems =>
        if Ascii.eqb c ","%char
        then scanContinue (mkScanner BeginValue (parseArrayValue (elems ++ [v]) :: rest) EmptyString None)
        else if Ascii.eqb c "]"%char then popParseState rest (Array (elems ++ [v]))
        else fail c "after array element"
      end
  end.

Definition stateBeginValue (s : scanner) (c : ascii) : scan :=
  if isSpace c then goto s BeginValue
  else if Ascii.eqb c "{"%char then pushParseState s c (parseObjectKey []) BeginStringOrEmpty
  else if Ascii.eqb c "["%char then pushParseState s c (parseArrayValue []) BeginValueOrEmpty
  else if Ascii.eqb c dquote then goto s InString
  else if Ascii.eqb c "-"%char then more s Neg c
  else if Ascii.eqb c "0"%char then more s St0 c
  else if Ascii.eqb c "t"%char then goto s StT
  else if Ascii.eqb c "f"%char then goto s StF
  else if Ascii.eqb c "n"%char then goto s StN
  else if (49 <=? code c) && (code c <=? 57) then more s St1 c
  else fail c "looking for beginning of value".

Definition stateBeginValueOrEmpty (s : scanner) (c : ascii) : scan :=
  if isSpace c then goto s BeginValueOrEmpty
  else if Ascii.eqb c "]"%char then
    match parseState s with
    | parseArrayValue elems :: rest => popParseState rest (Array elems)
    | _ => scanError json_phasePanic
    end
  else stateBeginValue s c.

Definition stateBeginString (s : scanner) (c : ascii) : scan :=
  if isSpace c then goto s BeginString
  else if Ascii.eqb c dquote then goto s InString
  else fail c "looking for beginning of object key string".

Definition stateBeginStringOrEmpty (s : scanner) (c : ascii) : scan :=
  if isSpace c then goto s BeginStringOrEmpty
  else if Ascii.eqb c "}"%char then
    match parseState s with
    | parseObjectKey members :: rest => popParseState rest (Object members)
    | _ => scanError json_phasePanic
    end
  else stateBeginString s c.

Definition stateInString (s : scanner) (c : ascii) : scan :=
  if Ascii.eqb c dquote then
    match unquote (item s) with
    | Some str => scanContinue (done s (Str str))
    | None => scanError json_phasePanic
    end
  else if Ascii.eqb c "\"%char then more s InStringEsc c
  else if code c <? 32 then fail c "in string literal"
  else more s InString c.

Definition stateInStringEsc (s : scanner) (c : ascii) : scan :=
  if Ascii.eqb c "b"%char || Ascii.eqb c "f"%char || Ascii.eqb c "n"%char
     || Ascii.eqb c "r"%char || Ascii.eqb c "t"%char || Ascii.eqb c "\"%char
     || Ascii.eqb c "/"%char || Ascii.eqb c dquote
  then more s InString c
  else if Ascii.eqb c "u"%char then more s InStringEscU c
  else fail c "in string escape code".

Definition stateInStringEscU (next : stepFn) (s : scanner) (c : ascii) : scan :=
  if isHex c then more s next c
  else fail c "in \u hexadecimal character escape".

Definition stateNeg (s : scanner) (c : ascii) : scan :=
  if Ascii.eqb c "0"%char then more s St0 c
  else if (49 <=? code c) && (code c <=? 57) then more s St1 c
  else fail c "in numeric literal".

(** The end of a number: the byte that ends it is read by
    [stateEndValue]. *)
Definition endNumber (s : scanner) (c : ascii) : scan :=
  stateEndValue (done s (Number (item s))) c.

Definition state0 (s : scanner) (c : ascii) : scan :=
  if Ascii.eqb c "."%char then more s Dot c
  else if Ascii.eqb c "e"%char || Ascii.eqb c "E"%char then more s StE c
  else endNumber s c.

Definition state1 (s : scanner) (c : ascii) : scan :=
  if strconv.isDigit c then more s St1 c else state0 s c.

Definition stateDot (s : scanner) (c : ascii) : scan :=
  if strconv.isDigit c then more s Dot0 c
  else fail c "after decimal point in numeric literal".

Definition stateDot0 (s : scanner) (c : ascii) : scan :=
  if strconv.isDigit c then more s Dot0 c
  else if Ascii.eqb c "e"%char || Ascii.eqb c "E"%char then more s StE c
  else endNumber s c.

Definition stateESign (s : scanner) (c : ascii) : scan :=
  if strconv.isDigit c then more s E0 c
  else fail c "in exponent of numeric literal".

Definition stateE (s : scanner) (c : ascii) : scan :=
  if Ascii.eqb c "+"%char || Ascii.eqb c "-"%char then more s ESign c
  else stateESign s c.

Definition stateE0 (s : scanner) (c : ascii) : scan :=
  if strconv.isDigit c then more s E0 c else endNumber s c.

(** The states of the literals [true], [false] and [null]: the letter
    [want] leads to the state [next], or ends the literal [v]. *)
Definition stateLit (want : ascii) (next : option stepFn) (v : Value) (context : string)
  (s : scanner) (c : ascii) : scan :=
  if Ascii.eqb c want then
    match next with
    | Some f => goto s f
    | None => scanContinue (done s v)
    end
  else fail c context.

(** The function a state stands for. *)
Definition apply (f : stepFn) : scanner -> ascii -> scan :=
  match f with
  | BeginValue => stateBeginValue
  | BeginValueOrEmpty => stateBeginValueOrEmpty
  | BeginStringOrEmpty => stateBeginStringOrEmpty
  | BeginString => stateBeginString
  | EndValue => stateEndValue
  | InString => stateInString
  | InStringEsc => stateInStringEsc
  | InStringEscU => stateInStringEscU InStringEscU1
  | InStringEscU1 => stateInStringEscU InStringEscU12
  | InStringEscU12 => stateInStringEscU InStringEscU123
  | InStringEscU123 => stateInStringEscU InString
  | Neg => stateNeg
  | St1 => state1
  | St0 => state0
  | Dot => stateDot
  | Dot0 => stateDot0
  | StE => stateE
  | ESign => stateESign
  | E0 => stateE0
  | StT => stateLit "r" (Some Tr) Null "in literal true (expecting 'r')"
  | Tr => stateLit "u" (Some Tru) Null "in literal true (expecting 'u')"
  | Tru => stateLit "e" None (Bool true) "in literal true (expecting 'e')"
  | StF => stateLit "a" (Some Fa) Null "in literal false (expecting 'a')"
  | Fa => stateLit "l" (Some Fal) Null "in literal false (expecting 'l')"
  | Fal => stateLit "s" (Some Fals) Null "in literal false (expecting 's')"
  | Fals => stateLit "e" None (Bool false) "in literal false (expecting 'e')"
  | StN => stateLit "u" (Some Nu) Null "in literal null (expecting 'u')"
  | Nu => stateLit "l" (Some Nul) Null "in literal null (expecting 'l')"
  | Nul => stateLit "l" None Null "in literal null (expecting 'l')"
  end.

(** One byte: [s.step(s, c)]. *)
Definition stepByte (st : scan) (c : ascii) : scan :=
  match st with
  | scanContinue s => apply (step s) s c
  | _ => st
  end.

(** The bytes of [text], until the value ends or an error is found. *)
Fixpoint scanBytes (st : scan) (text : string) : scan :=
  match text with
  | EmptyString => st
  | String c t => scanBytes (stepByte st c) t
  end.

(** [scanner.reset]. *)
Definition reset : scan := scanContinue (mkScanner BeginValue [] EmptyString None).

Fixpoint nonSpace (b : string) : bool :=
  match b with
  | EmptyString => false
  | String c t => negb (isSpace c) || nonSpace t
  end.

(** [Decoder.readValue] on a stream that delivers [data] and then ends,
    cleanly or with the error [rerr]: the first value of the stream; what
    follows it is not looked at.  The stream's error counts only when the
    bytes before it do not hold a whole value; at a clean end a space is
    fed to the scanner, which ends a number or literal at the top level. *)
Definition readValue (data : string) (rerr : option error) : Value + error :=
  match scanBytes reset data with
  | scanEnd v => inl v
  | scanError e => inr e
  | scanContinue s =>
    match rerr with
    | Some e => inr e
    | None =>
      match apply (step s) s " "%char with
      | scanEnd v => inl v
      | _ => inr (if nonSpace data then io_ErrUnexpectedEOF else io_EOF)
      end
    end
  end.

(** *** decode.go: storing a scanned value into a Go value *)

(** [d.saveError]: the first error is the one kept. *)
Definition saveError (saved : option error) (e : error) : option error :=
  match saved with
  | Some _ => saved
  | None => Some e
  end.

(** [foldRune] on the runes whose fold orbit holds an ASCII letter: the
    long s and the Kelvin sign.  The orbit of every other rune past ASCII
    holds no ASCII letter, and the names this program decodes into are
    ASCII. *)
Definition foldRune (r : Z) : Z :=
  if r =? 0x17F then 0x53 else if r =? 0x212A then 0x4B else r.

Fixpoint foldNameLoop (fuel : nat) (s : string) : string :=
  match fuel, s with
  | S fuel', String c t =>
    if code c <? utf8.RuneSelf then
      String (if (97 <=? code c) && (code c <=? 122) then chr (code c - 32) else c)
             (foldNameLoop fuel' t)
    else
      let (r, n) := utf8.DecodeRuneInString s in
      (utf8.EncodeRune (foldRune r) ++ foldNameLoop fuel' (drop n s))%string
  | _, _ => EmptyString
  end.

Definition foldName (s : string) : string := foldNameLoop (String.length s) s.

(** The field a key names: the one whose tag is the key, or else the
    first whose tag equals it under case folding. *)
Definition findField (fields : list (string * string * reflect.rtype)) (key : string)
  : option (string * string * reflect.rtype) :=
  match find (fun f => String.eqb (snd (fst f)) key) fields with
  | Some f => Some f
  | None => find (fun f => String.eqb (foldName (snd (fst f))) (foldName key)) fields
  end.

Definition OverflowInt (bits : Z) (n : Z) : bool :=
  negb ((- 2 ^ (bits - 1) <=? n) && (n <? 2 ^ (bits - 1))).

(** [d.literalStore] for a literal that is not quoted. *)
Definition literalStore (j : Value) (t : reflect.rtype) (v : reflect.Value) (saved : option error)
  : reflect.Value * option error :=
  match j with
  | Null =>
    match t with
    | reflect.TSlice _ => (reflect.VNil, saved)
    | _ => (v, saved)
    end
  | Bool b =>
    match t with
    | reflect.TBool => (reflect.VBool b, saved)
    | _ => (v, saveError saved (json_UnmarshalTypeError "bool" t))
    end
  | Str str =>
    match t with
    | reflect.TString => (reflect.VString str, saved)
    | _ => (v, saveError saved (json_UnmarshalTypeError "string" t))
    end
  | Number lit =>
    match t with
    | reflect.TInt bits =>
      match strconv.ParseInt lit 64 with
      | Some n =>
        if OverflowInt bits n
        then (v, saveError saved (json_UnmarshalTypeError ("number " ++ lit) t))
        else (reflect.VInt n, saved)
      | None => (v, saveError saved (json_UnmarshalTypeError ("number " ++ lit) t))
      end
    | reflect.TFloat bits =>
      match strconv.ParseFloat lit bits with
      | Some f => (reflect.VFloat f, saved)
      | None => (v, saveError saved (json_UnmarshalTypeError ("number " ++ lit) t))
      end
    | _ => (v, saveError saved (json_UnmarshalTypeError "number" t))
    end
  | _ => (v, saved)
  end.

(** [d.value]: [j] is stored into [v], a value of type [t].  A value of
    the wrong kind leaves [v] as it is and saves an [UnmarshalTypeError];
    decoding goes on.  An array is decoded element by element into the
    elements the slice already has, an object member by member into the
    fields the struct already has; a key that names no field is skipped. *)
Fixpoint value (j : Value) (t : reflect.rtype) (v : reflect.Value) (saved : option error) {struct j}
  : reflect.Value * option error :=
  match j with
  | Array elems =>
    match t with
    | reflect.TSlice et =>
      let '(array, saved') :=
        (fix loop (es : list Value) (i : nat) (array : list reflect.Value) (saved : option error)
           : list reflect.Value * option error :=
           match es with
           | [] => (array, saved)
           | e :: es' =>
             let '(x, saved1) := value e et (nth i array (reflect.Zero et)) saved in
             loop es' (S i) (reflect.setNth i x array) saved1
           end) elems O (reflect.arrayOf v) saved in
      match elems with
      | [] => (reflect.VSlice [] O, saved')
      | _ => (reflect.VSlice array (List.length elems), saved')
      end
    | _ => (v, saveError saved (json_UnmarshalTypeError "array" t))
    end
  | Object members =>
    match t with
    | reflect.TStruct _ fields =>
      (fix loop (ms : list (string * Value)) (v : reflect.Value) (saved : option error)
         : reflect.Value * option error :=
         match ms with
         | [] => (v, saved)
         | (key, jv) :: ms' =>
           match findField fields key, v with
           | Some (name, _, ft), reflect.VStruct vs =>
             match reflect.lookup name vs with
             | Some cur =>
               let '(x, saved1) := value jv ft cur saved in
               loop ms' (reflect.VStruct (reflect.store name x vs)) saved1
             | None => loop ms' v saved
             end
           | _, _ => loop ms' v saved
           end
         end) members v saved
    | _ => (v, saveError saved (json_UnmarshalTypeError "object" t))
    end
  | _ => literalStore j t v saved
  end.

(** [json.NewDecoder(r).Decode(&v)] for [v] of type [t], on a stream that
    delivers [data] and ends with [rerr]: the value after the call and the
    error returned. *)
Definition Decode (data : string) (rerr : option error) (t : reflect.rtype) (v : reflect.Value)
  : reflect.Value * option error :=
  match readValue data rerr with
  | inr e => (v, Some e)
  | inl j => value j t v None
  end.

(** *** encode.go *)

Definition hex (n : Z) : ascii :=
  if n <? 10 then chr (48 + n) else chr (97 + (n - 10)).

(** [htmlSafeSet]: the ASCII bytes that a string holds as they are. *)
Definition htmlSafe (c : ascii) : bool :=
  (32 <=? code c) && (code c <? 128)
  && negb (Ascii.eqb c dquote) && negb (Ascii.eqb c "\"%char)
  && negb (Ascii.eqb c "<"%char) && negb (Ascii.eqb c ">"%char) && negb (Ascii.eqb c "&"%char).

(** The escape of an ASCII byte that is not safe; backspace and form feed
    have the short escapes that Go 1.22 and later write. *)
Definition escapeByte (c : ascii) : string :=
  if Ascii.eqb c "\"%char || Ascii.eqb c dquote then String "\"%char (String c EmptyString)
  else if Ascii.eqb c (chr 8) then "\b"
  else if Ascii.eqb c (chr 12) then "\f"
  else if Ascii.eqb c (chr 10) then "\n"
  else if Ascii.eqb c (chr 13) then "\r"
  else if Ascii.eqb c (chr 9) then "\t"
  else
    ("\u00" ++ String (hex (Z.shiftr (code c) 4)) (String (hex (Z.land (code c) 0xF)) EmptyString))%string.

(** The loop of [appendString] with HTML escaping on, as [Marshal] runs
    it: a byte that is no valid UTF-8 is written as the escape of U+FFFD,
    the separators U+2028 and U+2029 are escaped, every other rune is
    copied. *)
Fixpoint appendStringLoop (fuel : nat) (src : string) : string :=
  match fuel, src with
  | S fuel', String b t =>
    if code b <? utf8.RuneSelf then
      if htmlSafe b then String b (appendStringLoop fuel' t)
      else (escapeByte b ++ appendStringLoop fuel' t)%string
    else
      let (c, size) := utf8.DecodeRuneInString src in
      if (c =? utf8.RuneError) && (size =? 1)%nat then
        ("\ufffd" ++ appendStringLoop fuel' (drop size src))%string
      else if (c =? 0x2028) || (c =? 0x2029) then
        ("\u202" ++ String (hex (Z.land c 0xF)) (appendStringLoop fuel' (drop size src)))%string
      else (strconv.take size src ++ appendStringLoop fuel' (drop size src))%string
  | _, _ => EmptyString
  end.

Definition appendString (src : string) : string :=
  String dquote (appendStringLoop (String.length src) src ++ String dquote EmptyString).

(** A decimal constant at the precision [bits]. *)
Definition constant (lit : string) (bits : Z) : spec_float :=
  match strconv.ParseFloat lit bits with
  | Some f => f
  | None => S754_nan
  end.

(** [floatEncoder]: the ES6 number format; no JSON for NaN and the
    infinities. *)
Definition encodeFloat (f : spec_float) (bits : Z) : string + error :=
  match f with
  | S754_nan | S754_infinity _ =>
    inr (json_UnsupportedValueError (strconv.FormatFloat f "g" bits))
  | S754_zero _ => inl (strconv.FormatFloat f "f" bits)
  | S754_finite _ _ _ =>
    let abs := SFabs f in
    if SFltb abs (constant "1e-6" bits) || negb (SFltb abs (constant "1e21" bits)) then
      let b := strconv.FormatFloat f "e" bits in
      (* clean up e-09 to e-9 *)
      let n := String.length b in
      match drop (n - 4) b with
      | String "e"%char (String sign (String "0"%char (String d EmptyString))) =>
        if Ascii.eqb sign "-"%char || Ascii.eqb sign "+"%char
        then inl (strconv.take (n - 2) b ++ String d EmptyString)%string
        else inl b
      | _ => inl b
      end
    else inl (strconv.FormatFloat f "f" bits)
  end.

Fixpoint join (parts : list string) : string :=
  match parts with
  | [] => EmptyString
  | [x] => x
  | x :: rest => (x ++ "," ++ join rest)%string
  end.

(** All the parts, or the first error. *)
Fixpoint sequence (parts : list (string + error)) : list string + error :=
  match parts with
  | [] => inl []
  | inr e :: _ => inr e
  | inl x :: rest =>
    match sequence rest with
    | inl xs => inl (x :: xs)
    | inr e => inr e
    end
  end.

(** [e.reflectValue]: the JSON text of [v], a value of type [t].  The
    fields of a struct are written in the order of their declaration,
    each under its tag. *)
Fixpoint encode (t : reflect.rtype) (v : reflect.Value) {struct t} : string + error :=
  match t, v with
  | reflect.TString, reflect.VString str => inl (appendString str)
  | reflect.TBool, reflect.VBool b => inl (if b then "true" else "false")
  | reflect.TInt _, reflect.VInt i => inl (strconv.Itoa i)
  | reflect.TFloat bits, reflect.VFloat f => encodeFloat f bits
  | reflect.TSlice _, reflect.VNil => inl "null"
  | reflect.TSlice et, reflect.VSlice array len =>
    match sequence (map (encode et) (firstn len array)) with
    | inl parts => inl ("[" ++ join parts ++ "]")%string
    | inr e => inr e
    end
  | reflect.TStruct _ fields, reflect.VStruct vs =>
    match
      sequence
        (map (fun f : string * string * reflect.rtype =>
                match reflect.lookup (fst (fst f)) vs with
                | Some x =>
                  match encode (snd f) x with
                  | inl text => inl (appendString (snd (fst f)) ++ ":" ++ text)%string
                  | inr e => inr e
                  end
                | None => inr json_phasePanic
                end) fields)
    with
    | inl parts => inl ("{" ++ join parts ++ "}")%string
    | inr e => inr e
    end
  | _, _ => inr json_phasePanic
  end.

(** [json.Marshal(v)] for [v] of type [t]. *)
Definition Marshal (t : reflect.rtype) (v : reflect.Value) : string + error := encode t v.

End json.

(** ** errors and fmt *)

Module errors.

Definition New (text : string) : error := errorString text.

End errors.

Module fmt.

(** An operand of a formatting call. *)
Inductive operand : Type :=
| S (s : string)
| D (i : Z).

(** [Sprintf] for the verbs [%s] and [%d], the two the program uses. *)
Fixpoint Sprintf (format : string) (a : list operand) : string :=
  match format with
  | EmptyString => EmptyString
  | String "%"%char (String "s"%char rest) =>
    match a with
    | S s :: a' => (s ++ Sprintf rest a')%string
    | D i :: a' => ("%!s(int=" ++ strconv.Itoa i ++ ")" ++ Sprintf rest a')%string
    | [] => ("%!s(MISSING)" ++ Sprintf rest [])%string
    end
  | String "%"%char (String "d"%char rest) =>
    match a with
    | D i :: a' => (strconv.Itoa i ++ Sprintf rest a')%string
    | S s :: a' => ("%!d(string=" ++ s ++ ")" ++ Sprintf rest a')%string
    | [] => ("%!d(MISSING)" ++ Sprintf rest [])%string
    end
  | String c rest => String c (Sprintf rest a)
  end.

(** [Errorf] with no [%w] in the format. *)
Definition Errorf (format : string) (a : list operand) : error :=
  errorString (Sprintf format a).

End fmt.

(** ** net/http *)

Module http.

Definition StatusOK : Z := 200.

(** [httpguts.IsTokenRune] on a byte. *)
Definition isToken (c : ascii) : bool :=
  let n := code c in
  ((48 <=? n) && (n <=? 57)) || ((65 <=? n) && (n <=? 90)) || ((97 <=? n) && (n <=? 122))
  || existsb (Ascii.eqb c)
       ["!"; "#"; "$"; "%"; "&"; "'"; "*"; "+"; "-"; "."; "^"; "_"; "`"; "|"; "~"]%char.

Fixpoint allBytes (p : ascii -> bool) (s : string) : bool :=
  match s with
  | EmptyString => true
  | String c t => p c && allBytes p t
  end.

Definition validMethod (method : string) : bool :=
  negb (String.eqb method EmptyString) && allBytes isToken method.

(** [textproto.CanonicalMIMEHeaderKey]: a key made of token bytes gets an
    upper-case letter first and after each dash and lower-case letters
    elsewhere; any other key is left as it is. *)
Fixpoint canonical (upper : bool) (a : string) : string :=
  match a with
  | EmptyString => EmptyString
  | String c t =>
    let n := code c in
    let c' :=
      if upper && (97 <=? n) && (n <=? 122) then chr (n - 32)
      else if negb upper && (65 <=? n) && (n <=? 90) then chr (n + 32)
      else c in
    String c' (canonical (Ascii.eqb c' "-"%char) t)
  end.

Definition CanonicalMIMEHeaderKey (key : string) : string :=
  if allBytes isToken key then canonical true key else key.

(** [Header] is [map[string][]string]. *)
Definition Header : Type := list (string * list string).

Fixpoint Header_Set (h : Header) (key value : string) : Header :=
  match h with
  | [] => [(key, [value])]
  | (k, vs) :: rest =>
    if String.eqb k key then (k, [value]) :: rest else (k, vs) :: Header_Set rest key value
  end.

Fixpoint Header_Values (h : Header) (key : string) : list string :=
  match h with
  | [] => []
  | (k, vs) :: rest => if String.eqb k key then vs else Header_Values rest key
  end.

(** [h.Get(key)]: the first value under the canonical form of [key]. *)
Definition Header_Get (h : Header) (key : string) : string :=
  match Header_Values h (CanonicalMIMEHeaderKey key) with
  | v :: _ => v
  | [] => EmptyString
  end.

Record Request : Type := mkRequest {
  Method : string;
  URL : string;
  Headers : Header;
  Body : string
}.

(** A response: its status code, and its body as a stream that delivers
    [RespBody] and then ends, cleanly or with the error [RespErr]. *)
Record Response : Type := mkResponse {
  StatusCode : Z;
  RespBody : string;
  RespErr : option error
}.

(** [req.Header.Set(key, value)]. *)
Definition Set_ (req : Request) (key value : string) : Request :=
  mkRequest (Method req) (URL req)
            (Header_Set (Headers req) (CanonicalMIMEHeaderKey key) value) (Body req).

(** The URLs [url.Parse] is modelled on: [scheme://host/path] with a
    scheme of letters, a host of letters, digits, dots and dashes, and a
    path of letters, digits and the marks [/ - . _ ~].  The library takes
    these and many more; the model refuses the others, and the program
    only ever passes the constant [apiURL]. *)
Definition isAlpha (c : ascii) : bool :=
  let n := code c in ((65 <=? n) && (n <=? 90)) || ((97 <=? n) && (n <=? 122)).

Definition isHostByte (c : ascii) : bool :=
  isAlpha c || strconv.isDigit c || Ascii.eqb c "."%char || Ascii.eqb c "-"%char.

Definition isPathByte (c : ascii) : bool :=
  isHostByte c || Ascii.eqb c "/"%char || Ascii.eqb c "_"%char || Ascii.eqb c "~"%char.

Fixpoint span (p : ascii -> bool) (s : string) : string * string :=
  match s with
  | EmptyString => (EmptyString, EmptyString)
  | String c t => if p c then let (a, b) := span p t in (String c a, b) else (EmptyString, s)
  end.

Definition urlParses (rawURL : string) : bool :=
  let (scheme, r1) := span isAlpha rawURL in
  match scheme, r1 with
  | String _ _, String ":"%char (String "/"%char (String "/"%char r2)) =>
    let (host, r3) := span isHostByte r2 in
    match host, r3 with
    | String _ _, EmptyString => true
    | String _ _, String "/"%char path => allBytes isPathByte path
    | _, _ => false
    end
  | _, _ => false
  end.

(** [http.NewRequest(method, url, bytes.NewBuffer(body))]. *)
Definition NewRequest (method url body : string) : Request + error :=
  let method := if String.eqb method EmptyString then "GET" else method in
  if negb (validMethod method) then
    inr (errorString ("net/http: invalid method " ++ method))
  else if negb (urlParses url) then
    inr (url_Error "parse" url (errorString "invalid URL"))
  else inl (mkRequest method url [] body).

End http.

(** ** The world outside the process, and Go's control flow

    [generateText] reads the environment, sends one request and reads the
    response.  The world gives the value of every environment variable
    ([""] for one that is not set, as [os.Getenv] does) and the outcome of
    [http.Client.Do] on a request, which may depend on everything that
    happened before; [trace] records what the process did, oldest first. *)

Inductive Event : Type :=
| EvGetenv (key : string)
| EvDo (req : http.Request)
| EvDecode
| EvClose.

Record World : Type := mkWorld {
  environ : string -> string;
  network : list Event -> http.Request -> http.Response + error;
  trace : list Event
}.

Definition record (w : World) (e : Event) : World :=
  mkWorld (environ w) (network w) (trace w ++ [e]).

(** A run-time panic: an index out of range. *)
Inductive runtimeError : Type :=
| boundsError (index : Z) (length : Z).

Inductive Outcome (A : Type) : Type :=
| Returns (a : A)
| Panics (e : runtimeError).

Arguments Returns {A} a.
Arguments Panics {A} e.

Definition Go (A : Type) : Type := World -> Outcome A * World.

Definition ret {A : Type} (a : A) : Go A := fun w => (Returns a, w).

Definition panic {A : Type} (e : runtimeError) : Go A := fun w => (Panics e, w).

Definition bind {A B : Type} (m : Go A) (k : A -> Go B) : Go B :=
  fun w =>
    match m w with
    | (Returns a, w') => k a w'
    | (Panics e, w') => (Panics e, w')
    end.

Notation "x <- m ;; k" := (bind m (fun x => k))
  (at level 61, m at next level, right associativity).

(** [defer cleanup] before [body]: [cleanup] runs when [body] is left,
    by a return or by a panic. *)
Definition defer {A : Type} (cleanup : Go unit) (body : Go A) : Go A :=
  fun w =>
    let (r, w') := body w in
    (r, snd (cleanup w')).

Module os.

Definition Getenv (key : string) : Go string :=
  fun w => (Returns (environ w key), record w (EvGetenv key)).

End os.

(** [(&http.Client{}).Do(req)]. *)
Definition client_Do (req : http.Request) : Go (http.Response + error) :=
  fun w => (Returns (network w (trace w) req), record w (EvDo req)).

(** [resp.Body.Close()]. *)
Definition Body_Close : Go unit :=
  fun w => (Returns tt, record w EvClose).

(** [json.NewDecoder(resp.Body).Decode(&v)]. *)
Definition NewDecoder_Decode (resp : http.Response) (t : reflect.rtype) (v : reflect.Value)
  : Go (reflect.Value * option error) :=
  fun w => (Returns (json.Decode (http.RespBody resp) (http.RespErr resp) t v), record w EvDecode).

(** [s[i]] on a slice, with its bounds check. *)
Definition index (s : reflect.Value) (i : nat) : Go reflect.Value :=
  if (i <? reflect.Len s)%nat then ret (nth i (reflect.arrayOf s) reflect.VNil)
  else panic (boundsError (Z.of_nat i) (Z.of_nat (reflect.Len s))).

(** [v.name] on a struct, and the string a value of type [string] is. *)
Definition field (v : reflect.Value) (name : string) : reflect.Value :=
  match reflect.Field v name with
  | Some x => x
  | None => reflect.VNil
  end.

Definition stringOf (v : reflect.Value) : string :=
  match v with
  | reflect.VString s => s
  | _ => EmptyString
  end.

(** ** The program: the types of its three variants *)

(** [src/main.go], and the two files of [src/unnamed/part_000], whose
    [generateText] is the same text over smaller types. *)
Inductive variant : Type :=
| main_go
| part_000_first
| part_000_second.

Definition apiURL : string := "https://api.openai.com/v1/completions".

(** Go's [int] on a 64-bit platform. *)
Definition TInt_ : reflect.rtype := reflect.TInt 64.
Definition TFloat64 : reflect.rtype := reflect.TFloat 64.

Definition CompletionRequest (v : variant) : reflect.rtype :=
  match v with
  | main_go =>
    reflect.TStruct "main.CompletionRequest"
      [ ("Prompt", "prompt", reflect.TString);
        ("Model", "model", reflect.TString);
        ("MaxTokens", "max_tokens", TInt_);
        ("Temperature", "temperature", TFloat64);
        ("TopP", "top_p", TFloat64);
        ("FrequencyPenalty", "frequency_penalty", TFloat64);
        ("PresencePenalty", "presence_penalty", TFloat64);
        ("BestOf", "best_of", TInt_);
        ("Stop", "stop", reflect.TString);
        ("Stream", "stream", reflect.TBool);
        ("MaxTokensPerBatch", "max_tokens_per_batch", TInt_);
        ("N", "n", TInt_);
        ("Streaming", "streaming", reflect.TBool);
        ("StopSequence", "stop_sequence", reflect.TSlice reflect.TString);
        ("BatchSize", "batch_size", TInt_);
        ("MaxTries", "max_tries", TInt_);
        ("Diversity", "diversity", TFloat64) ]
  | part_000_first =>
    reflect.TStruct "main.CompletionRequest"
      [ ("Prompt", "prompt", reflect.TString);
        ("Model", "model", reflect.TString);
        ("MaxTokens", "max_tokens", TInt_);
        ("Temperature", "temperature", TFloat64) ]
  | part_000_second =>
    reflect.TStruct "main.CompletionRequest"
      [ ("Prompt", "prompt", reflect.TString);
        ("Model", "model", reflect.TString);
        ("Temperature", "temperature", reflect.TFloat 32);
        ("MaxTokens", "max_tokens", reflect.TInt 32) ]
  end.

Definition Choice (v : variant) : reflect.rtype :=
  match v with
  | main_go =>
    reflect.TStruct "main.Choice"
      [ ("Text", "text", reflect.TString);
        ("Index", "index", TInt_);
        ("Logprobs", "logprobs", reflect.TSlice TInt_);
        ("FinishReason", "finish_reason", reflect.TString);
        ("PresencePenalty", "presence_penalty", TFloat64);
        ("FrequencyPenalty", "frequency_penalty", TFloat64);
        ("Reranked", "reranked", reflect.TBool);
        ("Truncated", "truncated", reflect.TBool);
        ("Diversity", "diversity", TFloat64);
        ("Temperature", "temperature", TFloat64);
        ("TopP", "top_p", TFloat64);
        ("StopSequence", "stop_sequence", reflect.TSlice TInt_);
        ("Tokens", "tokens", reflect.TSlice TInt_);
        ("Weight", "weight", TFloat64);
        ("Probability", "probability", TFloat64);
        ("Rank", "rank", TInt_);
        ("DiversityRank", "diversity_rank", TInt_);
        ("DiversityScore", "diversity_score", TFloat64) ]
  | part_000_first => reflect.TStruct "main.Choice" [ ("Text", "text", reflect.TString) ]
  | part_000_second => reflect.TStruct "" [ ("Text", "text", reflect.TString) ]
  end.

Definition CompletionResponse (v : variant) : reflect.rtype :=
  match v with
  | main_go =>
    reflect.TStruct "main.CompletionResponse"
      [ ("ID", "id", reflect.TString);
        ("Model", "model", reflect.TString);
        ("Prompt", "prompt", reflect.TString);
        ("Choices", "choices", reflect.TSlice (Choice main_go));
        ("Stream", "stream", reflect.TBool);
        ("Streaming", "streaming", reflect.TBool);
        ("Truncated", "truncated", reflect.TBool);
        ("Warning", "warning", reflect.TString);
        ("Errors", "errors", reflect.TSlice reflect.TString);
        ("HasMore", "has_more", reflect.TBool);
        ("MaxTokensPerBatch", "max_tokens_per_batch", TInt_);
        ("BatchSize", "batch_size", TInt_);
        ("MaxTries", "max_tries", TInt_) ]
  | _ =>
    reflect.TStruct "main.CompletionResponse"
      [ ("Choices", "choices", reflect.TSlice (Choice v)) ]
  end.

(** The width of the field [Temperature], which the constant [0.8] is
    converted to. *)
Definition temperatureBits (v : variant) : Z :=
  match v with
  | part_000_second => 32
  | _ => 64
  end.

(** A floating-point constant converted to the type it is used at. *)
Definition floatConst (lit : string) (bits : Z) : spec_float := json.constant lit bits.

(** ** The program: [generateText] *)

Definition generateText (v : variant) (prompt : string) (model : string)
  : Go (string * option error) :=
  let model := if String.eqb model "" then "text-davinci-003" else model in
  apiKey <- os.Getenv "OPENAI_API_KEY" ;;
  if String.eqb apiKey "" then
    ret ("", Some (errors.New "OPENAI_API_KEY environment variable not set"))
  else
    match
      json.Marshal (CompletionRequest v)
        (reflect.Composite (CompletionRequest v)
           [ ("Prompt", reflect.VString prompt);
             ("Model", reflect.VString model);
             ("Temperature", reflect.VFloat (floatConst "0.8" (temperatureBits v)));
             ("MaxTokens", reflect.VInt 2000) ])
    with
    | inr err => ret ("", Some err)
    | inl requestBody =>
      match http.NewRequest "POST" apiURL requestBody with
      | inr err => ret ("", Some err)
      | inl req =>
        let req := http.Set_ req "Content-Type" "application/json" in
        let req := http.Set_ req "Authorization" (fmt.Sprintf "Bearer %s" [fmt.S apiKey]) in
        r <- client_Do req ;;
        match r with
        | inr err => ret ("", Some err)
        | inl resp =>
          defer Body_Close
            (if negb (http.StatusCode resp =? http.StatusOK) then
               ret ("", Some (fmt.Errorf "received non-200 status code: %d"
                                         [fmt.D (http.StatusCode resp)]))
             else
               d <- NewDecoder_Decode resp (CompletionResponse v)
                      (reflect.Zero (CompletionResponse v)) ;;
               let (completionResponse, err) := d in
               match err with
               | Some err => ret ("", Some err)
               | None =>
                 choice <- index (field completionResponse "Choices") 0 ;;
                 ret (stringOf (field choice "Text"), None)
               end)
        end
      end
    end.

(** ** What the properties speak of *)

(** The credential the process finds in its environment. *)
Definition credential (w : World) : string := environ w "OPENAI_API_KEY".

(** The requests that left the process, oldest first. *)
Fixpoint sent (tr : list Event) : list http.Request :=
  match tr with
  | [] => []
  | EvDo req :: rest => req :: sent rest
  | _ :: rest => sent rest
  end.

(** How often the decoder was applied to a response body. *)
Fixpoint decoded (tr : list Event) : nat :=
  match tr with
  | [] => O
  | EvDecode :: rest => Datatypes.S (decoded rest)
  | _ :: rest => decoded rest
  end.

(** A world with a mocked transport: the credential is [key], every
    request gets the same [answer], nothing has happened yet. *)
Definition mock (key : string) (answer : http.Response + error) : World :=
  mkWorld (fun k => if String.eqb k "OPENAI_API_KEY" then key else EmptyString)
          (fun _ _ => answer) [].

(** The member [name] of a serialized payload, as its receiver reads it:
    the payload is scanned as JSON and the member looked up by its key. *)
Fixpoint assoc (name : string) (members : list (string * json.Value)) : option json.Value :=
  match members with
  | [] => None
  | (k, x) :: rest => if String.eqb k name then Some x else assoc name rest
  end.

Definition payloadField (name : string) (payload : string) : option json.Value :=
  match json.readValue payload None with
  | inl (json.Object members) => assoc name members
  | _ => None
  end.

(** The text [json.Marshal] writes for the request of each variant, the
    prompt and the model apart ([q] turns the single quotes into double
    quotes). *)
Definition requestText (v : variant) (prompt model : string) : string :=
  match v with
  | main_go =>
    (q "{'prompt':" ++ json.appendString prompt
       ++ q ",'model':" ++ json.appendString model
       ++ q ",'max_tokens':2000,'temperature':0.8,'top_p':0,'frequency_penalty':0"
       ++ q ",'presence_penalty':0,'best_of':0,'stop':'','stream':false"
       ++ q ",'max_tokens_per_batch':0,'n':0,'streaming':false,'stop_sequence':null"
       ++ q ",'batch_size':0,'max_tries':0,'diversity':0}")%string
  | part_000_first =>
    (q "{'prompt':" ++ json.appendString prompt
       ++ q ",'model':" ++ json.appendString model
       ++ q ",'max_tokens':2000,'temperature':0.8}")%string
  | part_000_second =>
    (q "{'prompt':" ++ json.appendString prompt
       ++ q ",'model':" ++ json.appendString model
       ++ q ",'temperature':0.8,'max_tokens':2000}")%string
  end.

(** The JSON value a receiver reads in [requestText]. *)
Definition requestJSON (v : variant) (prompt model : string) : json.Value :=
  match v with
  | main_go =>
    json.Object
      [ ("prompt", json.Str prompt); ("model", json.Str model);
        ("max_tokens", json.Number "2000"); ("temperature", json.Number "0.8");
        ("top_p", json.Number "0"); ("frequency_penalty", json.Number "0");
        ("presence_penalty", json.Number "0"); ("best_of", json.Number "0");
        ("stop", json.Str ""); ("stream", json.Bool false);
        ("max_tokens_per_batch", json.Number "0"); ("n", json.Number "0");
        ("streaming", json.Bool false); ("stop_sequence", json.Null);
        ("batch_size", json.Number "0"); ("max_tries", json.Number "0");
        ("diversity", json.Number "0") ]
  | part_000_first =>
    json.Object
      [ ("prompt", json.Str prompt); ("model", json.Str model);
        ("max_tokens", json.Number "2000"); ("temperature", json.Number "0.8") ]
  | part_000_second =>
    json.Object
      [ ("prompt", json.Str prompt); ("model", json.Str model);
        ("temperature", json.Number "0.8"); ("max_tokens", json.Number "2000") ]
  end.

(** The request [generateText] hands to the client when the credential
    is [key]. *)
Definition requestOf (v : variant) (key prompt model : string) : http.Request :=
  http.mkRequest "POST" apiURL
    [ ("Content-Type", ["application/json"]); ("Authorization", ["Bearer " ++ key]%string) ]
    (requestText v prompt (if String.eqb model "" then "text-davinci-003" else model)).

(** The string a JSON string member of a payload decodes to: the bytes
    that are no valid UTF-8 are each replaced by U+FFFD. *)
Fixpoint coerceLoop (fuel : nat) (s : string) : string :=
  match fuel, s with
  | Datatypes.S fuel', String _ _ =>
    let (c, size) := utf8.DecodeRuneInString s in
    if (c =? utf8.RuneError) && (size =? 1)%nat then
      (utf8.EncodeRune utf8.RuneError ++ coerceLoop fuel' (drop size s))%string
    else (strconv.take size s ++ coerceLoop fuel' (drop size s))%string
  | _, _ => EmptyString
  end.

Definition coerce (s : string) : string := coerceLoop (String.length s) s.

(** The answer of the network to the request [generateText] sends. *)
Definition answer (w : World) (v : variant) (prompt model : string) : http.Response + error :=
  network w (trace w ++ [EvGetenv "OPENAI_API_KEY"]) (requestOf v (credential w) prompt model).

(** The error of a status that is not 200. *)
Definition statusError (code : Z) : error :=
  errorString ("received non-200 status code: " ++ strconv.Itoa code).

(** What [generateText] does once it holds a response. *)
Definition afterResponse (v : variant) (resp : http.Response) (w : World)
  : Outcome (string * option error) * World :=
  if negb (http.StatusCode resp =? http.StatusOK) then
    (Returns ("", Some (statusError (http.StatusCode resp))), record w EvClose)
  else
    let w' := record (record w EvDecode) EvClose in
    match json.Decode (http.RespBody resp) (http.RespErr resp)
            (CompletionResponse v) (reflect.Zero (CompletionResponse v)) with
    | (_, Some err) => (Returns ("", Some err), w')
    | (completionResponse, None) =>
      let choices := field completionResponse "Choices" in
      if (0 <? reflect.Len choices)%nat then
        (Returns (stringOf (field (nth 0 (reflect.arrayOf choices) reflect.VNil) "Text"), None), w')
      else (Panics (boundsError 0 (Z.of_nat (reflect.Len choices))), w')
    end.

(** [validRune s c size]: the string [s] starts with the [size] bytes
    that encode the rune [c] in UTF-8. *)
Inductive validRune : string -> Z -> nat -> Prop :=
| rune1 (b0 : ascii) (t : string) :
    code b0 < 0x80 -> validRune (String b0 t) (code b0) 1
| rune2 (b0 b1 : ascii) (t : string) :
    0xC2 <= code b0 <= 0xDF -> 0x80 <= code b1 <= 0xBF ->
    validRune (String b0 (String b1 t)) ((code b0 - 0xC0) * 64 + (code b1 - 0x80)) 2
| rune3 (b0 b1 b2 : ascii) (t : string) :
    0xE0 <= code b0 <= 0xEF -> 0x80 <= code b1 <= 0xBF ->
    (code b0 = 0xE0 -> 0xA0 <= code b1) -> (code b0 = 0xED -> code b1 <= 0x9F) ->
    0x80 <= code b2 <= 0xBF ->
    validRune (String b0 (String b1 (String b2 t)))
      ((code b0 - 0xE0) * 4096 + (code b1 - 0x80) * 64 + (code b2 - 0x80)) 3
| rune4 (b0 b1 b2 b3 : ascii) (t : string) :
    0xF0 <= code b0 <= 0xF4 -> 0x80 <= code b1 <= 0xBF ->
    (code b0 = 0xF0 -> 0x90 <= code b1) -> (code b0 = 0xF4 -> code b1 <= 0x8F) ->
    0x80 <= code b2 <= 0xBF -> 0x80 <= code b3 <= 0xBF ->
    validRune (String b0 (String b1 (String b2 (String b3 t))))
      ((code b0 - 0xF0) * 262144 + (code b1 - 0x80) * 4096 + (code b2 - 0x80) * 64
       + (code b3 - 0x80)) 4.

(** The scanner inside a string literal. *)
Definition inString (ps : list json.parseFrame) (itm : string) (lst : option json.Value) : json.scan :=
  json.scanContinue (json.mkScanner json.InString ps itm lst).

(** ** unicode, strings, bufio: what [main] calls *)

Module unicode.

Definition MaxLatin1 : Z := 0xFF.

(** [IsSpace r]: the property White_Space; the runes up to Latin-1 are
    told by a switch, the others by the table of the property. *)
Definition IsSpace (r : Z) : bool :=
  if (0 <=? r) && (r <=? MaxLatin1) then
    ((9 <=? r) && (r <=? 13)) || (r =? 32) || (r =? 0x85) || (r =? 0xA0)
  else
    (r =? 0x1680) || ((0x2000 <=? r) && (r <=? 0x200a)) || (r =? 0x2028) || (r =? 0x2029)
    || (r =? 0x202f) || (r =? 0x205f) || (r =? 0x3000).

End unicode.

Module strings.

(** [s[i:j]]. *)
Definition slice (s : string) (i j : nat) : string := substring i (j - i) s.

(** The table [asciiSpace]: tab, line feed, vertical tab, form feed,
    carriage return and the space. *)
Definition asciiSpace (c : ascii) : bool :=
  ((9 <=? code c) && (code c <=? 13)) || (code c =? 32).

(** [indexFunc s f truth]: the index of the first rune [r] of [s] with
    [f r = truth]; [None] is the [-1] of the source. *)
Fixpoint indexFuncFrom (fuel : nat) (s : string) (i : nat) (f : Z -> bool) (truth : bool)
  : option nat :=
  match fuel with
  | O => None
  | Datatypes.S fuel' =>
    if (i <? String.length s)%nat then
      let (r, size) := utf8.DecodeRuneInString (drop i s) in
      if Bool.eqb (f r) truth then Some i
      else indexFuncFrom fuel' s (i + size) f truth
    else None
  end.

Definition indexFunc (s : string) (f : Z -> bool) (truth : bool) : option nat :=
  indexFuncFrom (String.length s) s O f truth.

(** [lastIndexFunc s f truth]: the same from the end. *)
Fixpoint lastIndexFuncFrom (fuel : nat) (s : string) (i : nat) (f : Z -> bool) (truth : bool)
  : option nat :=
  match fuel with
  | O => None
  | Datatypes.S fuel' =>
    if (0 <? i)%nat then
      let (r, size) := utf8.DecodeLastRuneInString (slice s 0 i) in
      let i := (i - size)%nat in
      if Bool.eqb (f r) truth then Some i
      else lastIndexFuncFrom fuel' s i f truth
    else None
  end.

Definition lastIndexFunc (s : string) (f : Z -> bool) (truth : bool) : option nat :=
  lastIndexFuncFrom (String.length s) s (String.length s) f truth.

Definition TrimLeftFunc (s : string) (f : Z -> bool) : string :=
  match indexFunc s f false with
  | None => EmptyString
  | Some i => slice s i (String.length s)
  end.

Definition TrimRightFunc (s : string) (f : Z -> bool) : string :=
  match lastIndexFunc s f false with
  | Some i =>
    if utf8.RuneSelf <=? code (at_ s i) then
      let (_, wid) := utf8.DecodeRuneInString (slice s i (String.length s)) in
      slice s 0 (i + wid)
    else slice s 0 (i + 1)
  | None => slice s 0 0
  end.

Definition TrimFunc (s : string) (f : Z -> bool) : string :=
  TrimRightFunc (TrimLeftFunc s f) f.

(** The first loop of [TrimSpace]: the index of the first ASCII byte
    that is no space, or the result at once when a byte past ASCII is
    met.  The loop ends within [len(s)] steps. *)
Fixpoint trimStart (fuel : nat) (s : string) (start : nat) : nat + string :=
  match fuel with
  | O => inl start
  | Datatypes.S fuel' =>
    if (start <? String.length s)%nat then
      let c := at_ s start in
      if utf8.RuneSelf <=? code c then
        inr (TrimFunc (slice s start (String.length s)) unicode.IsSpace)
      else if negb (asciiSpace c) then inl start
      else trimStart fuel' s (Datatypes.S start)
    else inl start
  end.

(** The second loop: the same from the end, down to [start]. *)
Fixpoint trimStop (fuel : nat) (s : string) (start stop : nat) : nat + string :=
  match fuel with
  | O => inl stop
  | Datatypes.S fuel' =>
    if (start <? stop)%nat then
      let c := at_ s (stop - 1) in
      if utf8.RuneSelf <=? code c then
        inr (TrimRightFunc (slice s start stop) unicode.IsSpace)
      else if negb (asciiSpace c) then inl stop
      else trimStop fuel' s start (stop - 1)
    else inl stop
  end.

Definition TrimSpace (s : string) : string :=
  match trimStart (String.length s) s O with
  | inr trimmed => trimmed
  | inl start =>
    match trimStop (String.length s) s start (String.length s) with
    | inr trimmed => trimmed
    | inl stop => slice s start stop
    end
  end.

End strings.

Module bufio.

(** [NewReader(r).ReadString(delim)] on a stream that delivers [input]
    and then ends: the bytes through the first [delim]; without one, all
    the bytes and [io.EOF]. *)
Fixpoint ReadString (input : string) (delim : ascii) : string * option error :=
  match input with
  | EmptyString => (EmptyString, Some io_EOF)
  | String c t =>
    if Ascii.eqb c delim then (String c EmptyString, None)
    else let (line, err) := ReadString t delim in (String c line, err)
  end.

End bufio.

(** ** The program: [main] *)

Definition newline : ascii := "010"%char.

(** What the process writes to standard output, call by call:
    [fmt.Print(s)] writes [s]; [fmt.Println(a)] writes [a], an error as
    the text of its method [Error], and a line feed. *)
Inductive Output : Type :=
| fmt_Print (s : string)
| fmt_Println (a : string + error).

(** [main] on the standard input [stdin]: how it ends, the world it
    leaves and what it wrote. *)
Definition main (v : variant) (stdin : string) (w : World)
  : Outcome unit * World * list Output :=
  let out := [fmt_Print "Enter prompt: "] in
  let (prompt, _) := bufio.ReadString stdin newline in
  let prompt := strings.TrimSpace prompt in
  match generateText v prompt "" w with
  | (Panics e, w') => (Panics e, w', out)
  | (Returns (result, Some err), w') => (Returns tt, w', (out ++ [fmt_Println (inr err)])%list)
  | (Returns (result, None), w') => (Returns tt, w', (out ++ [fmt_Println (inl result)])%list)
  end.

(** The prompt [main] reads on [stdin]. *)
Definition promptOf (stdin : string) : string :=
  strings.TrimSpace (fst (bufio.ReadString stdin newline)).

(** A byte within a line, a blank within a line, and a byte that
    [TrimSpace] stops at. *)
Definition inLine (c : ascii) : bool := negb (Ascii.eqb c newline).

Definition blank (c : ascii) : bool := strings.asciiSpace c && inLine c.

Definition edge (c : ascii) : bool := (code c <? utf8.RuneSelf) && negb (strings.asciiSpace c).

Fixpoint lastByte (s : string) : ascii :=
  match s with
  | EmptyString => zero
  | String c EmptyString => c
  | String _ t => lastByte t
  end.

(** A text that is empty, or begins and ends with an ASCII byte that is
    no space. *)
Definition edges (s : string) : bool :=
  match s with
  | EmptyString => true
  | String c _ => edge c && edge (lastByte s)
  end.

(** The end of the input, or the line feed that ends its first line. *)
Definition lineEnd (s : string) : bool :=
  match s with
  | EmptyString => true
  | String c _ => Ascii.eqb c newline
  end.

(** ** What the further properties speak of *)

(** How many times a response body was closed. *)
Fixpoint closed (tr : list Event) : nat :=
  match tr with
  | [] => O
  | EvClose :: rest => Datatypes.S (closed rest)
  | _ :: rest => closed rest
  end.

(** A byte that a payload may hold as it is: no control character and
    none of the three characters that HTML escaping hides. *)
Definition wireSafe (c : ascii) : bool :=
  (32 <=? code c)
  && negb (Ascii.eqb c "<"%char) && negb (Ascii.eqb c ">"%char) && negb (Ascii.eqb c "&"%char).

(** One choice of a completion, as [encoding/json] writes it. *)
Definition choiceText (text : string) : string :=
  (q "{'text':" ++ json.appendString text ++ "}")%string.

(** The choices after the first one, each after its comma. *)
Fixpoint moreChoices (texts : list string) : string :=
  match texts with
  | [] => EmptyString
  | t :: rest => ("," ++ choiceText t ++ moreChoices rest)%string
  end.

(** The body of a response whose choices carry [text] and then [others]. *)
Definition responseText (text : string) (others : list string) : string :=
  (q "{'choices':[" ++ choiceText text ++ moreChoices others ++ "]}")%string.

(** What a receiver reads in [choiceText]. *)
Definition choiceJSON (text : string) : json.Value :=
  json.Object [("text", json.Str (coerce text))].

(** The loop of [d.array] over the elements of a JSON array, as
    [json.value] runs it. *)
Fixpoint arrayLoop (et : reflect.rtype) (es : list json.Value) (i : nat)
  (array : list reflect.Value) (saved : option error) : list reflect.Value * option error :=
  match es with
  | [] => (array, saved)
  | e :: es' =>
    let '(x, saved1) := json.value e et (nth i array (reflect.Zero et)) saved in
    arrayLoop et es' (Datatypes.S i) (reflect.setNth i x array) saved1
  end.

(** The choice that the object [{"text": s}] decodes to. *)
Definition choiceValue (v : variant) (s : string) : reflect.Value :=
  fst (json.value (json.Object [("text", json.Str s)]) (Choice v) (reflect.Zero (Choice v)) None).

(** The fields of a struct type. *)
Definition fieldsOf (t : reflect.rtype) : list (string * string * reflect.rtype) :=
  match t with
  | reflect.TStruct _ fields => fields
  | _ => []
  end.

(** The loop of [d.object] over the members of a JSON object, as
    [json.value] runs it. *)
Fixpoint objectLoop (fields : list (string * string * reflect.rtype))
  (ms : list (string * json.Value)) (v : reflect.Value) (saved : option error)
  : reflect.Value * option error :=
  match ms with
  | [] => (v, saved)
  | (key, jv) :: ms' =>
    match json.findField fields key, v with
    | Some (name, _, ft), reflect.VStruct vs =>
      match reflect.lookup name vs with
      | Some cur =>
        let '(x, saved1) := json.value jv ft cur saved in
        objectLoop fields ms' (reflect.VStruct (reflect.store name x vs)) saved1
      | None => objectLoop fields ms' v saved
      end
    | _, _ => objectLoop fields ms' v saved
    end
  end.

(** A member whose key names a field. *)
Definition known (fields : list (string * string * reflect.rtype)) (m : string * json.Value)
  : bool :=
  match json.findField fields (fst m) with
  | Some _ => true
  | None => false
  end.

(** [factor t s]: the bytes of [t] stand in [s], one after the other. *)
Definition factor (t s : string) : Prop :=
  exists a b : string, s = (a ++ t ++ b)%string.


(** The scanner is inside a container, or has refused the text: the
    value it reads has not ended. *)
Definition inside (st : json.scan) : Prop :=
  match st with
  | json.scanContinue s => json.parseState s <> []
  | json.scanError _ => True
  | json.scanEnd _ => False
  end.


(** * Properties *)

(** ** The run of [generateText], step by step *)

Lemma append_empty (s : string) : (s ++ "")%string = s.
Proof. induction s as [|c s IH]; simpl; [reflexivity | now rewrite IH]. Qed.

Lemma append_assoc (a b c : string) : ((a ++ b) ++ c = a ++ (b ++ c))%string.
Proof. induction a as [|x a IH]; cbn; [reflexivity | rewrite IH; reflexivity]. Qed.

Lemma append_length (a b : string) :
  String.length (a ++ b) = (String.length a + String.length b)%nat.
Proof. induction a as [|c a IH]; cbn; [reflexivity | rewrite IH; reflexivity]. Qed.

(** The zeros before the first digit that is not zero are no digits of
    the mantissa: 399 of them after the point and the exponent 402 give
    100, not an overflow. *)
Lemma ParseFloat_leading_zeros :
  strconv.ParseFloat ("0." ++ strconv.zeros 399 ++ "1e402") 64 = strconv.ParseFloat "100" 64
  /\ strconv.ParseFloat "100" 64 = Some (S754_finite false 7036874417766400 (-46)).
Proof. split; vm_compute; reflexivity. Qed.

Lemma encodeFloat_temperature (v : variant) :
  json.encodeFloat (floatConst "0.8" (temperatureBits v)) (temperatureBits v) = inl "0.8".
Proof. destruct v; vm_compute; reflexivity. Qed.

(** [json.Marshal] never fails on the request, and writes [requestText]. *)
Lemma Marshal_request (v : variant) (prompt model : string) :
  json.Marshal (CompletionRequest v)
    (reflect.Composite (CompletionRequest v)
       [ ("Prompt", reflect.VString prompt);
         ("Model", reflect.VString model);
         ("Temperature", reflect.VFloat (floatConst "0.8" (temperatureBits v)));
         ("MaxTokens", reflect.VInt 2000) ])
  = inl (requestText v prompt model).
Proof.
  destruct v;
    cbn -[json.appendString json.encodeFloat floatConst String.append temperatureBits requestText];
    rewrite encodeFloat_temperature;
    cbn -[json.appendString String.append requestText];
    f_equal; unfold requestText;
    generalize (json.appendString prompt) (json.appendString model); intros jp jm;
    rewrite !append_assoc; vm_compute; reflexivity.
Qed.

(** [http.NewRequest] never fails on the method and the URL of the
    program. *)
Lemma NewRequest_POST (body : string) :
  http.NewRequest "POST" apiURL body = inl (http.mkRequest "POST" apiURL [] body).
Proof. reflexivity. Qed.

Lemma request_headers (key body : string) :
  http.Set_
    (http.Set_ (http.mkRequest "POST" apiURL [] body) "Content-Type" "application/json")
    "Authorization" (fmt.Sprintf "Bearer %s" [fmt.S key])
  = http.mkRequest "POST" apiURL
      [ ("Content-Type", ["application/json"]); ("Authorization", ["Bearer " ++ key]%string) ]
      body.
Proof.
  unfold http.Set_. cbn. rewrite append_empty. reflexivity.
Qed.

Lemma Errorf_status (code : Z) :
  fmt.Errorf "received non-200 status code: %d" [fmt.D code] = statusError code.
Proof.
  unfold fmt.Errorf, statusError. cbn -[strconv.Itoa]. rewrite append_empty. reflexivity.
Qed.

(** Every run of [generateText]: the credential is looked up; when it is
    there, one request is sent, and the response decides the rest. *)
Lemma generateText_unfold (v : variant) (prompt model : string) (w : World) :
  generateText v prompt model w =
  let w1 := record w (EvGetenv "OPENAI_API_KEY") in
  if String.eqb (credential w) "" then
    (Returns ("", Some (errors.New "OPENAI_API_KEY environment variable not set")), w1)
  else
    let w2 := record w1 (EvDo (requestOf v (credential w) prompt model)) in
    match answer w v prompt model with
    | inr err => (Returns ("", Some err), w2)
    | inl resp => afterResponse v resp w2
    end.
Proof.
  unfold generateText, bind, os.Getenv, credential, answer.
  cbn -[json.Marshal String.eqb http.NewRequest reflect.Composite CompletionRequest
        fmt.Sprintf temperatureBits floatConst CompletionResponse json.Decode http.Set_].
  destruct (String.eqb (environ w "OPENAI_API_KEY") "") eqn:Hkey; [reflexivity|].
  rewrite Marshal_request, NewRequest_POST, request_headers.
  fold (requestOf v (environ w "OPENAI_API_KEY") prompt model).
  unfold client_Do.
  cbn -[String.eqb CompletionResponse json.Decode requestOf].
  destruct (network w _ _) as [resp|err]; [|reflexivity].
  unfold afterResponse, defer, Body_Close. rewrite Errorf_status.
  destruct (negb (http.StatusCode resp =? http.StatusOK)); [reflexivity|].
  unfold NewDecoder_Decode.
  cbn -[String.eqb CompletionResponse json.Decode requestOf field].
  destruct (json.Decode _ _ _ _) as [cr [err|]]; [reflexivity|].
  unfold index.
  destruct (reflect.Len (field cr "Choices")); reflexivity.
Qed.

Lemma credential_present (w : World) :
  credential w <> "" -> String.eqb (credential w) "" = false.
Proof. intro H. apply String.eqb_neq. exact H. Qed.

(** With the credential there, the run is the one of the answer. *)
Lemma generateText_with_credential (v : variant) (prompt model : string) (w : World) :
  credential w <> "" ->
  generateText v prompt model w =
  let w2 := record (record w (EvGetenv "OPENAI_API_KEY"))
                   (EvDo (requestOf v (credential w) prompt model)) in
  match answer w v prompt model with
  | inr err => (Returns ("", Some err), w2)
  | inl resp => afterResponse v resp w2
  end.
Proof.
  intro Hkey. rewrite generateText_unfold. cbv zeta.
  rewrite (credential_present w Hkey). reflexivity.
Qed.

Lemma sent_app (a b : list Event) : sent (a ++ b) = (sent a ++ sent b)%list.
Proof.
  induction a as [|e a IH]; simpl; [reflexivity|].
  destruct e; simpl; rewrite IH; reflexivity.
Qed.

Lemma decoded_app (a b : list Event) : decoded (a ++ b) = (decoded a + decoded b)%nat.
Proof.
  induction a as [|e a IH]; simpl; [reflexivity|].
  destruct e; simpl; rewrite IH; reflexivity.
Qed.

(** ** The credential *)

(** C2: when the lookup of the credential yields the empty string,
    [generateText] returns the configuration error with the empty text,
    for every prompt and model, and the only thing the process did is that
    lookup: no request was sent. *)
Theorem missing_credential_no_network_call
  (v : variant) (prompt model : string) (w : World) :
  credential w = "" ->
  generateText v prompt model w =
    (Returns ("", Some (errors.New "OPENAI_API_KEY environment variable not set")),
     record w (EvGetenv "OPENAI_API_KEY"))
  /\ sent (trace (snd (generateText v prompt model w))) = sent (trace w).
Proof.
  intro Hkey. rewrite generateText_unfold. cbv zeta. rewrite Hkey. simpl String.eqb.
  split; [reflexivity|].
  simpl. rewrite sent_app. simpl. apply app_nil_r.
Qed.

Lemma missing_credential_no_network_call_witness :
  generateText main_go "prompt" ""
    (mock "" (inl (http.mkResponse 200 (q "{'choices':[{'text':'hello'}]}") None))) =
    (Returns ("", Some (errors.New "OPENAI_API_KEY environment variable not set")),
     record (mock "" (inl (http.mkResponse 200 (q "{'choices':[{'text':'hello'}]}") None)))
            (EvGetenv "OPENAI_API_KEY"))
  /\ sent (trace (snd (generateText main_go "prompt" ""
       (mock "" (inl (http.mkResponse 200 (q "{'choices':[{'text':'hello'}]}") None)))))) = [].
Proof.
  apply (missing_credential_no_network_call main_go "prompt" ""
           (mock "" (inl (http.mkResponse 200 (q "{'choices':[{'text':'hello'}]}") None)))).
  reflexivity.
Defined.

(** ** The response *)

(** C3: with the credential there and a transport that answers 200 with
    the body [{"choices":[{"text":"hello"}]}], [generateText("prompt", "")]
    returns [("hello", nil)]. *)
Theorem hello_is_returned (v : variant) (w : World) :
  credential w <> "" ->
  answer w v "prompt" "" =
    inl (http.mkResponse 200 (q "{'choices':[{'text':'hello'}]}") None) ->
  fst (generateText v "prompt" "" w) = Returns ("hello", None).
Proof.
  intros Hkey Hans. rewrite (generateText_with_credential v _ _ w Hkey). cbv zeta.
  rewrite Hans. destruct v; vm_compute; reflexivity.
Qed.

Lemma hello_is_returned_witness :
  fst (generateText main_go "prompt" ""
         (mock "sk-test" (inl (http.mkResponse 200 (q "{'choices':[{'text':'hello'}]}") None))))
  = Returns ("hello", None).
Proof.
  apply hello_is_returned; [discriminate | reflexivity].
Defined.

(** C4: on a status that is not 200 the result is the error that carries
    the status code, in decimal, and the decoder is not applied to the
    body: the process looked up the credential, sent the request and
    closed the body, nothing else. *)
Theorem non_200_status_is_an_error
  (v : variant) (prompt model : string) (w : World) (resp : http.Response) :
  credential w <> "" ->
  answer w v prompt model = inl resp ->
  http.StatusCode resp <> http.StatusOK ->
  fst (generateText v prompt model w) =
    Returns ("", Some (errorString ("received non-200 status code: "
                                    ++ strconv.Itoa (http.StatusCode resp))))
  /\ trace (snd (generateText v prompt model w)) =
       (trace w ++ [EvGetenv "OPENAI_API_KEY";
                    EvDo (requestOf v (credential w) prompt model);
                    EvClose])%list
  /\ decoded (trace (snd (generateText v prompt model w))) = decoded (trace w).
Proof.
  intros Hkey Hans Hcode. rewrite (generateText_with_credential v _ _ w Hkey). cbv zeta.
  rewrite Hans. unfold afterResponse.
  replace (http.StatusCode resp =? http.StatusOK) with false
    by (symmetry; apply Z.eqb_neq; exact Hcode).
  simpl negb. cbv iota. unfold statusError. simpl fst. simpl snd.
  assert (Htr : trace (record (record (record w (EvGetenv "OPENAI_API_KEY"))
                                 (EvDo (requestOf v (credential w) prompt model))) EvClose)
                = (trace w ++ [EvGetenv "OPENAI_API_KEY";
                               EvDo (requestOf v (credential w) prompt model);
                               EvClose])%list).
  { simpl. rewrite <- !app_assoc. reflexivity. }
  split; [reflexivity|]. split; [exact Htr|].
  rewrite Htr, decoded_app. simpl. apply Nat.add_0_r.
Qed.

Lemma non_200_status_is_an_error_witness :
  fst (generateText main_go "prompt" ""
         (mock "sk-test" (inl (http.mkResponse 429 "Too Many Requests" None))))
  = Returns ("", Some (errorString "received non-200 status code: 429"))
  /\ decoded (trace (snd (generateText main_go "prompt" ""
         (mock "sk-test" (inl (http.mkResponse 429 "Too Many Requests" None)))))) = O.
Proof.
  destruct (non_200_status_is_an_error main_go "prompt" ""
              (mock "sk-test" (inl (http.mkResponse 429 "Too Many Requests" None)))
              (http.mkResponse 429 "Too Many Requests" None)) as [H1 [_ H3]].
  - discriminate.
  - reflexivity.
  - discriminate.
  - split; [exact H1 | exact H3].
Defined.

(** C9: when the status is 200 and the decoded response has at least one
    choice, the text returned is the field [Text] of the choice at index
    zero; the other choices have no part in it. *)
Theorem first_choice_is_returned
  (v : variant) (prompt model : string) (w : World) (resp : http.Response)
  (completionResponse : reflect.Value) :
  credential w <> "" ->
  answer w v prompt model = inl resp ->
  http.StatusCode resp = http.StatusOK ->
  json.Decode (http.RespBody resp) (http.RespErr resp)
    (CompletionResponse v) (reflect.Zero (CompletionResponse v)) = (completionResponse, None) ->
  (0 < reflect.Len (field completionResponse "Choices"))%nat ->
  fst (generateText v prompt model w) =
    Returns (stringOf (field (nth 0 (reflect.arrayOf (field completionResponse "Choices"))
                                  reflect.VNil) "Text"), None).
Proof.
  intros Hkey Hans Hcode Hdec Hlen. rewrite (generateText_with_credential v _ _ w Hkey). cbv zeta.
  rewrite Hans. unfold afterResponse. rewrite Hcode, Z.eqb_refl. simpl negb. cbv iota.
  rewrite Hdec. cbv zeta.
  apply Nat.ltb_lt in Hlen. rewrite Hlen. reflexivity.
Qed.

Lemma first_choice_is_returned_witness :
  fst (generateText main_go "prompt" ""
         (mock "sk-test"
            (inl (http.mkResponse 200
                    (q "{'choices':[{'text':'one'},{'text':'two'},{'text':'three'}]}") None))))
  = Returns ("one", None).
Proof.
  pose (body := q "{'choices':[{'text':'one'},{'text':'two'},{'text':'three'}]}").
  apply (first_choice_is_returned main_go "prompt" ""
           (mock "sk-test" (inl (http.mkResponse 200 body None)))
           (http.mkResponse 200 body None)
           (fst (json.Decode body None (CompletionResponse main_go)
                   (reflect.Zero (CompletionResponse main_go))))).
  - discriminate.
  - reflexivity.
  - reflexivity.
  - vm_compute. reflexivity.
  - apply Nat.ltb_lt. vm_compute. reflexivity.
Defined.

(** C1: when the status is 200 and the decoded response has no choice,
    [generateText] does not return: the index expression [Choices[0]]
    panics with an index out of range. *)
Theorem no_choice_panics
  (v : variant) (prompt model : string) (w : World) (resp : http.Response)
  (completionResponse : reflect.Value) :
  credential w <> "" ->
  answer w v prompt model = inl resp ->
  http.StatusCode resp = http.StatusOK ->
  json.Decode (http.RespBody resp) (http.RespErr resp)
    (CompletionResponse v) (reflect.Zero (CompletionResponse v)) = (completionResponse, None) ->
  reflect.Len (field completionResponse "Choices") = O ->
  fst (generateText v prompt model w) = Panics (boundsError 0 0).
Proof.
  intros Hkey Hans Hcode Hdec Hlen. rewrite (generateText_with_credential v _ _ w Hkey). cbv zeta.
  rewrite Hans. unfold afterResponse. rewrite Hcode, Z.eqb_refl. simpl negb. cbv iota.
  rewrite Hdec. cbv zeta. rewrite Hlen. reflexivity.
Qed.

Lemma no_choice_panics_witness :
  fst (generateText main_go "prompt" ""
         (mock "sk-test" (inl (http.mkResponse 200 (q "{'choices':[]}") None))))
  = Panics (boundsError 0 0).
Proof.
  apply (no_choice_panics main_go "prompt" ""
           (mock "sk-test" (inl (http.mkResponse 200 (q "{'choices':[]}") None)))
           (http.mkResponse 200 (q "{'choices':[]}") None)
           (fst (json.Decode (q "{'choices':[]}") None (CompletionResponse main_go)
                   (reflect.Zero (CompletionResponse main_go))))).
  - discriminate.
  - reflexivity.
  - reflexivity.
  - vm_compute. reflexivity.
  - vm_compute. reflexivity.
Defined.

(** C10: whenever [generateText] returns an error, the text it returns
    with it is empty. *)
Theorem error_comes_with_empty_text
  (v : variant) (prompt model : string) (w : World) (text : string) (err : error) :
  fst (generateText v prompt model w) = Returns (text, Some err) ->
  text = "".
Proof.
  rewrite generateText_unfold. cbv zeta.
  destruct (String.eqb (credential w) "").
  - simpl. intro H. inversion H. reflexivity.
  - destruct (answer w v prompt model) as [resp|e].
    + unfold afterResponse.
      destruct (negb (http.StatusCode resp =? http.StatusOK)).
      * simpl. intro H. inversion H. reflexivity.
      * destruct (json.Decode _ _ _ _) as [cr [e|]].
        -- simpl. intro H. inversion H. reflexivity.
        -- cbv zeta. destruct (0 <? reflect.Len (field cr "Choices"))%nat;
             simpl; intro H; inversion H.
    + simpl. intro H. inversion H. reflexivity.
Qed.

Lemma error_comes_with_empty_text_witness :
  fst (generateText main_go "prompt" "" (mock "sk-test" (inr (net_Error "connection refused"))))
  = Returns ("", Some (net_Error "connection refused"))
  /\ "" = "".
Proof.
  split; [reflexivity|].
  apply (error_comes_with_empty_text main_go "prompt" ""
           (mock "sk-test" (inr (net_Error "connection refused")))
           "" (net_Error "connection refused")).
  reflexivity.
Defined.

(** ** The request *)

Lemma sent_afterResponse (v : variant) (resp : http.Response) (w : World) :
  sent (trace (snd (afterResponse v resp w))) = sent (trace w).
Proof.
  unfold afterResponse.
  destruct (negb (http.StatusCode resp =? http.StatusOK)).
  - simpl. rewrite sent_app. simpl. apply app_nil_r.
  - destruct (json.Decode _ _ _ _) as [cr [e|]]; cbv zeta;
      [| destruct (0 <? reflect.Len (field cr "Choices"))%nat];
      simpl; rewrite !sent_app; simpl; rewrite !app_nil_r; reflexivity.
Qed.

(** With the credential there, exactly one request is sent, whatever the
    network answers. *)
Lemma sent_generateText (v : variant) (prompt model : string) (w : World) :
  credential w <> "" ->
  sent (trace (snd (generateText v prompt model w))) =
    (sent (trace w) ++ [requestOf v (credential w) prompt model])%list.
Proof.
  intro Hkey. rewrite (generateText_with_credential v _ _ w Hkey). cbv zeta.
  destruct (answer w v prompt model) as [resp|e].
  - rewrite sent_afterResponse. simpl. rewrite !sent_app. simpl. rewrite app_nil_r. reflexivity.
  - simpl. rewrite !sent_app. simpl. rewrite app_nil_r. reflexivity.
Qed.

(** C7: with the credential there, exactly one request leaves the
    process: a POST to [https://api.openai.com/v1/completions] whose
    header [content-type] is [application/json] and whose header
    [authorization] is [Bearer ] followed by the credential.  When the
    transport fails on it, its error is returned and nothing more is
    sent. *)
Theorem one_POST_and_no_retry (v : variant) (prompt model : string) (w : World) :
  credential w <> "" ->
  exists req : http.Request,
    sent (trace (snd (generateText v prompt model w))) = (sent (trace w) ++ [req])%list
    /\ http.Method req = "POST"
    /\ http.URL req = "https://api.openai.com/v1/completions"
    /\ http.Header_Get (http.Headers req) "content-type" = "application/json"
    /\ http.Header_Get (http.Headers req) "authorization" = ("Bearer " ++ credential w)%string
    /\ forall err : error,
         network w (trace w ++ [EvGetenv "OPENAI_API_KEY"]) req = inr err ->
         generateText v prompt model w =
           (Returns ("", Some err),
            record (record w (EvGetenv "OPENAI_API_KEY")) (EvDo req)).
Proof.
  intro Hkey. exists (requestOf v (credential w) prompt model).
  split; [apply sent_generateText; exact Hkey|].
  split; [reflexivity|]. split; [reflexivity|]. split; [reflexivity|]. split; [reflexivity|].
  intros err Hnet. rewrite (generateText_with_credential v _ _ w Hkey). cbv zeta.
  unfold answer. rewrite Hnet. reflexivity.
Qed.

Lemma one_POST_and_no_retry_witness :
  exists req : http.Request,
    sent (trace (snd (generateText main_go "prompt" ""
                        (mock "sk-test" (inr (net_Error "connection refused")))))) = [req]
    /\ http.Method req = "POST"
    /\ http.URL req = "https://api.openai.com/v1/completions"
    /\ http.Header_Get (http.Headers req) "content-type" = "application/json"
    /\ http.Header_Get (http.Headers req) "authorization" = "Bearer sk-test"
    /\ fst (generateText main_go "prompt" ""
              (mock "sk-test" (inr (net_Error "connection refused"))))
       = Returns ("", Some (net_Error "connection refused")).
Proof.
  destruct (one_POST_and_no_retry main_go "prompt" ""
              (mock "sk-test" (inr (net_Error "connection refused"))))
    as [req [H1 [H2 [H3 [H4 [H5 H6]]]]]].
  - discriminate.
  - exists req.
    split; [exact H1|]. split; [exact H2|]. split; [exact H3|].
    split; [exact H4|]. split; [exact H5|].
    rewrite (H6 (net_Error "connection refused")); reflexivity.
Defined.

(** ** Bytes, runes and bits *)

Lemma code_range (c : ascii) : 0 <= code c < 256.
Proof.
  unfold code. pose proof (N_ascii_bounded c). lia.
Qed.

Lemma chr_code (c : ascii) : chr (code c) = c.
Proof.
  unfold chr, code. pose proof (N_ascii_bounded c).
  rewrite Z.mod_small by lia. rewrite N2Z.id. apply ascii_N_embedding.
Qed.

Lemma land_low (z : Z) (k : Z) : 0 <= k -> Z.land z (2 ^ k - 1) = z mod 2 ^ k.
Proof.
  intro Hk. rewrite <- Z.land_ones by exact Hk. rewrite Z.ones_equiv. reflexivity.
Qed.

Lemma land_disjoint (hi lo k : Z) :
  0 <= k -> 0 <= lo < 2 ^ k -> Z.land (hi * 2 ^ k) lo = 0.
Proof.
  intros Hk Hlo. apply Z.bits_inj'. intros n Hn.
  rewrite Z.land_spec, Z.bits_0.
  destruct (Z.lt_ge_cases n k) as [Hlt|Hge].
  - rewrite Z.mul_pow2_bits_low by lia. reflexivity.
  - replace (Z.testbit lo n) with false; [apply andb_false_r|].
    symmetry. destruct (Z.eq_dec lo 0) as [->|Hnz]; [apply Z.bits_0|].
    apply Z.bits_above_log2; [lia|].
    apply Z.log2_lt_pow2; [lia|].
    apply Z.lt_le_trans with (2 ^ k); [lia | apply Z.pow_le_mono_r; lia].
Qed.

Lemma lor_add (hi lo k : Z) :
  0 <= k -> 0 <= lo < 2 ^ k -> Z.lor (hi * 2 ^ k) lo = hi * 2 ^ k + lo.
Proof.
  intros Hk Hlo. pose proof (land_disjoint hi lo k Hk Hlo) as Hd.
  rewrite <- Z.lxor_lor by exact Hd. symmetry. apply Z.add_nocarry_lxor. exact Hd.
Qed.

Lemma lor_concat (hi lo k : Z) :
  0 <= k -> 0 <= lo < 2 ^ k -> hi mod 2 ^ k = 0 -> Z.lor hi lo = hi + lo.
Proof.
  intros Hk Hlo Hhi.
  assert (H : hi = hi / 2 ^ k * 2 ^ k).
  { pose proof (Z.div_mod hi (2 ^ k)) as Hd.
    assert (2 ^ k <> 0) by (apply Z.pow_nonzero; lia). specialize (Hd H). lia. }
  rewrite H at 1. rewrite lor_add by assumption. lia.
Qed.

(** The bit operations of the decoder and the encoder, as arithmetic. *)
Ltac bits_to_arith :=
  unfold utf8.maskx, utf8.mask2, utf8.mask3, utf8.mask4 in *;
  change 0x3F with (2 ^ 6 - 1) in *;
  change 0x1F with (2 ^ 5 - 1) in *;
  change 0x0F with (2 ^ 4 - 1) in *;
  change 0x07 with (2 ^ 3 - 1) in *;
  repeat rewrite land_low in * by lia;
  repeat rewrite Z.shiftl_mul_pow2 in * by lia;
  repeat rewrite Z.shiftr_div_pow2 in * by lia.

Lemma decode2 (s0 s1 : Z) :
  0xC2 <= s0 <= 0xDF -> 0x80 <= s1 <= 0xBF ->
  Z.lor (Z.shiftl (Z.land s0 utf8.mask2) 6) (Z.land s1 utf8.maskx)
  = (s0 - 0xC0) * 64 + (s1 - 0x80).
Proof.
  intros H0 H1. bits_to_arith.
  rewrite lor_concat with (k := 6); try lia.
  all: change (2 ^ 6) with 64; change (2 ^ 5) with 32; Z.div_mod_to_equations; lia.
Qed.

Lemma decode3 (s0 s1 s2 : Z) :
  0xE0 <= s0 <= 0xEF -> 0x80 <= s1 <= 0xBF -> 0x80 <= s2 <= 0xBF ->
  Z.lor (Z.lor (Z.shiftl (Z.land s0 utf8.mask3) 12) (Z.shiftl (Z.land s1 utf8.maskx) 6))
        (Z.land s2 utf8.maskx)
  = (s0 - 0xE0) * 4096 + (s1 - 0x80) * 64 + (s2 - 0x80).
Proof.
  intros H0 H1 H2. bits_to_arith.
  change (2 ^ 12) with 4096; change (2 ^ 6) with 64; change (2 ^ 4) with 16.
  rewrite (lor_concat (s0 mod 16 * 4096) _ 12); try lia.
  rewrite (lor_concat _ (s2 mod 64) 6); try lia.
  all: change (2 ^ 12) with 4096; change (2 ^ 6) with 64; Z.div_mod_to_equations; lia.
Qed.

Lemma decode4 (s0 s1 s2 s3 : Z) :
  0xF0 <= s0 <= 0xF4 -> 0x80 <= s1 <= 0xBF -> 0x80 <= s2 <= 0xBF -> 0x80 <= s3 <= 0xBF ->
  Z.lor (Z.lor (Z.lor (Z.shiftl (Z.land s0 utf8.mask4) 18) (Z.shiftl (Z.land s1 utf8.maskx) 12))
               (Z.shiftl (Z.land s2 utf8.maskx) 6))
        (Z.land s3 utf8.maskx)
  = (s0 - 0xF0) * 262144 + (s1 - 0x80) * 4096 + (s2 - 0x80) * 64 + (s3 - 0x80).
Proof.
  intros H0 H1 H2 H3. bits_to_arith.
  change (2 ^ 18) with 262144; change (2 ^ 12) with 4096; change (2 ^ 6) with 64;
    change (2 ^ 3) with 8.
  rewrite (lor_concat (s0 mod 8 * 262144) _ 18); try lia.
  rewrite (lor_concat _ (s2 mod 64 * 64) 12); try lia.
  rewrite (lor_concat _ (s3 mod 64) 6); try lia.
  all: change (2 ^ 18) with 262144; change (2 ^ 12) with 4096; change (2 ^ 6) with 64;
    Z.div_mod_to_equations; lia.
Qed.

Lemma leb_true (a b : Z) : a <= b -> (a <=? b) = true.
Proof. intro H. apply Z.leb_le. exact H. Qed.

Lemma leb_false (a b : Z) : b < a -> (a <=? b) = false.
Proof. intro H. apply Z.leb_gt. exact H. Qed.

Lemma ltb_true (a b : Z) : a < b -> (a <? b) = true.
Proof. intro H. apply Z.ltb_lt. exact H. Qed.

Lemma ltb_false (a b : Z) : b <= a -> (a <? b) = false.
Proof. intro H. apply Z.ltb_ge. exact H. Qed.

Ltac decide_tests :=
  repeat first
    [ rewrite leb_true by lia | rewrite leb_false by lia
    | rewrite ltb_true by lia | rewrite ltb_false by lia ];
  cbn [andb orb negb].

Lemma encode1 (r : Z) :
  0 <= r <= 0x7F -> utf8.EncodeRune r = String (chr r) EmptyString.
Proof.
  intro H. unfold utf8.EncodeRune, utf8.rune1Max. decide_tests. reflexivity.
Qed.

Lemma encode2 (r : Z) :
  0x80 <= r <= 0x7FF ->
  utf8.EncodeRune r =
    String (chr (0xC0 + r / 64)) (String (chr (0x80 + r mod 64)) EmptyString).
Proof.
  intro H. unfold utf8.EncodeRune, utf8.rune1Max, utf8.rune2Max. decide_tests.
  bits_to_arith. change (2 ^ 6) with 64.
  rewrite (lor_concat 0xC0 _ 6), (lor_concat 0x80 _ 6); try lia; try reflexivity.
  all: change (2 ^ 6) with 64; Z.div_mod_to_equations; lia.
Qed.

Lemma encode3 (r : Z) :
  0x800 <= r <= 0xFFFF -> (r < 0xD800 \/ 0xDFFF < r) ->
  utf8.EncodeRune r =
    String (chr (0xE0 + r / 4096))
      (String (chr (0x80 + (r / 64) mod 64)) (String (chr (0x80 + r mod 64)) EmptyString)).
Proof.
  intros H Hs.
  unfold utf8.EncodeRune, utf8.rune1Max, utf8.rune2Max, utf8.rune3Max, utf8.MaxRune,
    utf8.surrogateMin, utf8.surrogateMax, utf8.encode3.
  decide_tests.
  replace ((0xD800 <=? r) && (r <=? 0xDFFF)) with false
    by (symmetry; apply andb_false_iff; destruct Hs; [left; apply leb_false | right; apply leb_false]; lia).
  cbn [andb orb negb]. decide_tests.
  bits_to_arith. change (2 ^ 6) with 64. change (2 ^ 12) with 4096.
  rewrite (lor_concat 0xE0 _ 5), (lor_concat 0x80 ((r / 64) mod 64) 6),
    (lor_concat 0x80 (r mod 64) 6); try lia; try reflexivity.
  all: change (2 ^ 6) with 64; change (2 ^ 5) with 32; Z.div_mod_to_equations; lia.
Qed.

Lemma encode4 (r : Z) :
  0x10000 <= r <= 0x10FFFF ->
  utf8.EncodeRune r =
    String (chr (0xF0 + r / 262144))
      (String (chr (0x80 + (r / 4096) mod 64))
        (String (chr (0x80 + (r / 64) mod 64)) (String (chr (0x80 + r mod 64)) EmptyString))).
Proof.
  intros H.
  unfold utf8.EncodeRune, utf8.rune1Max, utf8.rune2Max, utf8.rune3Max, utf8.MaxRune,
    utf8.surrogateMin, utf8.surrogateMax, utf8.encode3.
  decide_tests.
  bits_to_arith. change (2 ^ 6) with 64. change (2 ^ 12) with 4096. change (2 ^ 18) with 262144.
  rewrite (lor_concat 0xF0 _ 4), (lor_concat 0x80 ((r / 4096) mod 64) 6),
    (lor_concat 0x80 ((r / 64) mod 64) 6), (lor_concat 0x80 (r mod 64) 6);
    try lia; try reflexivity.
  all: change (2 ^ 6) with 64; change (2 ^ 4) with 16; Z.div_mod_to_equations; lia.
Qed.

Ltac test_to_prop :=
  repeat match goal with
  | H : (_ <? _) = true |- _ => apply Z.ltb_lt in H
  | H : (_ <? _) = false |- _ => apply Z.ltb_ge in H
  | H : (_ <=? _) = true |- _ => apply Z.leb_le in H
  | H : (_ <=? _) = false |- _ => apply Z.leb_gt in H
  | H : (_ =? _) = true |- _ => apply Z.eqb_eq in H
  | H : (_ =? _) = false |- _ => apply Z.eqb_neq in H
  | H : _ || _ = false |- _ => apply orb_false_iff in H; destruct H
  | H : _ && _ = true |- _ => apply andb_true_iff in H; destruct H
  end.

Lemma first_spec (b : Z) :
  0 <= b < 256 ->
  match utf8.first b with
  | utf8.as_ => b < 0x80
  | utf8.xx => 0x80 <= b < 0xC2 \/ 0xF4 < b
  | utf8.lead sz lo hi =>
    (sz = 2%nat /\ 0xC2 <= b <= 0xDF /\ lo = 0x80 /\ hi = 0xBF)
    \/ (sz = 3%nat /\ 0xE0 <= b <= 0xEF /\ 0x80 <= lo /\ hi <= 0xBF
        /\ (b = 0xE0 -> lo = 0xA0) /\ (b = 0xED -> hi = 0x9F)
        /\ (b <> 0xE0 -> lo = 0x80) /\ (b <> 0xED -> hi = 0xBF))
    \/ (sz = 4%nat /\ 0xF0 <= b <= 0xF4 /\ 0x80 <= lo /\ hi <= 0xBF
        /\ (b = 0xF0 -> lo = 0x90) /\ (b = 0xF4 -> hi = 0x8F)
        /\ (b <> 0xF0 -> lo = 0x80) /\ (b <> 0xF4 -> hi = 0xBF))
  end.
Proof.
  intro Hb. unfold utf8.first, utf8.locb, utf8.hicb.
  repeat match goal with
  | |- context [if ?t then _ else _] => destruct t eqn:?
  end; test_to_prop; try lia.
  all: try (left; lia).
  all: try (right; left; repeat split; lia).
  all: try (right; right; repeat split; lia).
Qed.

Lemma decode_spec (b0 : ascii) (t0 : string) :
  (utf8.DecodeRuneInString (String b0 t0) = (utf8.RuneError, 1%nat))
  \/ validRune (String b0 t0) (fst (utf8.DecodeRuneInString (String b0 t0)))
               (snd (utf8.DecodeRuneInString (String b0 t0))).
Proof.
  unfold utf8.DecodeRuneInString.
  pose proof (first_spec (code b0) (code_range b0)) as Hf.
  destruct (utf8.first (code b0)) as [| | sz lo hi].
  - right. simpl. apply rune1. exact Hf.
  - left. reflexivity.
  - destruct t0 as [|b1 t1]; [left; reflexivity|].
    destruct ((code b1 <? lo) || (hi <? code b1)) eqn:H1; [left; reflexivity|].
    test_to_prop.
    destruct Hf as [[-> Hf] | [[-> Hf] | [-> Hf]]].
    + right. cbn [Nat.leb fst snd]. rewrite decode2 by lia. apply rune2; lia.
    + cbn [Nat.leb].
      destruct t1 as [|b2 t2]; [left; reflexivity|].
      unfold utf8.locb, utf8.hicb.
      destruct ((code b2 <? 0x80) || (0xBF <? code b2)) eqn:H2; [left; reflexivity|].
      test_to_prop.
      right. cbn [fst snd]. rewrite decode3 by lia.
      destruct Hf as (? & ? & ? & ? & ? & ? & ?).
      apply rune3; try lia.
    + cbn [Nat.leb].
      destruct t1 as [|b2 t2]; [left; reflexivity|].
      unfold utf8.locb, utf8.hicb.
      destruct ((code b2 <? 0x80) || (0xBF <? code b2)) eqn:H2; [left; reflexivity|].
      destruct t2 as [|b3 t3]; [left; reflexivity|].
      destruct ((code b3 <? 0x80) || (0xBF <? code b3)) eqn:H3; [left; reflexivity|].
      test_to_prop.
      right. cbn [fst snd]. rewrite decode4 by lia.
      destruct Hf as (? & ? & ? & ? & ? & ? & ?).
      apply rune4; try lia.
Qed.

Lemma validRune_decode (s : string) (c : Z) (size : nat) :
  validRune s c size -> utf8.DecodeRuneInString s = (c, size).
Proof.
  intro H. destruct H; unfold utf8.DecodeRuneInString.
  - pose proof (code_range b0).
    unfold utf8.first. rewrite ltb_true by lia. reflexivity.
  - pose proof (first_spec (code b0) (code_range b0)) as Hf.
    destruct (utf8.first (code b0)) as [| | sz lo hi]; try lia.
    destruct Hf as [Hf | [Hf | Hf]]; try lia.
    destruct Hf as (-> & _ & -> & ->).
    rewrite !ltb_false by lia. cbn [orb Nat.leb]. rewrite decode2 by lia. reflexivity.
  - pose proof (first_spec (code b0) (code_range b0)) as Hf.
    destruct (utf8.first (code b0)) as [| | sz lo hi]; try lia.
    destruct Hf as [Hf | [Hf | Hf]]; try lia.
    destruct Hf as (-> & ? & ? & ? & ? & ? & ? & ?).
    unfold utf8.locb, utf8.hicb.
    assert ((code b1 <? lo) = false) as ->.
    { apply ltb_false. destruct (Z.eq_dec (code b0) 0xE0); lia. }
    assert ((hi <? code b1) = false) as ->.
    { apply ltb_false. destruct (Z.eq_dec (code b0) 0xED); lia. }
    rewrite !ltb_false by lia. cbn [orb Nat.leb]. rewrite decode3 by lia. reflexivity.
  - pose proof (first_spec (code b0) (code_range b0)) as Hf.
    destruct (utf8.first (code b0)) as [| | sz lo hi]; try lia.
    destruct Hf as [Hf | [Hf | Hf]]; try lia.
    destruct Hf as (-> & ? & ? & ? & ? & ? & ? & ?).
    unfold utf8.locb, utf8.hicb.
    assert ((code b1 <? lo) = false) as ->.
    { apply ltb_false. destruct (Z.eq_dec (code b0) 0xF0); lia. }
    assert ((hi <? code b1) = false) as ->.
    { apply ltb_false. destruct (Z.eq_dec (code b0) 0xF4); lia. }
    rewrite !ltb_false by lia. cbn [orb Nat.leb]. rewrite decode4 by lia. reflexivity.
Qed.

Lemma validRune_encode (s : string) (c : Z) (size : nat) :
  validRune s c size -> utf8.EncodeRune c = strconv.take size s.
Proof.
  intro H. destruct H; cbn [strconv.take].
  - pose proof (code_range b0). rewrite encode1 by lia. rewrite chr_code. reflexivity.
  - rewrite encode2 by lia.
    replace (0xC0 + ((code b0 - 0xC0) * 64 + (code b1 - 0x80)) / 64) with (code b0)
      by (Z.div_mod_to_equations; lia).
    replace (0x80 + ((code b0 - 0xC0) * 64 + (code b1 - 0x80)) mod 64) with (code b1)
      by (Z.div_mod_to_equations; lia).
    rewrite !chr_code. reflexivity.
  - rewrite encode3.
    + set (r := (code b0 - 0xE0) * 4096 + (code b1 - 0x80) * 64 + (code b2 - 0x80)).
      replace (0xE0 + r / 4096) with (code b0) by (subst r; Z.div_mod_to_equations; lia).
      replace (0x80 + (r / 64) mod 64) with (code b1) by (subst r; Z.div_mod_to_equations; lia).
      replace (0x80 + r mod 64) with (code b2) by (subst r; Z.div_mod_to_equations; lia).
      rewrite !chr_code. reflexivity.
    + destruct (Z.eq_dec (code b0) 0xE0); lia.
    + destruct (Z.eq_dec (code b0) 0xED); lia.
  - rewrite encode4.
    + set (r := (code b0 - 0xF0) * 262144 + (code b1 - 0x80) * 4096 + (code b2 - 0x80) * 64
                + (code b3 - 0x80)).
      replace (0xF0 + r / 262144) with (code b0) by (subst r; Z.div_mod_to_equations; lia).
      replace (0x80 + (r / 4096) mod 64) with (code b1) by (subst r; Z.div_mod_to_equations; lia).
      replace (0x80 + (r / 64) mod 64) with (code b2) by (subst r; Z.div_mod_to_equations; lia).
      replace (0x80 + r mod 64) with (code b3) by (subst r; Z.div_mod_to_equations; lia).
      rewrite !chr_code. reflexivity.
    + destruct (Z.eq_dec (code b0) 0xF0); destruct (Z.eq_dec (code b0) 0xF4); lia.
Qed.

Lemma validRune_prefix (s : string) (c : Z) (size : nat) (x : string) :
  validRune s c size -> validRune (strconv.take size s ++ x) c size.
Proof.
  intro H. destruct H; cbn [strconv.take append]; constructor; assumption.
Qed.

Lemma validRune_drop (s : string) (c : Z) (size : nat) (x : string) :
  validRune s c size -> drop size (strconv.take size s ++ x) = x.
Proof. intro H. destruct H; reflexivity. Qed.

Lemma validRune_split (s : string) (c : Z) (size : nat) :
  validRune s c size -> (strconv.take size s ++ drop size s)%string = s.
Proof. intro H. destruct H; reflexivity. Qed.

Lemma validRune_length (s : string) (c : Z) (size : nat) :
  validRune s c size ->
  (1 <= size)%nat /\ String.length (strconv.take size s) = size
  /\ (String.length (drop size s) + size = String.length s)%nat.
Proof. intro H. destruct H; cbn; lia. Qed.

(** The bytes of an encoding that is longer than one byte are all past
    ASCII. *)
Lemma validRune_high (s : string) (c : Z) (size : nat) :
  validRune s c size -> size <> 1%nat ->
  http.allBytes (fun b => 0x80 <=? code b) (strconv.take size s) = true.
Proof.
  intros H Hs. destruct H; cbn [strconv.take http.allBytes]; try congruence.
  all: rewrite !leb_true by lia; reflexivity.
Qed.

Lemma validRune_ascii (b : ascii) (t : string) (c : Z) (size : nat) :
  validRune (String b t) c size -> 0x80 <= code b -> size <> 1%nat.
Proof. intros H Hb. inversion H; subst; lia. Qed.

Lemma eqb_false_code (a b : ascii) : code a <> code b -> Ascii.eqb a b = false.
Proof.
  intro H. apply Ascii.eqb_neq. intro E. apply H. rewrite E. reflexivity.
Qed.

(** *** Unquoting what [appendString] wrote *)

Lemma htmlSafe_plain (b : ascii) :
  json.htmlSafe b = true ->
  Ascii.eqb b "\"%char = false /\ Ascii.eqb b dquote = false /\ 32 <= code b < 128.
Proof.
  unfold json.htmlSafe. intro H.
  repeat (apply andb_true_iff in H; destruct H as [H ?]).
  repeat match goal with
  | H : negb _ = true |- _ => apply negb_true_iff in H
  end.
  test_to_prop. repeat split; try assumption; lia.
Qed.

Lemma unquote_plain (fuel : nat) (c : ascii) (t : string) :
  Ascii.eqb c "\"%char = false -> Ascii.eqb c dquote = false -> 32 <= code c < 128 ->
  json.unquoteLoop (S fuel) (String c t) =
    json.prepend (String c EmptyString) (json.unquoteLoop fuel t).
Proof.
  intros H1 H2 H3. cbn [json.unquoteLoop]. rewrite H1, H2. cbn [orb].
  unfold utf8.RuneSelf. rewrite ltb_false, ltb_true by lia. reflexivity.
Qed.

Lemma unquote_high (fuel : nat) (c : ascii) (t : string) :
  0x80 <= code c ->
  json.unquoteLoop (S fuel) (String c t) =
    json.prepend (utf8.EncodeRune (fst (utf8.DecodeRuneInString (String c t))))
      (json.unquoteLoop fuel (drop (snd (utf8.DecodeRuneInString (String c t))) (String c t))).
Proof.
  intros H. cbn [json.unquoteLoop].
  rewrite (eqb_false_code c "\"%char), (eqb_false_code c dquote)
    by (vm_compute (code "\"%char); vm_compute (code dquote); lia).
  cbn [orb]. unfold utf8.RuneSelf. rewrite !ltb_false by lia.
  destruct (utf8.DecodeRuneInString (String c t)). reflexivity.
Qed.

Lemma unquote_escapeByte (b : ascii) (fuel : nat) (x : string) :
  code b < 128 -> json.htmlSafe b = false ->
  json.unquoteLoop (S fuel) (json.escapeByte b ++ x) =
    json.prepend (String b EmptyString) (json.unquoteLoop fuel x).
Proof.
  intros Hc Hs.
  destruct b as [[] [] [] [] [] [] [] []];
    try (exfalso; vm_compute in Hs; discriminate Hs);
    try (exfalso; vm_compute in Hc; discriminate Hc);
    reflexivity.
Qed.

Lemma escapeByte_length (b : ascii) : (1 <= String.length (json.escapeByte b))%nat.
Proof.
  unfold json.escapeByte.
  repeat match goal with
  | |- context [if ?t then _ else _] => destruct t
  end; cbn; lia.
Qed.

Lemma unquote_replacement (fuel : nat) (x : string) :
  json.unquoteLoop (S fuel) ("\ufffd" ++ x) =
    json.prepend (utf8.EncodeRune utf8.RuneError) (json.unquoteLoop fuel x).
Proof. reflexivity. Qed.

Lemma unquote_separator (fuel : nat) (c : Z) (x : string) :
  c = 0x2028 \/ c = 0x2029 ->
  json.unquoteLoop (S fuel) ("\u202" ++ String (json.hex (Z.land c 0xF)) x) =
    json.prepend (utf8.EncodeRune c) (json.unquoteLoop fuel x).
Proof. intros [-> | ->]; reflexivity. Qed.

Lemma unquote_escaped (n : nat) :
  forall (s : string) (fuel : nat),
    (String.length s <= n)%nat ->
    (String.length (json.appendStringLoop n s) <= fuel)%nat ->
    json.unquoteLoop fuel (json.appendStringLoop n s) = Some (coerceLoop n s).
Proof.
  induction n as [|n IH]; intros s fuel Hn Hfuel.
  - destruct s; [|cbn in Hn; lia]. destruct fuel; reflexivity.
  - destruct s as [|b t]; [destruct fuel; reflexivity|].
    cbn [String.length] in Hn.
    cbn [json.appendStringLoop coerceLoop] in *.
    unfold utf8.RuneSelf in *.
    destruct (code b <? 0x80) eqn:Hb; test_to_prop.
    + (* an ASCII byte *)
      assert (Hd : utf8.DecodeRuneInString (String b t) = (code b, 1%nat)).
      { apply validRune_decode. apply rune1. lia. }
      rewrite Hd. pose proof (code_range b).
      replace (code b =? utf8.RuneError) with false
        by (symmetry; apply Z.eqb_neq; unfold utf8.RuneError; lia).
      cbn [andb strconv.take drop append].
      destruct (json.htmlSafe b) eqn:Hsafe.
      * destruct (htmlSafe_plain b Hsafe) as (H1 & H2 & H3).
        cbn [String.length] in Hfuel.
        destruct fuel as [|fuel]; [lia|].
        rewrite unquote_plain by assumption.
        rewrite IH by lia. reflexivity.
      * pose proof (escapeByte_length b).
        rewrite append_length in Hfuel.
        destruct fuel as [|fuel]; [lia|].
        rewrite unquote_escapeByte by (assumption || lia).
        rewrite IH by lia. reflexivity.
    + (* a byte past ASCII *)
      destruct (decode_spec b t) as [Hbad | Hok].
      * rewrite Hbad in *. cbn [drop] in *.
        replace ((utf8.RuneError =? utf8.RuneError) && (1 =? 1)%nat) with true in * by reflexivity.
        rewrite append_length in Hfuel. cbn [String.length] in Hfuel.
        destruct fuel as [|fuel]; [lia|].
        rewrite (unquote_replacement fuel).
        rewrite IH by lia. reflexivity.
      * pose proof (validRune_ascii _ _ _ _ Hok Hb) as Hsize.
        pose proof (validRune_length _ _ _ Hok) as (Hs1 & Hs2 & Hs3).
        pose proof (validRune_encode _ _ _ Hok) as Henc.
        destruct (utf8.DecodeRuneInString (String b t)) as [c size] eqn:Hd.
        cbn [fst snd] in *.
        replace (size =? 1)%nat with false in * by (symmetry; apply Nat.eqb_neq; exact Hsize).
        rewrite andb_false_r in *.
        assert (Hdrop : (String.length (drop size (String b t)) <= n)%nat)
          by (cbn [String.length] in Hs3; lia).
        destruct ((c =? 0x2028) || (c =? 0x2029)) eqn:Hsep.
        -- rewrite append_length in Hfuel. cbn [String.length] in Hfuel.
           destruct fuel as [|fuel]; [lia|].
           apply orb_true_iff in Hsep.
           rewrite unquote_separator
             by (destruct Hsep as [Hsep | Hsep]; apply Z.eqb_eq in Hsep; auto).
           rewrite IH by lia. rewrite Henc. reflexivity.
        -- rewrite append_length, Hs2 in Hfuel.
           destruct fuel as [|fuel]; [lia|].
           assert (Hq : (strconv.take size (String b t) ++ json.appendStringLoop n (drop size (String b t)))%string
                        = String b (drop 1 (strconv.take size (String b t)
                                            ++ json.appendStringLoop n (drop size (String b t))))).
           { destruct size; [lia|]. reflexivity. }
           rewrite Hq. rewrite unquote_high by lia. rewrite <- Hq.
           rewrite (validRune_decode _ _ _ (validRune_prefix _ _ _ _ Hok)).
           cbn [fst snd]. rewrite (validRune_drop _ _ _ _ Hok).
           rewrite IH by lia. rewrite Henc. reflexivity.
Qed.

Lemma coerce_valid_fuel (n : nat) :
  forall s : string,
    (String.length s <= n)%nat -> utf8.valid_fuel n s = true -> coerceLoop n s = s.
Proof.
  induction n as [|n IH]; intros s Hn Hv.
  - destruct s; [reflexivity | cbn in Hn; lia].
  - destruct s as [|b t]; [reflexivity|].
    cbn [utf8.valid_fuel coerceLoop] in *.
    destruct (decode_spec b t) as [Hbad | Hok].
    + rewrite Hbad in Hv. rewrite Z.eqb_refl in Hv. discriminate Hv.
    + pose proof (validRune_length _ _ _ Hok) as (Hs1 & Hs2 & Hs3).
      pose proof (validRune_split _ _ _ Hok) as Hsplit.
      destruct (utf8.DecodeRuneInString (String b t)) as [c size] eqn:Hd.
      cbn [fst snd] in *. cbn [String.length] in *.
      assert (Hrest : utf8.valid_fuel n (drop size (String b t)) = true).
      { destruct size as [|[|size]]; [lia| |exact Hv].
        destruct (c =? utf8.RuneError); [discriminate Hv | exact Hv]. }
      assert (Hgood : (c =? utf8.RuneError) && (size =? 1)%nat = false).
      { destruct size as [|[|size]]; [lia| |apply andb_false_r].
        destruct (c =? utf8.RuneError); [discriminate Hv | reflexivity]. }
      rewrite Hgood. rewrite IH by (assumption || lia). exact Hsplit.
Qed.

(** A string that is valid UTF-8 is decoded as it is. *)
Lemma coerce_valid (s : string) : utf8.ValidString s = true -> coerce s = s.
Proof. intro H. apply coerce_valid_fuel; [lia | exact H]. Qed.

(** What [appendString] wrote is unquoted to the string it was given,
    coerced to valid UTF-8. *)
Lemma unquote_appendString (s : string) :
  json.unquote (json.appendStringLoop (String.length s) s) = Some (coerce s).
Proof. unfold json.unquote, coerce. apply unquote_escaped; lia. Qed.

(** *** Scanning what [appendString] wrote *)

Lemma scanBytes_app (st : json.scan) (a b : string) :
  json.scanBytes st (a ++ b) = json.scanBytes (json.scanBytes st a) b.
Proof.
  revert st. induction a as [|c a IH]; intro st; cbn; [reflexivity | apply IH].
Qed.

Lemma scan_plain (ps : list json.parseFrame) (itm : string) (lst : option json.Value) (c : ascii) :
  Ascii.eqb c dquote = false -> Ascii.eqb c "\"%char = false -> 32 <= code c ->
  json.stepByte (inString ps itm lst) c = inString ps (itm ++ String c EmptyString) lst.
Proof.
  intros H1 H2 H3. unfold inString. cbn [json.stepByte json.step json.apply].
  unfold json.stateInString. rewrite H1, H2. rewrite ltb_false by lia. reflexivity.
Qed.

Lemma scan_high (chunk : string) :
  forall (ps : list json.parseFrame) (itm : string) (lst : option json.Value),
    http.allBytes (fun b => 0x80 <=? code b) chunk = true ->
    json.scanBytes (inString ps itm lst) chunk = inString ps (itm ++ chunk) lst.
Proof.
  induction chunk as [|c chunk IH]; intros ps itm lst H.
  - cbn. rewrite append_empty. reflexivity.
  - cbn [http.allBytes] in H. apply andb_true_iff in H. destruct H as [Hc H].
    apply Z.leb_le in Hc.
    cbn [json.scanBytes]. rewrite scan_plain.
    + rewrite IH by exact H. rewrite append_assoc. reflexivity.
    + apply eqb_false_code. vm_compute (code dquote). lia.
    + apply eqb_false_code. vm_compute (code "\"%char). lia.
    + lia.
Qed.

Lemma scan_escapeByte (b : ascii) (ps : list json.parseFrame) (itm : string) (lst : option json.Value) :
  code b < 128 -> json.htmlSafe b = false ->
  json.scanBytes (inString ps itm lst) (json.escapeByte b)
  = inString ps (itm ++ json.escapeByte b) lst.
Proof.
  intros Hc Hs.
  destruct b as [[] [] [] [] [] [] [] []];
    try (exfalso; vm_compute in Hs; discriminate Hs);
    try (exfalso; vm_compute in Hc; discriminate Hc);
    cbn; unfold json.more, snoc; cbn; rewrite ?append_assoc; reflexivity.
Qed.

Lemma scan_replacement (ps : list json.parseFrame) (itm : string) (lst : option json.Value) :
  json.scanBytes (inString ps itm lst) "\ufffd" = inString ps (itm ++ "\ufffd") lst.
Proof.
  cbn. unfold json.more, snoc; cbn. rewrite ?append_assoc. reflexivity.
Qed.

Lemma scan_separator (ps : list json.parseFrame) (itm : string) (lst : option json.Value) (c : Z) :
  c = 0x2028 \/ c = 0x2029 ->
  json.scanBytes (inString ps itm lst) ("\u202" ++ String (json.hex (Z.land c 0xF)) EmptyString)
  = inString ps (itm ++ "\u202" ++ String (json.hex (Z.land c 0xF)) EmptyString) lst.
Proof.
  intros [-> | ->]; cbn; unfold json.more, snoc; cbn; rewrite ?append_assoc; reflexivity.
Qed.

(** The scanner reads the text of a string written by [appendString]
    byte by byte into [item] and stays inside the string. *)
Lemma scan_escaped (n : nat) :
  forall (s : string) (ps : list json.parseFrame) (itm : string) (lst : option json.Value),
    json.scanBytes (inString ps itm lst) (json.appendStringLoop n s)
    = inString ps (itm ++ json.appendStringLoop n s) lst.
Proof.
  induction n as [|n IH]; intros s ps itm lst.
  - cbn. rewrite append_empty. reflexivity.
  - destruct s as [|b t]; [cbn; rewrite append_empty; reflexivity|].
    cbn [json.appendStringLoop]. unfold utf8.RuneSelf.
    destruct (code b <? 0x80) eqn:Hb; test_to_prop.
    + destruct (json.htmlSafe b) eqn:Hsafe.
      * destruct (htmlSafe_plain b Hsafe) as (H1 & H2 & H3).
        cbn [json.scanBytes]. rewrite scan_plain by (assumption || lia).
        rewrite IH, append_assoc. reflexivity.
      * rewrite scanBytes_app, scan_escapeByte by (assumption || lia).
        rewrite IH, append_assoc. reflexivity.
    + destruct (decode_spec b t) as [Hbad | Hok].
      * rewrite Hbad.
        replace ((utf8.RuneError =? utf8.RuneError) && (1 =? 1)%nat) with true by reflexivity.
        rewrite scanBytes_app, scan_replacement, IH, append_assoc. reflexivity.
      * pose proof (validRune_ascii _ _ _ _ Hok Hb) as Hsize.
        pose proof (validRune_high _ _ _ Hok Hsize) as Hhigh.
        destruct (utf8.DecodeRuneInString (String b t)) as [c size] eqn:Hd.
        cbn [fst snd] in *.
        replace (size =? 1)%nat with false by (symmetry; apply Nat.eqb_neq; exact Hsize).
        rewrite andb_false_r.
        destruct ((c =? 0x2028) || (c =? 0x2029)) eqn:Hsep.
        -- apply orb_true_iff in Hsep.
           assert (Hc : c = 0x2028 \/ c = 0x2029)
             by (destruct Hsep as [Hsep | Hsep]; apply Z.eqb_eq in Hsep; auto).
           change ("\u202" ++ String (json.hex (Z.land c 0xF))
                               (json.appendStringLoop n (drop size (String b t))))%string
             with (("\u202" ++ String (json.hex (Z.land c 0xF)) EmptyString)
                     ++ json.appendStringLoop n (drop size (String b t)))%string.
           rewrite scanBytes_app, scan_separator, IH, append_assoc by exact Hc. reflexivity.
        -- rewrite scanBytes_app, scan_high, IH, append_assoc by exact Hhigh. reflexivity.
Qed.

(** A string value: from the state that begins a value, the scanner
    reads the literal [appendString s] as the string [coerce s]. *)
Lemma scan_appendString (s : string) (ps : list json.parseFrame) (lst : option json.Value)
  (rest : string) :
  json.scanBytes (json.scanContinue (json.mkScanner json.BeginValue ps EmptyString lst))
                 (json.appendString s ++ rest)
  = json.scanBytes
      (json.scanContinue (json.mkScanner json.EndValue ps EmptyString (Some (json.Str (coerce s)))))
      rest.
Proof.
  unfold json.appendString.
  cbn [append json.scanBytes].
  change (json.stepByte _ dquote) with (inString ps EmptyString lst).
  rewrite append_assoc, scanBytes_app, scan_escaped.
  cbn [append json.scanBytes]. unfold inString.
  cbn [json.stepByte json.step json.apply]. unfold json.stateInString.
  change (Ascii.eqb dquote dquote) with true. cbv iota.
  cbn [json.item]. rewrite unquote_appendString. reflexivity.
Qed.


(** The scanner over a closed chunk of text, by evaluation. *)
Ltac scan_chunk :=
  match goal with
  | |- context [json.scanBytes ?st (?chunk ++ ?rest)] =>
    rewrite (scanBytes_app st chunk rest);
    let r := eval vm_compute in (json.scanBytes st chunk) in
    replace (json.scanBytes st chunk) with r by (vm_compute; reflexivity)
  end.

Lemma scan_requestText (v : variant) (prompt model : string) :
  json.scanBytes json.reset (requestText v prompt model)
  = json.scanEnd (requestJSON v (coerce prompt) (coerce model)).
Proof.
  unfold requestText, requestJSON.
  remember (coerce prompt) as cp eqn:Hcp. remember (coerce model) as cm eqn:Hcm.
  destruct v.
  all: scan_chunk; rewrite scan_appendString, <- Hcp;
    scan_chunk; rewrite scan_appendString, <- Hcm;
    repeat scan_chunk; vm_compute; reflexivity.
Qed.

(** The payload of every request, read back as JSON. *)
Lemma readValue_requestText (v : variant) (prompt model : string) :
  json.readValue (requestText v prompt model) None
  = inl (requestJSON v (coerce prompt) (coerce model)).
Proof.
  unfold json.readValue. rewrite scan_requestText. reflexivity.
Qed.

(** ** The payload, as its receiver reads it *)

(** The members of the payload of every request [generateText] sends:
    the prompt and the model, each coerced to valid UTF-8, and the fixed
    parameters. *)
Lemma payload_members (v : variant) (key prompt model : string) :
  let body := http.Body (requestOf v key prompt model) in
  payloadField "prompt" body = Some (json.Str (coerce prompt))
  /\ payloadField "model" body
     = Some (json.Str (coerce (if String.eqb model "" then "text-davinci-003" else model)))
  /\ payloadField "temperature" body = Some (json.Number "0.8")
  /\ payloadField "max_tokens" body = Some (json.Number "2000").
Proof.
  cbv zeta. unfold requestOf. cbn [http.Body]. unfold payloadField.
  rewrite readValue_requestText.
  destruct v; repeat split; reflexivity.
Qed.

(** C6: with the credential there, the payload of the request that is
    sent carries [temperature] 0.8 and [max_tokens] 2000, whatever the
    prompt and the model are. *)
Theorem payload_carries_fixed_parameters
  (v : variant) (prompt model : string) (w : World) :
  credential w <> "" ->
  exists req : http.Request,
    sent (trace (snd (generateText v prompt model w))) = (sent (trace w) ++ [req])%list
    /\ payloadField "temperature" (http.Body req) = Some (json.Number "0.8")
    /\ payloadField "max_tokens" (http.Body req) = Some (json.Number "2000").
Proof.
  intro Hkey. exists (requestOf v (credential w) prompt model).
  split; [apply sent_generateText; exact Hkey|].
  destruct (payload_members v (credential w) prompt model) as (_ & _ & Ht & Hm).
  split; assumption.
Qed.

Lemma payload_carries_fixed_parameters_witness :
  exists req : http.Request,
    sent (trace (snd (generateText main_go "Say hi" "gpt-x"
                        (mock "sk-test" (inr (net_Error "connection refused")))))) = [req]
    /\ payloadField "temperature" (http.Body req) = Some (json.Number "0.8")
    /\ payloadField "max_tokens" (http.Body req) = Some (json.Number "2000").
Proof.
  apply (payload_carries_fixed_parameters main_go "Say hi" "gpt-x"
           (mock "sk-test" (inr (net_Error "connection refused")))).
  discriminate.
Defined.

(** C5, as it holds: in the payload of the request that is sent, the
    member [model] is the default model when the model given is empty and
    the model given when that is a non-empty string of valid UTF-8, and
    the member [prompt] is the prompt given when that is valid UTF-8. *)
Theorem payload_model_and_prompt
  (v : variant) (prompt model : string) (w : World) :
  credential w <> "" ->
  exists req : http.Request,
    sent (trace (snd (generateText v prompt model w))) = (sent (trace w) ++ [req])%list
    /\ (model = "" ->
        payloadField "model" (http.Body req) = Some (json.Str "text-davinci-003"))
    /\ (model <> "" -> utf8.ValidString model = true ->
        payloadField "model" (http.Body req) = Some (json.Str model))
    /\ (utf8.ValidString prompt = true ->
        payloadField "prompt" (http.Body req) = Some (json.Str prompt)).
Proof.
  intro Hkey. exists (requestOf v (credential w) prompt model).
  split; [apply sent_generateText; exact Hkey|].
  destruct (payload_members v (credential w) prompt model) as (Hp & Hm & _ & _).
  split; [|split].
  - intros ->. rewrite Hm. reflexivity.
  - intros Hne Hvalid. rewrite Hm.
    apply String.eqb_neq in Hne. rewrite Hne, (coerce_valid model Hvalid). reflexivity.
  - intro Hvalid. rewrite Hp, (coerce_valid prompt Hvalid). reflexivity.
Qed.

Lemma payload_model_and_prompt_witness :
  exists req : http.Request,
    sent (trace (snd (generateText main_go "Say hi" "gpt-x"
                        (mock "sk-test" (inr (net_Error "connection refused")))))) = [req]
    /\ payloadField "model" (http.Body req) = Some (json.Str "gpt-x")
    /\ payloadField "prompt" (http.Body req) = Some (json.Str "Say hi").
Proof.
  destruct (payload_model_and_prompt main_go "Say hi" "gpt-x"
              (mock "sk-test" (inr (net_Error "connection refused"))))
    as [req [Hsent [_ [Hmodel Hprompt]]]].
  - discriminate.
  - exists req. split; [exact Hsent|]. split.
    + apply Hmodel; [discriminate | reflexivity].
    + apply Hprompt. reflexivity.
Defined.

(** C5, as it is stated, fails on a string that is no valid UTF-8: the
    byte 0xFF, given as the prompt and as the model, is sent as U+FFFD. *)
Lemma invalid_utf8_is_not_sent_as_given :
  sent (trace (snd (generateText main_go (String (chr 255) "") (String (chr 255) "")
                      (mock "sk-test" (inr (net_Error "connection refused"))))))
  = [requestOf main_go "sk-test" (String (chr 255) "") (String (chr 255) "")]
  /\ payloadField "model"
       (http.Body (requestOf main_go "sk-test" (String (chr 255) "") (String (chr 255) "")))
     = Some (json.Str (utf8.EncodeRune 0xFFFD))
  /\ payloadField "prompt"
       (http.Body (requestOf main_go "sk-test" (String (chr 255) "") (String (chr 255) "")))
     = Some (json.Str (utf8.EncodeRune 0xFFFD))
  /\ utf8.EncodeRune 0xFFFD <> String (chr 255) "".
Proof.
  split; [reflexivity|]. split; [vm_compute; reflexivity|].
  split; [vm_compute; reflexivity|]. vm_compute. discriminate.
Defined.

(** * Further properties of [generateText] *)

(** ** Where an error can come from *)

(** X1: with the credential there, an error that [generateText] returns
    is the error of the transport, the error that carries a status other
    than 200, or the error of the decoder on a response of status 200.
    Serializing the payload and building the request never fail. *)
Theorem errors_come_from_the_network_the_status_or_the_decoder
  (v : variant) (prompt model : string) (w : World) (text : string) (err : error) :
  credential w <> "" ->
  fst (generateText v prompt model w) = Returns (text, Some err) ->
  answer w v prompt model = inr err
  \/ exists resp : http.Response,
       answer w v prompt model = inl resp
       /\ ((http.StatusCode resp <> http.StatusOK
            /\ err = fmt.Errorf "received non-200 status code: %d" [fmt.D (http.StatusCode resp)])
           \/ (http.StatusCode resp = http.StatusOK
               /\ exists partial : reflect.Value,
                    json.Decode (http.RespBody resp) (http.RespErr resp)
                      (CompletionResponse v) (reflect.Zero (CompletionResponse v))
                    = (partial, Some err))).
Proof.
  intros Hkey. rewrite (generateText_with_credential v _ _ w Hkey). cbv zeta.
  destruct (answer w v prompt model) as [resp|e].
  - intro H. right. exists resp. split; [reflexivity|].
    unfold afterResponse in H.
    destruct (http.StatusCode resp =? http.StatusOK) eqn:Hcode.
    + right. apply Z.eqb_eq in Hcode. split; [exact Hcode|].
      simpl negb in H. cbv iota in H.
      destruct (json.Decode _ _ _ _) as [cr [e|]].
      * exists cr. simpl in H. inversion H. reflexivity.
      * cbv zeta in H. destruct (0 <? reflect.Len (field cr "Choices"))%nat;
          simpl in H; inversion H.
    + left. apply Z.eqb_neq in Hcode. split; [exact Hcode|].
      simpl in H. inversion H. rewrite Errorf_status. reflexivity.
  - simpl. intro H. inversion H. left. reflexivity.
Qed.

Lemma errors_come_from_the_network_the_status_or_the_decoder_witness :
  answer (mock "sk-test" (inr (net_Error "connection refused"))) main_go "prompt" ""
    = inr (net_Error "connection refused")
  \/ exists resp : http.Response,
       answer (mock "sk-test" (inr (net_Error "connection refused"))) main_go "prompt" ""
         = inl resp
       /\ ((http.StatusCode resp <> http.StatusOK
            /\ net_Error "connection refused"
               = fmt.Errorf "received non-200 status code: %d" [fmt.D (http.StatusCode resp)])
           \/ (http.StatusCode resp = http.StatusOK
               /\ exists partial : reflect.Value,
                    json.Decode (http.RespBody resp) (http.RespErr resp)
                      (CompletionResponse main_go) (reflect.Zero (CompletionResponse main_go))
                    = (partial, Some (net_Error "connection refused")))).
Proof.
  apply (errors_come_from_the_network_the_status_or_the_decoder main_go "prompt" ""
           (mock "sk-test" (inr (net_Error "connection refused"))) ""
           (net_Error "connection refused")).
  - discriminate.
  - reflexivity.
Defined.

(** ** The body of the response is closed *)

Lemma closed_app (a b : list Event) : closed (a ++ b) = (closed a + closed b)%nat.
Proof.
  induction a as [|e a IH]; simpl; [reflexivity|].
  destruct e; simpl; rewrite IH; reflexivity.
Qed.

(** X2: with the credential there, whenever the transport hands over a
    response its body is closed exactly once, as the last thing
    [generateText] does: after a status other than 200, after a decoding
    error, after a success and also when the index expression panics.
    When the transport fails there is no body and nothing is closed. *)
Theorem response_body_is_closed_once
  (v : variant) (prompt model : string) (w : World) :
  credential w <> "" ->
  (forall resp : http.Response,
     answer w v prompt model = inl resp ->
     exists before : list Event,
       trace (snd (generateText v prompt model w)) = (before ++ [EvClose])%list
       /\ closed before = closed (trace w))
  /\ (forall err : error,
        answer w v prompt model = inr err ->
        closed (trace (snd (generateText v prompt model w))) = closed (trace w)).
Proof.
  intros Hkey. rewrite (generateText_with_credential v _ _ w Hkey). cbv zeta. split.
  - intros resp ->. unfold afterResponse.
    destruct (negb (http.StatusCode resp =? http.StatusOK)).
    + eexists. split; [reflexivity|]. simpl. rewrite !closed_app. simpl. lia.
    + destruct (json.Decode _ _ _ _) as [cr [e|]]; cbv zeta;
        [| destruct (0 <? reflect.Len (field cr "Choices"))%nat];
        (eexists; split; [reflexivity|]; simpl; rewrite !closed_app; simpl; lia).
  - intros err ->. simpl. rewrite !closed_app. simpl. lia.
Qed.

Lemma response_body_is_closed_once_witness :
  exists before : list Event,
    trace (snd (generateText main_go "prompt" ""
                  (mock "sk-test" (inl (http.mkResponse 200 (q "{'choices':[]}") None)))))
    = (before ++ [EvClose])%list
    /\ closed before = O.
Proof.
  apply (proj1 (response_body_is_closed_once main_go "prompt" ""
                  (mock "sk-test" (inl (http.mkResponse 200 (q "{'choices':[]}") None)))
                  ltac:(discriminate))
               (http.mkResponse 200 (q "{'choices':[]}") None)).
  reflexivity.
Defined.

(** ** The payload, byte by byte *)

(** X3: with the credential there, the payload of the request that is
    sent is a JSON object that reads back as exactly the members of
    [requestJSON], in their order: the prompt and the model, each coerced
    to valid UTF-8, [temperature] 0.8 and [max_tokens] 2000, and in
    [main.go] the thirteen fields the program leaves unset, each with the
    zero value of its type. *)
Theorem payload_reads_back_member_by_member
  (v : variant) (prompt model : string) (w : World) :
  credential w <> "" ->
  exists req : http.Request,
    sent (trace (snd (generateText v prompt model w))) = (sent (trace w) ++ [req])%list
    /\ json.readValue (http.Body req) None
       = inl (requestJSON v (coerce prompt)
                (coerce (if String.eqb model "" then "text-davinci-003" else model))).
Proof.
  intro Hkey. exists (requestOf v (credential w) prompt model).
  split; [apply sent_generateText; exact Hkey|].
  unfold requestOf. cbn [http.Body]. apply readValue_requestText.
Qed.

Lemma payload_reads_back_member_by_member_witness :
  exists req : http.Request,
    sent (trace (snd (generateText part_000_second "Say 'hi'" ""
                        (mock "sk-test" (inr (net_Error "connection refused"))))))
    = [req]
    /\ json.readValue (http.Body req) None
       = inl (json.Object
                [ ("prompt", json.Str "Say 'hi'"); ("model", json.Str "text-davinci-003");
                  ("temperature", json.Number "0.8"); ("max_tokens", json.Number "2000") ]).
Proof.
  apply (payload_reads_back_member_by_member part_000_second "Say 'hi'" ""
           (mock "sk-test" (inr (net_Error "connection refused")))).
  discriminate.
Defined.

Lemma allBytes_app (p : ascii -> bool) (a b : string) :
  http.allBytes p (a ++ b) = http.allBytes p a && http.allBytes p b.
Proof.
  induction a as [|c a IH]; cbn; [reflexivity|]. rewrite IH. apply andb_assoc.
Qed.

Lemma allBytes_weaken (p r : ascii -> bool) (s : string) :
  (forall c, p c = true -> r c = true) ->
  http.allBytes p s = true -> http.allBytes r s = true.
Proof.
  intro H. induction s as [|c s IH]; cbn; [reflexivity|].
  intro Hs. apply andb_true_iff in Hs. destruct Hs as [Hc Hs].
  rewrite (H c Hc), (IH Hs). reflexivity.
Qed.

Lemma htmlSafe_wireSafe (b : ascii) : json.htmlSafe b = true -> wireSafe b = true.
Proof.
  unfold json.htmlSafe, wireSafe. intro H.
  repeat (apply andb_true_iff in H; destruct H as [H ?]).
  repeat (apply andb_true_iff; split); assumption.
Qed.

Lemma high_wireSafe (c : ascii) : (0x80 <=? code c) = true -> wireSafe c = true.
Proof.
  intro H. apply Z.leb_le in H. unfold wireSafe.
  rewrite leb_true by lia.
  rewrite !eqb_false_code; [reflexivity| | |].
  all: match goal with |- _ <> code ?x => vm_compute (code x) end; lia.
Qed.

Lemma escapeByte_wireSafe (b : ascii) :
  code b < 128 -> http.allBytes wireSafe (json.escapeByte b) = true.
Proof.
  intro Hc.
  destruct b as [[] [] [] [] [] [] [] []];
    try (exfalso; vm_compute in Hc; discriminate Hc);
    vm_compute; reflexivity.
Qed.

Lemma appendStringLoop_wireSafe (n : nat) :
  forall s : string, http.allBytes wireSafe (json.appendStringLoop n s) = true.
Proof.
  induction n as [|n IH]; intro s; [reflexivity|].
  destruct s as [|b t]; [reflexivity|].
  cbn [json.appendStringLoop]. unfold utf8.RuneSelf.
  destruct (code b <? 0x80) eqn:Hb; test_to_prop.
  - destruct (json.htmlSafe b) eqn:Hsafe.
    + cbn [http.allBytes]. rewrite htmlSafe_wireSafe, IH by exact Hsafe. reflexivity.
    + rewrite allBytes_app, escapeByte_wireSafe, IH by lia. reflexivity.
  - destruct (decode_spec b t) as [Hbad | Hok].
    + rewrite Hbad.
      replace ((utf8.RuneError =? utf8.RuneError) && (1 =? 1)%nat) with true by reflexivity.
      rewrite allBytes_app, IH. reflexivity.
    + pose proof (validRune_ascii _ _ _ _ Hok Hb) as Hsize.
      pose proof (validRune_high _ _ _ Hok Hsize) as Hhigh.
      destruct (utf8.DecodeRuneInString (String b t)) as [c size] eqn:Hd.
      cbn [fst snd] in *.
      replace (size =? 1)%nat with false by (symmetry; apply Nat.eqb_neq; exact Hsize).
      rewrite andb_false_r.
      destruct ((c =? 0x2028) || (c =? 0x2029)) eqn:Hsep.
      * apply orb_true_iff in Hsep.
        destruct Hsep as [Hsep | Hsep]; apply Z.eqb_eq in Hsep; subst c;
          cbn -[json.appendStringLoop drop]; rewrite IH; reflexivity.
      * rewrite allBytes_app, IH, andb_true_r.
        apply (allBytes_weaken _ _ _ high_wireSafe Hhigh).
Qed.

Lemma appendString_wireSafe (s : string) :
  http.allBytes wireSafe (json.appendString s) = true.
Proof.
  unfold json.appendString. cbn [http.allBytes]. rewrite allBytes_app.
  rewrite appendStringLoop_wireSafe. reflexivity.
Qed.

Lemma requestText_wireSafe (v : variant) (prompt model : string) :
  http.allBytes wireSafe (requestText v prompt model) = true.
Proof.
  destruct v; unfold requestText;
    repeat (rewrite allBytes_app; rewrite ?appendString_wireSafe);
    vm_compute; reflexivity.
Qed.

(** X4: with the credential there, the payload of the request that is
    sent holds no control byte and none of [<], [>] and [&], whatever
    bytes the prompt and the model hold: the encoder escapes them. *)
Theorem payload_has_no_control_or_markup_byte
  (v : variant) (prompt model : string) (w : World) :
  credential w <> "" ->
  exists req : http.Request,
    sent (trace (snd (generateText v prompt model w))) = (sent (trace w) ++ [req])%list
    /\ http.allBytes wireSafe (http.Body req) = true.
Proof.
  intro Hkey. exists (requestOf v (credential w) prompt model).
  split; [apply sent_generateText; exact Hkey|].
  apply requestText_wireSafe.
Qed.

Lemma payload_has_no_control_or_markup_byte_witness :
  exists req : http.Request,
    sent (trace (snd (generateText main_go (String newline "<b>&") ""
                        (mock "sk-test" (inr (net_Error "connection refused"))))))
    = [req]
    /\ http.allBytes wireSafe (http.Body req) = true.
Proof.
  apply (payload_has_no_control_or_markup_byte main_go (String newline "<b>&") ""
           (mock "sk-test" (inr (net_Error "connection refused")))).
  discriminate.
Defined.

(** X5: two runs on the same prompt and model whose worlds hold
    different credentials send requests with the same method, the same
    URL, the same body and the same header names; only the one value of
    the header [Authorization] tells them apart. *)
Theorem credential_is_only_in_the_authorization_header
  (v : variant) (prompt model : string) (w1 w2 : World) :
  credential w1 <> "" -> credential w2 <> "" ->
  exists r1 r2 : http.Request,
    sent (trace (snd (generateText v prompt model w1))) = (sent (trace w1) ++ [r1])%list
    /\ sent (trace (snd (generateText v prompt model w2))) = (sent (trace w2) ++ [r2])%list
    /\ http.Method r1 = http.Method r2
    /\ http.URL r1 = http.URL r2
    /\ http.Body r1 = http.Body r2
    /\ map fst (http.Headers r1) = map fst (http.Headers r2)
    /\ http.Header_Get (http.Headers r1) "Content-Type"
       = http.Header_Get (http.Headers r2) "Content-Type"
    /\ http.Header_Values (http.Headers r1) "Authorization" = ["Bearer " ++ credential w1]%string
    /\ http.Header_Values (http.Headers r2) "Authorization" = ["Bearer " ++ credential w2]%string.
Proof.
  intros H1 H2.
  exists (requestOf v (credential w1) prompt model), (requestOf v (credential w2) prompt model).
  split; [apply sent_generateText; exact H1|].
  split; [apply sent_generateText; exact H2|].
  repeat split.
Qed.

Lemma credential_is_only_in_the_authorization_header_witness :
  exists r1 r2 : http.Request,
    sent (trace (snd (generateText main_go "prompt" ""
                        (mock "sk-one" (inr (net_Error "connection refused")))))) = [r1]
    /\ sent (trace (snd (generateText main_go "prompt" ""
                           (mock "sk-two" (inr (net_Error "connection refused")))))) = [r2]
    /\ http.Method r1 = http.Method r2
    /\ http.URL r1 = http.URL r2
    /\ http.Body r1 = http.Body r2
    /\ map fst (http.Headers r1) = map fst (http.Headers r2)
    /\ http.Header_Get (http.Headers r1) "Content-Type"
       = http.Header_Get (http.Headers r2) "Content-Type"
    /\ http.Header_Values (http.Headers r1) "Authorization" = ["Bearer sk-one"]
    /\ http.Header_Values (http.Headers r2) "Authorization" = ["Bearer sk-two"].
Proof.
  apply (credential_is_only_in_the_authorization_header main_go "prompt" ""
           (mock "sk-one" (inr (net_Error "connection refused")))
           (mock "sk-two" (inr (net_Error "connection refused")))).
  - discriminate.
  - discriminate.
Defined.

(** ** The response, byte by byte *)

Lemma scanBytes_end (j : json.Value) (tail : string) :
  json.scanBytes (json.scanEnd j) tail = json.scanEnd j.
Proof. induction tail as [|c tail IH]; [reflexivity | exact IH]. Qed.

Lemma readValue_first (data tail : string) (j : json.Value) (rerr : option error) :
  json.scanBytes json.reset data = json.scanEnd j ->
  json.readValue (data ++ tail) rerr = inl j.
Proof.
  intro H. unfold json.readValue. rewrite scanBytes_app, H, scanBytes_end. reflexivity.
Qed.

(** X6: the decoder reads the first JSON value of the body and no
    further.  When the scanner has seen the first value of the body end
    within the body, as it has at the bracket that closes an object or an
    array, a response of the same status whose body goes on after it,
    with any bytes and any reading error, gives the same result.  A bare
    string, number or literal at the top level is not of this kind: the
    scanner sees it end only at the byte after it. *)
Theorem bytes_after_the_first_value_are_ignored
  (v : variant) (prompt model : string) (w1 w2 : World) (r1 r2 : http.Response)
  (j : json.Value) (tail : string) :
  credential w1 <> "" -> credential w2 <> "" ->
  answer w1 v prompt model = inl r1 ->
  answer w2 v prompt model = inl r2 ->
  http.StatusCode r2 = http.StatusCode r1 ->
  json.scanBytes json.reset (http.RespBody r1) = json.scanEnd j ->
  http.RespBody r2 = (http.RespBody r1 ++ tail)%string ->
  fst (generateText v prompt model w2) = fst (generateText v prompt model w1).
Proof.
  intros Hk1 Hk2 Ha1 Ha2 Hcode Hscan Hbody.
  rewrite (generateText_with_credential v _ _ w1 Hk1), (generateText_with_credential v _ _ w2 Hk2).
  cbv zeta. rewrite Ha1, Ha2. unfold afterResponse. rewrite Hcode.
  destruct (negb (http.StatusCode r1 =? http.StatusOK)); [reflexivity|].
  unfold json.Decode. rewrite Hbody, (readValue_first _ tail j _ Hscan).
  pose proof (readValue_first _ EmptyString j (http.RespErr r1) Hscan) as Hfirst.
  rewrite append_empty in Hfirst. rewrite Hfirst.
  destruct (json.value j _ _ None) as [cr [err|]]; [reflexivity|]. cbv zeta.
  destruct (0 <? reflect.Len (field cr "Choices"))%nat; reflexivity.
Qed.

Lemma bytes_after_the_first_value_are_ignored_witness :
  fst (generateText main_go "prompt" ""
         (mock "sk-test" (inl (http.mkResponse 200 (q "{'choices':[{'text':'one'}]}]]garbage")
                                 (Some io_ErrUnexpectedEOF)))))
  = fst (generateText main_go "prompt" ""
           (mock "sk-test" (inl (http.mkResponse 200 (q "{'choices':[{'text':'one'}]}") None)))).
Proof.
  apply (bytes_after_the_first_value_are_ignored main_go "prompt" ""
           (mock "sk-test" (inl (http.mkResponse 200 (q "{'choices':[{'text':'one'}]}") None)))
           (mock "sk-test" (inl (http.mkResponse 200 (q "{'choices':[{'text':'one'}]}]]garbage")
                                   (Some io_ErrUnexpectedEOF))))
           (http.mkResponse 200 (q "{'choices':[{'text':'one'}]}") None)
           (http.mkResponse 200 (q "{'choices':[{'text':'one'}]}]]garbage") (Some io_ErrUnexpectedEOF))
           (json.Object [("choices", json.Array [json.Object [("text", json.Str "one")]])])
           "]]garbage").
  - discriminate.
  - discriminate.
  - reflexivity.
  - reflexivity.
  - reflexivity.
  - vm_compute. reflexivity.
  - reflexivity.
Defined.

Lemma scan_choiceText (text : string) (elems : list json.Value) (lst : option json.Value)
  (rest : string) :
  json.scanBytes
    (json.scanContinue
       (json.mkScanner json.BeginValue
          [json.parseArrayValue elems; json.parseObjectValue [] "choices"] EmptyString lst))
    (choiceText text ++ rest)
  = json.scanBytes
      (json.scanContinue
         (json.mkScanner json.EndValue
            [json.parseArrayValue elems; json.parseObjectValue [] "choices"] EmptyString
            (Some (choiceJSON text))))
      rest.
Proof.
  unfold choiceText, choiceJSON. remember (coerce text) as ct eqn:Hct.
  rewrite !append_assoc.
  scan_chunk. rewrite scan_appendString, <- Hct.
  scan_chunk. reflexivity.
Qed.

Lemma scan_moreChoices (others : list string) :
  forall (elems : list json.Value) (x : json.Value),
  json.scanBytes
    (json.scanContinue
       (json.mkScanner json.EndValue
          [json.parseArrayValue elems; json.parseObjectValue [] "choices"] EmptyString (Some x)))
    (moreChoices others ++ "]}")
  = json.scanEnd
      (json.Object [("choices", json.Array (elems ++ x :: map choiceJSON others))]).
Proof.
  induction others as [|t others IH]; intros elems x.
  - vm_compute. reflexivity.
  - cbn [moreChoices map]. rewrite !append_assoc.
    scan_chunk. rewrite scan_choiceText, IH, <- app_assoc. reflexivity.
Qed.

Lemma scan_responseText (text : string) (others : list string) :
  json.scanBytes json.reset (responseText text others)
  = json.scanEnd (json.Object [("choices", json.Array (map choiceJSON (text :: others)))]).
Proof.
  unfold responseText.
  scan_chunk. 
  match goal with
  | |- json.scanBytes (json.scanContinue (json.mkScanner _ ?ps _ ?l)) _ = _ =>
    transitivity (json.scanBytes
      (json.scanContinue (json.mkScanner json.EndValue ps EmptyString (Some (choiceJSON text))))
      (moreChoices others ++ "]}"))
  end.
  - unfold choiceText, choiceJSON. remember (coerce text) as ct eqn:Hct.
    rewrite !append_assoc.
    scan_chunk. rewrite scan_appendString, <- Hct.
    scan_chunk. reflexivity.
  - rewrite scan_moreChoices. reflexivity.
Qed.

Lemma value_array (es : list json.Value) (et : reflect.rtype) (v : reflect.Value)
  (saved : option error) :
  json.value (json.Array es) (reflect.TSlice et) v saved
  = let '(array, saved') := arrayLoop et es O (reflect.arrayOf v) saved in
    match es with
    | [] => (reflect.VSlice [] O, saved')
    | _ => (reflect.VSlice array (List.length es), saved')
    end.
Proof.
  cbn [json.value].
  match goal with
  | |- (let '(_, _) := ?loop es O (reflect.arrayOf v) saved in _) = _ =>
    assert (Hloop : forall es i a s, loop es i a s = arrayLoop et es i a s)
  end.
  { clear. induction es as [|e es IH]; intros i a s; [reflexivity|].
    cbn [arrayLoop]. destruct (json.value e et (nth i a (reflect.Zero et)) s) as [x s1].
    apply IH. }
  rewrite Hloop. reflexivity.
Qed.

Lemma value_member (key : string) (jv : json.Value) (sname : string)
  (fields : list (string * string * reflect.rtype)) (vs : list (string * reflect.Value))
  (name tag : string) (ft : reflect.rtype) (cur : reflect.Value) (saved : option error) :
  json.findField fields key = Some (name, tag, ft) ->
  reflect.lookup name vs = Some cur ->
  json.value (json.Object [(key, jv)]) (reflect.TStruct sname fields) (reflect.VStruct vs) saved
  = let '(x, saved1) := json.value jv ft cur saved in
    (reflect.VStruct (reflect.store name x vs), saved1).
Proof.
  intros Hfield Hcur. cbn [json.value]. rewrite Hfield, Hcur.
  destruct (json.value jv ft cur saved) as [x s1]. reflexivity.
Qed.

Lemma value_choice (v : variant) (s : string) (saved : option error) :
  json.value (json.Object [("text", json.Str s)]) (Choice v) (reflect.Zero (Choice v)) saved
  = (choiceValue v s, saved).
Proof. destruct v; reflexivity. Qed.

Lemma choiceValue_Text (v : variant) (s : string) :
  stringOf (field (choiceValue v s) "Text") = s.
Proof. destruct v; reflexivity. Qed.

Lemma setNth_end (x : reflect.Value) (a : list reflect.Value) :
  reflect.setNth (List.length a) x a = (a ++ [x])%list.
Proof. induction a as [|y a IH]; [reflexivity|]. cbn. rewrite IH. reflexivity. Qed.

Lemma arrayLoop_choices (v : variant) (texts : list string) :
  forall a : list reflect.Value,
  arrayLoop (Choice v) (map choiceJSON texts) (List.length a) a None
  = ((a ++ map (fun t => choiceValue v (coerce t)) texts)%list, None).
Proof.
  induction texts as [|t texts IH]; intro a.
  - cbn. rewrite app_nil_r. reflexivity.
  - cbn [map arrayLoop]. rewrite nth_overflow by apply Nat.le_refl.
    unfold choiceJSON at 1. rewrite value_choice, setNth_end.
    replace (Datatypes.S (List.length a)) with (List.length (a ++ [choiceValue v (coerce t)])%list)
      by (rewrite length_app, Nat.add_comm; reflexivity).
    rewrite IH, <- app_assoc. reflexivity.
Qed.

Lemma Decode_responseText (v : variant) (text : string) (others : list string)
  (rerr : option error) :
  exists cr : reflect.Value,
    json.Decode (responseText text others) rerr (CompletionResponse v)
      (reflect.Zero (CompletionResponse v)) = (cr, None)
    /\ field cr "Choices"
       = reflect.VSlice (map (fun t => choiceValue v (coerce t)) (text :: others))
                        (Datatypes.S (List.length others)).
Proof.
  unfold json.Decode.
  pose proof (readValue_first _ EmptyString _ rerr (scan_responseText text others)) as Hread.
  rewrite append_empty in Hread. rewrite Hread.
  assert (Harr : json.value (json.Array (map choiceJSON (text :: others)))
                   (reflect.TSlice (Choice v)) reflect.VNil None
                 = (reflect.VSlice (map (fun t => choiceValue v (coerce t)) (text :: others))
                      (Datatypes.S (List.length others)), None)).
  { rewrite value_array. change (reflect.arrayOf reflect.VNil) with (@nil reflect.Value).
    pose proof (arrayLoop_choices v (text :: others) []) as Hloop.
    cbn [List.length app] in Hloop. rewrite Hloop.
    cbn [map List.length]. rewrite length_map. reflexivity. }
  destruct v.
  all: match goal with
       | |- context [json.value _ (CompletionResponse ?v) ?z None] =>
         let z' := eval vm_compute in z in
         change z with z'; unfold CompletionResponse;
         rewrite (value_member "choices" _ _ _ _ "Choices" "choices"
                    (reflect.TSlice (Choice v)) reflect.VNil None) by reflexivity
       end.
  all: rewrite Harr; eexists; split; reflexivity.
Qed.

Lemma afterResponse_responseText (v : variant) (resp : http.Response) (w : World)
  (text : string) (others : list string) :
  http.StatusCode resp = http.StatusOK ->
  http.RespBody resp = responseText text others ->
  fst (afterResponse v resp w) = Returns (coerce text, None).
Proof.
  intros Hcode Hbody.
  unfold afterResponse. rewrite Hcode, Z.eqb_refl. simpl negb. cbv iota.
  rewrite Hbody.
  destruct (Decode_responseText v text others (http.RespErr resp)) as [cr [Hdec Hchoices]].
  rewrite Hdec. cbv zeta. rewrite Hchoices.
  cbn [reflect.Len reflect.arrayOf map nth].
  change (0 <? Datatypes.S (List.length others))%nat with true. cbv iota.
  rewrite choiceValue_Text. reflexivity.
Qed.

(** X7: with the credential there and a response of status 200 whose
    body is the object [{"choices":[{"text":t}, ...]}] as [encoding/json]
    writes it, for any text [t] and any number of further choices,
    [generateText] returns [t], coerced to valid UTF-8, and no error. *)
Theorem first_text_comes_back_from_the_wire
  (v : variant) (prompt model : string) (w : World) (resp : http.Response)
  (text : string) (others : list string) :
  credential w <> "" ->
  answer w v prompt model = inl resp ->
  http.StatusCode resp = http.StatusOK ->
  http.RespBody resp = responseText text others ->
  fst (generateText v prompt model w) = Returns (coerce text, None).
Proof.
  intros Hkey Hans Hcode Hbody.
  rewrite (generateText_with_credential v _ _ w Hkey). cbv zeta.
  rewrite Hans. apply (afterResponse_responseText v resp _ text others Hcode Hbody).
Qed.

Lemma first_text_comes_back_from_the_wire_witness :
  fst (generateText main_go "prompt" ""
         (mock "sk-test"
            (inl (http.mkResponse 200 (responseText "a <b> line" ["two"; "three"]) None))))
  = Returns ("a <b> line", None).
Proof.
  apply (first_text_comes_back_from_the_wire main_go "prompt" ""
           (mock "sk-test"
              (inl (http.mkResponse 200 (responseText "a <b> line" ["two"; "three"]) None)))
           (http.mkResponse 200 (responseText "a <b> line" ["two"; "three"]) None)
           "a <b> line" ["two"; "three"]).
  - discriminate.
  - reflexivity.
  - reflexivity.
  - reflexivity.
Defined.

Lemma value_object (ms : list (string * json.Value)) (sname : string)
  (fields : list (string * string * reflect.rtype)) :
  forall (v : reflect.Value) (saved : option error),
  json.value (json.Object ms) (reflect.TStruct sname fields) v saved
  = objectLoop fields ms v saved.
Proof.
  cbn [json.value].
  induction ms as [|[key jv] ms IH]; intros v saved; [reflexivity|].
  cbn [objectLoop].
  destruct (json.findField fields key) as [[[name tag] ft]|]; [|apply IH].
  destruct v; try apply IH.
  destruct (reflect.lookup name fields0) as [cur|]; [|apply IH].
  destruct (json.value jv ft cur saved) as [x s1]. apply IH.
Qed.

Lemma objectLoop_known (fields : list (string * string * reflect.rtype))
  (ms : list (string * json.Value)) :
  forall (v : reflect.Value) (saved : option error),
  objectLoop fields ms v saved = objectLoop fields (filter (known fields) ms) v saved.
Proof.
  induction ms as [|[key jv] ms IH]; intros v saved; [reflexivity|].
  cbn [filter]. unfold known at 1. cbn [fst objectLoop].
  destruct (json.findField fields key) as [[[name tag] ft]|] eqn:Hfield; [|apply IH].
  cbn [objectLoop]. rewrite Hfield.
  destruct v; try apply IH.
  destruct (reflect.lookup name fields0) as [cur|]; [|apply IH].
  destruct (json.value jv ft cur saved) as [x s1]. apply IH.
Qed.

Lemma Decode_known (v : variant) (body1 body2 : string) (rerr1 rerr2 : option error)
  (members : list (string * json.Value)) :
  json.readValue body1 rerr1
    = inl (json.Object (filter (known (fieldsOf (CompletionResponse v))) members)) ->
  json.readValue body2 rerr2 = inl (json.Object members) ->
  json.Decode body2 rerr2 (CompletionResponse v) (reflect.Zero (CompletionResponse v))
  = json.Decode body1 rerr1 (CompletionResponse v) (reflect.Zero (CompletionResponse v)).
Proof.
  intros H1 H2. unfold json.Decode. rewrite H1, H2.
  assert (Ht : CompletionResponse v
               = reflect.TStruct "main.CompletionResponse" (fieldsOf (CompletionResponse v)))
    by (destruct v; reflexivity).
  rewrite Ht at 1 4. rewrite !value_object. apply objectLoop_known.
Qed.

(** X8: the members of the response object whose key names no field of
    [CompletionResponse] are skipped, whatever they hold: a response
    whose body reads as an object gives the same result as the response
    of the same status whose body reads as that object without them. *)
Theorem unknown_members_are_skipped
  (v : variant) (prompt model : string) (w1 w2 : World) (r1 r2 : http.Response)
  (members : list (string * json.Value)) :
  credential w1 <> "" -> credential w2 <> "" ->
  answer w1 v prompt model = inl r1 ->
  answer w2 v prompt model = inl r2 ->
  http.StatusCode r2 = http.StatusCode r1 ->
  json.readValue (http.RespBody r1) (http.RespErr r1)
    = inl (json.Object (filter (known (fieldsOf (CompletionResponse v))) members)) ->
  json.readValue (http.RespBody r2) (http.RespErr r2) = inl (json.Object members) ->
  fst (generateText v prompt model w2) = fst (generateText v prompt model w1).
Proof.
  intros Hk1 Hk2 Ha1 Ha2 Hcode H1 H2.
  rewrite (generateText_with_credential v _ _ w1 Hk1), (generateText_with_credential v _ _ w2 Hk2).
  cbv zeta. rewrite Ha1, Ha2. unfold afterResponse. rewrite Hcode.
  destruct (negb (http.StatusCode r1 =? http.StatusOK)); [reflexivity|].
  rewrite (Decode_known v _ _ _ _ members H1 H2).
  destruct (json.Decode _ _ _ _) as [cr [err|]]; [reflexivity|]. cbv zeta.
  destruct (0 <? reflect.Len (field cr "Choices"))%nat; reflexivity.
Qed.

Lemma unknown_members_are_skipped_witness :
  fst (generateText main_go "prompt" ""
         (mock "sk-test"
            (inl (http.mkResponse 200
                    (q "{'object':'text_completion','choices':[{'text':'one'}],'usage':{'total_tokens':7}}")
                    None))))
  = fst (generateText main_go "prompt" ""
           (mock "sk-test" (inl (http.mkResponse 200 (q "{'choices':[{'text':'one'}]}") None)))).
Proof.
  apply (unknown_members_are_skipped main_go "prompt" ""
           (mock "sk-test" (inl (http.mkResponse 200 (q "{'choices':[{'text':'one'}]}") None)))
           (mock "sk-test"
              (inl (http.mkResponse 200
                      (q "{'object':'text_completion','choices':[{'text':'one'}],'usage':{'total_tokens':7}}")
                      None)))
           (http.mkResponse 200 (q "{'choices':[{'text':'one'}]}") None)
           (http.mkResponse 200
              (q "{'object':'text_completion','choices':[{'text':'one'}],'usage':{'total_tokens':7}}")
              None)
           [ ("object", json.Str "text_completion");
             ("choices", json.Array [json.Object [("text", json.Str "one")]]);
             ("usage", json.Object [("total_tokens", json.Number "7")]) ]).
  - discriminate.
  - discriminate.
  - reflexivity.
  - reflexivity.
  - reflexivity.
  - vm_compute. reflexivity.
  - vm_compute. reflexivity.
Defined.

(** ** A body that does not decode *)


















(** * Properties of [main] *)

(** ** The line that is read *)

Lemma at_app (pre : string) (c : ascii) (t : string) :
  at_ (pre ++ String c t) (String.length pre) = c.
Proof.
  unfold at_. induction pre as [|b pre IH]; [reflexivity | exact IH].
Qed.

Lemma substring_app (pre core post : string) :
  substring (String.length pre) (String.length core) (pre ++ core ++ post) = core.
Proof.
  induction pre as [|b pre IH]; [|exact IH]. cbn [String.length append].
  induction core as [|c core IHc]; cbn.
  - destruct post; reflexivity.
  - rewrite IHc. reflexivity.
Qed.

Lemma substring_empty (n : nat) (s : string) : substring n 0 s = EmptyString.
Proof.
  revert s. induction n as [|n IH]; intros [|c s]; cbn; try reflexivity. apply IH.
Qed.

Lemma snoc_lastByte (s : string) :
  s <> EmptyString -> exists a : string, s = (a ++ String (lastByte s) EmptyString)%string.
Proof.
  induction s as [|c s IH]; intro H; [congruence|].
  destruct s as [|d s].
  - exists EmptyString. reflexivity.
  - destruct IH as [a Ha]; [discriminate|]. exists (String c a).
    change (lastByte (String c (String d s))) with (lastByte (String d s)).
    cbn [append]. rewrite <- Ha. reflexivity.
Qed.

Lemma snoc_cases (s : string) :
  s = EmptyString \/ exists (a : string) (c : ascii), s = (a ++ String c EmptyString)%string.
Proof.
  destruct s as [|c s]; [left; reflexivity|]. right.
  destruct (snoc_lastByte (String c s)) as [a Ha]; [discriminate|]. eauto.
Qed.

Lemma asciiSpace_low (c : ascii) :
  strings.asciiSpace c = true -> (utf8.RuneSelf <=? code c) = false.
Proof.
  unfold strings.asciiSpace, utf8.RuneSelf. intro H. apply Z.leb_gt.
  apply orb_true_iff in H. destruct H as [H | H].
  - apply andb_true_iff in H. destruct H as [_ H]. apply Z.leb_le in H. lia.
  - apply Z.eqb_eq in H. lia.
Qed.

Lemma edge_stops (c : ascii) :
  edge c = true -> (utf8.RuneSelf <=? code c) = false /\ strings.asciiSpace c = false.
Proof.
  unfold edge. intro H. apply andb_true_iff in H. destruct H as [H1 H2].
  split; [apply Z.leb_gt; apply Z.ltb_lt; exact H1 | apply negb_true_iff; exact H2].
Qed.

Lemma trimStart_blanks (ws : string) :
  forall (pre rest : string) (fuel : nat),
  http.allBytes strings.asciiSpace ws = true ->
  match rest with EmptyString => True | String c _ => edge c = true end ->
  (String.length ws + String.length rest <= fuel)%nat ->
  strings.trimStart fuel (pre ++ ws ++ rest) (String.length pre)
  = inl (String.length pre + String.length ws)%nat.
Proof.
  induction ws as [|c ws IH]; intros pre rest fuel Hws Hrest Hfuel.
  - cbn [append String.length] in *. rewrite Nat.add_0_r.
    destruct rest as [|c t].
    + destruct fuel; cbn [strings.trimStart]; [reflexivity|].
      rewrite append_empty, Nat.ltb_irrefl. reflexivity.
    + destruct fuel as [|fuel]; [cbn in Hfuel; lia|]. cbn [strings.trimStart].
      rewrite append_length. cbn [String.length].
      replace (String.length pre <? String.length pre + Datatypes.S (String.length t))%nat
        with true by (symmetry; apply Nat.ltb_lt; lia).
      rewrite at_app. destruct (edge_stops c Hrest) as [-> ->]. reflexivity.
  - cbn [http.allBytes] in Hws. apply andb_true_iff in Hws. destruct Hws as [Hc Hws].
    destruct fuel as [|fuel]; [cbn in Hfuel; lia|]. cbn [strings.trimStart].
    cbn [append]. rewrite append_length. cbn [String.length].
    replace (String.length pre <? String.length pre + Datatypes.S (String.length (ws ++ rest)))%nat
      with true by (symmetry; apply Nat.ltb_lt; lia).
    rewrite at_app, (asciiSpace_low c Hc), Hc. cbn [negb].
    replace (pre ++ String c (ws ++ rest))%string
      with ((pre ++ String c EmptyString) ++ ws ++ rest)%string
      by (rewrite append_assoc; reflexivity).
    replace (Datatypes.S (String.length pre)) with (String.length (pre ++ String c EmptyString))
      by (rewrite append_length; cbn; lia).
    rewrite IH; [|exact Hws|exact Hrest|cbn in Hfuel; lia].
    rewrite append_length. cbn [String.length]. f_equal. lia.
Qed.

Lemma trimStop_blanks (n : nat) :
  forall (ws pre core post : string) (fuel : nat),
  String.length ws = n ->
  http.allBytes strings.asciiSpace ws = true ->
  (core = EmptyString \/ edge (lastByte core) = true) ->
  (String.length core + String.length ws <= fuel)%nat ->
  strings.trimStop fuel ((pre ++ core ++ ws) ++ post) (String.length pre)
    (String.length (pre ++ core ++ ws))
  = inl (String.length pre + String.length core)%nat.
Proof.
  induction n as [|n IH]; intros ws pre core post fuel Hn Hws Hcore Hfuel.
  - destruct ws; [|discriminate]. rewrite append_empty.
    destruct (snoc_cases core) as [-> | [a [c ->]]].
    + rewrite append_empty, Nat.add_0_r.
      destruct fuel; cbn [strings.trimStop]; [reflexivity|].
      rewrite Nat.ltb_irrefl. reflexivity.
    + destruct Hcore as [Hcore | Hcore]; [destruct a; discriminate|].
      assert (Hlast : lastByte (a ++ String c EmptyString) = c).
      { clear. induction a as [|b a IHa]; [reflexivity|].
        cbn [append lastByte]. rewrite IHa. destruct a; reflexivity. }
      rewrite Hlast in Hcore.
      destruct fuel as [|fuel]; [rewrite append_length in Hfuel; cbn in Hfuel; lia|].
      cbn [strings.trimStop]. rewrite !append_length. cbn [String.length].
      replace (String.length pre <? String.length pre + (String.length a + 1))%nat
        with true by (symmetry; apply Nat.ltb_lt; lia).
      replace (String.length pre + (String.length a + 1) - 1)%nat
        with (String.length (pre ++ a)) by (rewrite append_length; lia).
      replace ((pre ++ a ++ String c EmptyString) ++ post)%string
        with ((pre ++ a) ++ String c post)%string
        by (rewrite !append_assoc; reflexivity).
      rewrite at_app. destruct (edge_stops c Hcore) as [-> ->]. reflexivity.
  - destruct (snoc_cases ws) as [-> | [ws' [c ->]]]; [discriminate|].
    rewrite append_length in Hn. cbn in Hn.
    rewrite allBytes_app in Hws. apply andb_true_iff in Hws. destruct Hws as [Hws Hc].
    cbn [http.allBytes] in Hc. rewrite andb_true_r in Hc.
    destruct fuel as [|fuel]; [rewrite append_length in Hfuel; cbn in Hfuel; lia|].
    cbn [strings.trimStop]. rewrite !append_length. cbn [String.length].
    replace (String.length pre
             <? String.length pre + (String.length core + (String.length ws' + 1)))%nat
      with true by (symmetry; apply Nat.ltb_lt; lia).
    replace (String.length pre + (String.length core + (String.length ws' + 1)) - 1)%nat
      with (String.length (pre ++ core ++ ws')) by (rewrite !append_length; lia).
    replace ((pre ++ core ++ ws' ++ String c EmptyString) ++ post)%string
      with ((pre ++ core ++ ws') ++ String c post)%string
      by (rewrite !append_assoc; reflexivity).
    rewrite at_app, (asciiSpace_low c Hc), Hc. cbn [negb].
    apply IH; [lia | exact Hws | exact Hcore |].
    rewrite append_length in Hfuel. cbn in Hfuel. lia.
Qed.

Lemma edges_cases (core : string) :
  edges core = true ->
  core = EmptyString
  \/ (edge (lastByte core) = true /\ exists c t, core = String c t /\ edge c = true).
Proof.
  destruct core as [|c t]; [left; reflexivity|]. intro H. right.
  unfold edges in H. apply andb_true_iff in H. destruct H as [H1 H2].
  split; [exact H2|]. exists c, t. split; [reflexivity | exact H1].
Qed.

(** [TrimSpace] takes the blanks off both ends of a text whose first and
    last bytes are ASCII and no space. *)
Lemma TrimSpace_blanks (ws1 core ws2 : string) :
  http.allBytes strings.asciiSpace ws1 = true ->
  http.allBytes strings.asciiSpace ws2 = true ->
  edges core = true ->
  strings.TrimSpace (ws1 ++ core ++ ws2) = core.
Proof.
  intros H1 H2 Hcore. unfold strings.TrimSpace.
  destruct (edges_cases core Hcore) as [-> | [Hlast [c [t [-> Hc]]]]].
  - cbn [append].
    pose proof (trimStart_blanks (ws1 ++ ws2) EmptyString EmptyString
                  (String.length (ws1 ++ ws2))) as Hstart.
    cbn [append String.length] in Hstart. rewrite append_empty in Hstart.
    rewrite Hstart; [|rewrite allBytes_app, H1, H2; reflexivity | exact I | lia].
    cbn [Nat.add].
    destruct (String.length (ws1 ++ ws2)) eqn:Hlen; cbn [strings.trimStop].
    + unfold strings.slice. apply substring_empty.
    + rewrite Nat.ltb_irrefl. unfold strings.slice. rewrite Nat.sub_diag. apply substring_empty.
  - pose proof (trimStart_blanks ws1 EmptyString (String c t ++ ws2)
                  (String.length (ws1 ++ String c t ++ ws2))) as Hstart.
    cbn [append String.length] in Hstart. cbn [append].
    rewrite Hstart;
      [|exact H1 | exact Hc | rewrite !append_length; cbn [String.length]; rewrite ?append_length; lia].
    cbn [Nat.add].
    pose proof (trimStop_blanks (String.length ws2) ws2 ws1 (String c t) EmptyString
                  (String.length (ws1 ++ String c t ++ ws2))) as Hstop.
    rewrite append_empty in Hstop. cbn [append] in Hstop.
    rewrite Hstop; [|reflexivity | exact H2 | right; exact Hlast
                    |repeat (rewrite append_length || cbn [append String.length]); lia].
    unfold strings.slice.
    replace (String.length ws1 + String.length (String c t) - String.length ws1)%nat
      with (String.length (String c t)) by lia.
    apply (substring_app ws1 (String c t) ws2).
Qed.

Lemma ReadString_line (line ending : string) :
  http.allBytes inLine line = true ->
  lineEnd ending = true ->
  fst (bufio.ReadString (line ++ ending) newline)
  = (line ++ match ending with EmptyString => EmptyString | _ => String newline EmptyString end)%string.
Proof.
  intros Hline Hend. induction line as [|c line IH].
  - cbn [append]. destruct ending as [|c t]; [reflexivity|].
    cbn in Hend. cbn [bufio.ReadString]. rewrite Hend.
    apply Ascii.eqb_eq in Hend. subst c. reflexivity.
  - cbn [http.allBytes] in Hline. apply andb_true_iff in Hline. destruct Hline as [Hc Hline].
    cbn [append bufio.ReadString]. apply negb_true_iff in Hc. rewrite Hc.
    specialize (IH Hline).
    destruct (bufio.ReadString (line ++ ending) newline) as [l e]. cbn [fst] in *.
    rewrite IH. reflexivity.
Qed.

Lemma blank_split (s : string) :
  http.allBytes blank s = true ->
  http.allBytes strings.asciiSpace s = true
  /\ http.allBytes inLine s = true.
Proof.
  intro H. split; refine (allBytes_weaken blank _ s _ H); intros c Hc;
    unfold blank in Hc; apply andb_true_iff in Hc; tauto.
Qed.

(** The prompt [main] takes from a line: the line without the blanks
    around it and without its line feed. *)
Lemma promptOf_line (ws1 core ws2 ending : string) :
  http.allBytes blank ws1 = true ->
  http.allBytes blank ws2 = true ->
  http.allBytes inLine core = true ->
  edges core = true ->
  lineEnd ending = true ->
  promptOf (ws1 ++ core ++ ws2 ++ ending) = core.
Proof.
  intros H1 H2 Hcore Hedges Hend. unfold promptOf.
  destruct (blank_split ws1 H1) as [Hs1 Hn1]. destruct (blank_split ws2 H2) as [Hs2 Hn2].
  replace (ws1 ++ core ++ ws2 ++ ending)%string with ((ws1 ++ core ++ ws2) ++ ending)%string
    by (rewrite !append_assoc; reflexivity).
  rewrite ReadString_line; [| rewrite !allBytes_app, Hn1, Hcore, Hn2; reflexivity | exact Hend].
  rewrite !append_assoc.
  apply TrimSpace_blanks; [exact Hs1 | | exact Hedges].
  rewrite allBytes_app, Hs2. destruct ending; reflexivity.
Qed.

(** Every run of [main]: the prompt is read, [generateText] is called on
    it with the empty model, and its result decides what is printed. *)
Lemma main_unfold (v : variant) (stdin : string) (w : World) :
  main v stdin w =
  match generateText v (promptOf stdin) "" w with
  | (Panics e, w') => (Panics e, w', [fmt_Print "Enter prompt: "])
  | (Returns (_, Some err), w') =>
    (Returns tt, w', [fmt_Print "Enter prompt: "; fmt_Println (inr err)])
  | (Returns (result, None), w') =>
    (Returns tt, w', [fmt_Print "Enter prompt: "; fmt_Println (inl result)])
  end.
Proof.
  unfold main, promptOf. destruct (bufio.ReadString stdin newline) as [line e]. reflexivity.
Qed.

Lemma main_world (v : variant) (stdin : string) (w : World) :
  snd (fst (main v stdin w)) = snd (generateText v (promptOf stdin) "" w).
Proof.
  rewrite main_unfold.
  destruct (generateText v (promptOf stdin) "" w) as [[[text [err|]]|e] w']; reflexivity.
Qed.

(** X9: with the credential there, [main] sends one request, whose
    prompt is the first line of the standard input without the blanks
    around it and without its line feed, and whose model is the default
    one.  The line may end with the input; what follows its line feed is
    not read; a line of blanks only gives the empty prompt, which is sent
    like any other. *)
Theorem main_sends_the_trimmed_line
  (v : variant) (w : World) (ws1 core ws2 ending : string) :
  credential w <> "" ->
  http.allBytes blank ws1 = true ->
  http.allBytes blank ws2 = true ->
  http.allBytes inLine core = true ->
  edges core = true ->
  lineEnd ending = true ->
  sent (trace (snd (fst (main v (ws1 ++ core ++ ws2 ++ ending) w))))
  = (sent (trace w) ++ [requestOf v (credential w) core ""])%list.
Proof.
  intros Hkey H1 H2 Hcore Hedges Hend.
  rewrite main_world, (promptOf_line ws1 core ws2 ending H1 H2 Hcore Hedges Hend).
  apply sent_generateText. exact Hkey.
Qed.

Lemma main_sends_the_trimmed_line_witness :
  sent (trace (snd (fst (main main_go
                           ("  " ++ "tell me a joke"
                              ++ String (chr 9) (String (chr 13) EmptyString)
                              ++ String newline "a second line")
                           (mock "sk-test" (inr (net_Error "connection refused")))))))
  = [requestOf main_go "sk-test" "tell me a joke" ""].
Proof.
  apply (main_sends_the_trimmed_line main_go
           (mock "sk-test" (inr (net_Error "connection refused")))
           "  " "tell me a joke" (String (chr 9) (String (chr 13) EmptyString))
           (String newline "a second line")).
  - discriminate.
  - reflexivity.
  - reflexivity.
  - reflexivity.
  - reflexivity.
  - reflexivity.
Defined.

Lemma factor_refl (s : string) : factor s s.
Proof. exists EmptyString, EmptyString. cbn [append]. rewrite append_empty. reflexivity. Qed.














(** ** What is printed *)

(** X10: with the credential there and a response of status 200 whose
    body is the object [{"choices":[{"text":t}, ...]}], [main] prints the
    prompt for input and then [t], coerced to valid UTF-8, on a line, and
    ends normally. *)
Theorem main_prints_the_first_text
  (v : variant) (stdin : string) (w : World) (resp : http.Response)
  (text : string) (others : list string) :
  credential w <> "" ->
  answer w v (promptOf stdin) "" = inl resp ->
  http.StatusCode resp = http.StatusOK ->
  http.RespBody resp = responseText text others ->
  fst (fst (main v stdin w)) = Returns tt
  /\ snd (main v stdin w) = [fmt_Print "Enter prompt: "; fmt_Println (inl (coerce text))].
Proof.
  intros Hkey Hans Hcode Hbody.
  rewrite main_unfold, (generateText_with_credential v _ _ w Hkey). cbv zeta. rewrite Hans.
  pose proof (afterResponse_responseText v resp
                (record (record w (EvGetenv "OPENAI_API_KEY"))
                        (EvDo (requestOf v (credential w) (promptOf stdin) "")))
                text others Hcode Hbody) as Hres.
  destruct (afterResponse v resp _) as [o w']. cbn [fst] in Hres. subst o.
  split; reflexivity.
Qed.

Lemma main_prints_the_first_text_witness :
  fst (fst (main main_go (" hi " ++ String newline EmptyString)
              (mock "sk-test" (inl (http.mkResponse 200 (responseText "hello" []) None)))))
  = Returns tt
  /\ snd (main main_go (" hi " ++ String newline EmptyString)
            (mock "sk-test" (inl (http.mkResponse 200 (responseText "hello" []) None))))
     = [fmt_Print "Enter prompt: "; fmt_Println (inl "hello")].
Proof.
  apply (main_prints_the_first_text main_go (" hi " ++ String newline EmptyString)
           (mock "sk-test" (inl (http.mkResponse 200 (responseText "hello" []) None)))
           (http.mkResponse 200 (responseText "hello" []) None) "hello" []).
  - discriminate.
  - reflexivity.
  - reflexivity.
  - reflexivity.
Defined.

(** X11: without the credential, whatever the standard input holds,
    [main] prints the prompt for input and then the configuration error
    on a line, and ends normally; the process looked up the credential
    and did nothing else. *)
Theorem main_without_credential (v : variant) (stdin : string) (w : World) :
  credential w = "" ->
  main v stdin w =
    (Returns tt, record w (EvGetenv "OPENAI_API_KEY"),
     [fmt_Print "Enter prompt: ";
      fmt_Println (inr (errors.New "OPENAI_API_KEY environment variable not set"))]).
Proof.
  intro Hkey. rewrite main_unfold, generateText_unfold. cbv zeta.
  rewrite Hkey. reflexivity.
Qed.

Lemma main_without_credential_witness :
  main main_go "a prompt"
    (mock "" (inl (http.mkResponse 200 (q "{'choices':[{'text':'hello'}]}") None)))
  = (Returns tt,
     record (mock "" (inl (http.mkResponse 200 (q "{'choices':[{'text':'hello'}]}") None)))
            (EvGetenv "OPENAI_API_KEY"),
     [fmt_Print "Enter prompt: ";
      fmt_Println (inr (errors.New "OPENAI_API_KEY environment variable not set"))]).
Proof.
  apply (main_without_credential main_go "a prompt"
           (mock "" (inl (http.mkResponse 200 (q "{'choices':[{'text':'hello'}]}") None)))).
  reflexivity.
Defined.

(** X12: with the credential there, when the transport fails [main]
    prints its error on a line, and when the response has a status other
    than 200 [main] prints the error that carries the status; in both
    cases nothing else is printed after the prompt for input, and [main]
    ends normally. *)
Theorem main_reports_a_failed_request (v : variant) (stdin : string) (w : World) :
  credential w <> "" ->
  (forall err : error,
     answer w v (promptOf stdin) "" = inr err ->
     fst (fst (main v stdin w)) = Returns tt
     /\ snd (main v stdin w) = [fmt_Print "Enter prompt: "; fmt_Println (inr err)])
  /\ (forall resp : http.Response,
        answer w v (promptOf stdin) "" = inl resp ->
        http.StatusCode resp <> http.StatusOK ->
        fst (fst (main v stdin w)) = Returns tt
        /\ snd (main v stdin w)
           = [fmt_Print "Enter prompt: ";
              fmt_Println (inr (statusError (http.StatusCode resp)))]).
Proof.
  intro Hkey. rewrite main_unfold, (generateText_with_credential v _ _ w Hkey). cbv zeta.
  split.
  - intros err ->. split; reflexivity.
  - intros resp -> Hcode. unfold afterResponse.
    apply Z.eqb_neq in Hcode. rewrite Hcode. split; reflexivity.
Qed.

Lemma main_reports_a_failed_request_witness :
  fst (fst (main main_go "a prompt"
              (mock "sk-test" (inl (http.mkResponse 429 "Too Many Requests" None)))))
  = Returns tt
  /\ snd (main main_go "a prompt"
            (mock "sk-test" (inl (http.mkResponse 429 "Too Many Requests" None))))
     = [fmt_Print "Enter prompt: ";
        fmt_Println (inr (errorString "received non-200 status code: 429"))].
Proof.
  apply (proj2 (main_reports_a_failed_request main_go "a prompt"
                  (mock "sk-test" (inl (http.mkResponse 429 "Too Many Requests" None)))
                  ltac:(discriminate))
               (http.mkResponse 429 "Too Many Requests" None)).
  - reflexivity.
  - discriminate.
Defined.

(** X13: with the credential there, when the response has the status
    200 and decodes without error to no choice, [main] does not end
    normally: the panic of the index expression goes through it, and
    nothing was printed but the prompt for input. *)
Theorem main_panics_without_choices
  (v : variant) (stdin : string) (w : World) (resp : http.Response)
  (completionResponse : reflect.Value) :
  credential w <> "" ->
  answer w v (promptOf stdin) "" = inl resp ->
  http.StatusCode resp = http.StatusOK ->
  json.Decode (http.RespBody resp) (http.RespErr resp)
    (CompletionResponse v) (reflect.Zero (CompletionResponse v)) = (completionResponse, None) ->
  reflect.Len (field completionResponse "Choices") = O ->
  fst (fst (main v stdin w)) = Panics (boundsError 0 0)
  /\ snd (main v stdin w) = [fmt_Print "Enter prompt: "].
Proof.
  intros Hkey Hans Hcode Hdec Hlen.
  rewrite main_unfold, (generateText_with_credential v _ _ w Hkey). cbv zeta.
  rewrite Hans. unfold afterResponse. rewrite Hcode, Z.eqb_refl. simpl negb. cbv iota.
  rewrite Hdec. cbv zeta. rewrite Hlen. split; reflexivity.
Qed.

Lemma main_panics_without_choices_witness :
  fst (fst (main main_go "a prompt"
              (mock "sk-test" (inl (http.mkResponse 200 (q "{'error':{'message':'overloaded'}}") None)))))
  = Panics (boundsError 0 0)
  /\ snd (main main_go "a prompt"
            (mock "sk-test" (inl (http.mkResponse 200 (q "{'error':{'message':'overloaded'}}") None))))
     = [fmt_Print "Enter prompt: "].
Proof.
  apply (main_panics_without_choices main_go "a prompt"
           (mock "sk-test" (inl (http.mkResponse 200 (q "{'error':{'message':'overloaded'}}") None)))
           (http.mkResponse 200 (q "{'error':{'message':'overloaded'}}") None)
           (reflect.Zero (CompletionResponse main_go))).
  - discriminate.
  - reflexivity.
  - reflexivity.
  - vm_compute. reflexivity.
  - reflexivity.
Defined.
